(** * DigiGlucose-Insight: the orchestration and inference core

    A shallow embedding of [backend/app/agents.py], [backend/app/orchestrator.py]
    and [backend/app/weekly_report.py], and the properties of the
    specification that are settled against it.

    Conventions of the embedding:
    - a Python [str] is the list of its Unicode code points ([pystr]);
      literals are written as UTF-8 text and decoded by [u];
    - a Python [float] is a rational ([Q]); rounding, infinities and NaN
      are not modelled.  Float addition, multiplication and division
      never raise (they overflow to inf without a signal); the one float
      operation of these modules that does raise is the power [x ** 2]
      of the weekly report, whose OverflowError is modelled
      ([float_pow_2]);
    - a naive [datetime] is the number of microseconds since
      0001-01-01T00:00:00 (a Monday), a [timedelta] a number of microseconds;
      the clock is read once per call of an entry point (the argument [now]);
    - a Python exception is the [Raise] case of [result];
    - the database is a record of tables, each the list of its rows in
      insertion order; one [commit] is one state update. *)

From Stdlib Require Import ZArith NArith QArith Qabs Qround Lqa List String Ascii Bool Lia.
Import ListNotations.

Set Implicit Arguments.
Local Open Scope string_scope.
Local Open Scope list_scope.

(** ** Python strings *)

Definition pystr := list N.

Fixpoint utf8_decode (bs : list N) : pystr :=
  match bs with
  | [] => []
  | b0 :: r0 =>
    if (b0 <? 128)%N then b0 :: utf8_decode r0
    else if (b0 <? 224)%N then
      match r0 with
      | b1 :: r1 => ((b0 - 192) * 64 + (b1 - 128))%N :: utf8_decode r1
      | _ => []
      end
    else if (b0 <? 240)%N then
      match r0 with
      | b1 :: b2 :: r2 =>
        ((b0 - 224) * 4096 + (b1 - 128) * 64 + (b2 - 128))%N :: utf8_decode r2
      | _ => []
      end
    else
      match r0 with
      | b1 :: b2 :: b3 :: r3 =>
        ((b0 - 240) * 262144 + (b1 - 128) * 4096 + (b2 - 128) * 64 + (b3 - 128))%N
          :: utf8_decode r3
      | _ => []
      end
  end.

(** [u "..."] is the Python string written between the quotes. *)
Definition u (s : string) : pystr :=
  utf8_decode (map N_of_ascii (list_ascii_of_string s)).

Fixpoint str_eqb (a b : pystr) : bool :=
  match a, b with
  | [], [] => true
  | x :: a', y :: b' => (x =? y)%N && str_eqb a' b'
  | _, _ => false
  end.

Fixpoint startswith (p s : pystr) : bool :=
  match p, s with
  | [], _ => true
  | a :: p', b :: s' => (a =? b)%N && startswith p' s'
  | _ :: _, [] => false
  end.

(** [str_in p s] is Python's [p in s]. *)
Fixpoint str_in (p s : pystr) : bool :=
  startswith p s ||
  match s with
  | [] => false
  | _ :: s' => str_in p s'
  end.

(** [sep.join(parts)] *)
Fixpoint join (sep : pystr) (parts : list pystr) : pystr :=
  match parts with
  | [] => []
  | [p] => p
  | p :: rest => p ++ sep ++ join sep rest
  end.

(** ** Exceptions *)

Inductive exn :=
  ValueError | TypeError | KeyError | AttributeError | OverflowError.

Inductive result (A : Type) :=
| Ok (a : A)
| Raise (e : exn).
Arguments Ok {A} a.
Arguments Raise {A} e.

Definition rbind {A B} (m : result A) (f : A -> result B) : result B :=
  match m with
  | Ok a => f a
  | Raise e => Raise e
  end.

Declare Scope py_scope.
Delimit Scope py_scope with py.
Notation "'let*' x ':=' m 'in' k" := (rbind m (fun x => k))
  (at level 10, x name, m at level 100, k at level 200) : py_scope.
Local Open Scope py_scope.

(** ** What the interpreter provides

    The Unicode character database behind [str.lower], [str.isdigit],
    [float], and the regular-expression classes is not part of the
    repository; the model takes it as an interface. *)

Class Unicode := {
  str_lower : pystr -> pystr;        (* str.lower() *)
  decimal_value : N -> option N;     (* value of a decimal digit: \d, float() *)
  is_whitespace : N -> bool;         (* \s *)
  simple_lower : N -> N;             (* per-character folding of re.IGNORECASE *)
  is_digit : N -> bool               (* str.isdigit() on one character *)
}.


(** ** Regular expressions

    The fragment of Python's [re] syntax that the patterns of the source
    use: literals, [.], the classes [\d] and [\s], escaped characters,
    bracket sets, groups (capturing and [(?:...)]), alternation, and the
    greedy quantifiers [*], [+] and [?].  The source applies [*] and [+]
    to single-character items only, and so does [regex]. *)

Inductive setitem := SLit (c : N) | SDigit | SSpace.

Inductive atom :=
| ALit (c : N)
| ADot
| ADigit
| ASpace
| ASet (items : list setitem).

Inductive regex :=
| Eps
| Atom (a : atom)
| Star (a : atom)
| Plus (a : atom)
| Opt (r : regex)
| Cat (r1 r2 : regex)
| Alt (r1 r2 : regex)
| Group (r : regex).

Definition cat (r1 r2 : regex) : regex :=
  match r2 with
  | Eps => r1
  | _ => match r1 with Eps => r2 | _ => Cat r1 r2 end
  end.

Definition escape (c : N) : atom :=
  if (c =? 100)%N then ADigit          (* \d *)
  else if (c =? 115)%N then ASpace     (* \s *)
  else ALit c.

Fixpoint parse_set (p : pystr) (acc : list setitem) : option (atom * pystr) :=
  match p with
  | [] => None
  | 93%N :: p' => Some (ASet (rev acc), p')                    (* ] *)
  | 92%N :: c :: p' =>                                          (* \ *)
    parse_set p' ((if (c =? 100)%N then SDigit
                   else if (c =? 115)%N then SSpace else SLit c) :: acc)
  | c :: p' => parse_set p' (SLit c :: acc)
  end.

Definition quantify (r : regex) (p : pystr) : option (regex * pystr) :=
  match p with
  | 42%N :: p' => match r with Atom a => Some (Star a, p') | _ => None end   (* * *)
  | 43%N :: p' => match r with Atom a => Some (Plus a, p') | _ => None end   (* + *)
  | 63%N :: p' => Some (Opt r, p')                                           (* ? *)
  | _ => Some (r, p)
  end.

Fixpoint parse_alt (fuel : nat) (p : pystr) : option (regex * pystr) :=
  match fuel with
  | O => None
  | S f =>
    match parse_seq f p with
    | Some (r, 124%N :: p') =>                                  (* | *)
      match parse_alt f p' with
      | Some (r', p'') => Some (Alt r r', p'')
      | None => None
      end
    | other => other
    end
  end
with parse_seq (fuel : nat) (p : pystr) : option (regex * pystr) :=
  match fuel with
  | O => None
  | S f =>
    match p with
    | [] => Some (Eps, [])
    | 41%N :: _ => Some (Eps, p)                                (* ) *)
    | 124%N :: _ => Some (Eps, p)
    | _ =>
      match parse_atom f p with
      | Some (a, p') =>
        match quantify a p' with
        | Some (r, p'') =>
          match parse_seq f p'' with
          | Some (r', p3) => Some (cat r r', p3)
          | None => None
          end
        | None => None
        end
      | None => None
      end
    end
  end
with parse_atom (fuel : nat) (p : pystr) : option (regex * pystr) :=
  match fuel with
  | O => None
  | S f =>
    match p with
    | 40%N :: 63%N :: 58%N :: p' =>                             (* (?: *)
      match parse_alt f p' with
      | Some (r, 41%N :: p'') => Some (r, p'')
      | _ => None
      end
    | 40%N :: p' =>                                             (* ( *)
      match parse_alt f p' with
      | Some (r, 41%N :: p'') => Some (Group r, p'')
      | _ => None
      end
    | 91%N :: p' =>                                             (* [ *)
      match parse_set p' [] with
      | Some (a, p'') => Some (Atom a, p'')
      | None => None
      end
    | 92%N :: c :: p' => Some (Atom (escape c), p')
    | 46%N :: p' => Some (Atom ADot, p')
    | c :: p' => Some (Atom (ALit c), p')
    | [] => None
    end
  end.

(** A pattern outside the fragment compiles to [None]. *)
Definition re_compile (pattern : string) : option regex :=
  let p := u pattern in
  match parse_alt (3 * List.length p + 3) p with
  | Some (r, []) => Some r
  | _ => None
  end.

(** [re d] is the compiled pattern [d]; the tables below are checked to
    lie inside the fragment ([patterns_compile]). *)
Definition re (pattern : string) : regex :=
  match re_compile pattern with
  | Some r => r
  | None => Atom (ASet [])
  end.

Definition is_some {A} (o : option A) : bool :=
  match o with Some _ => true | None => false end.

Section Matching.
Context {U : Unicode}.

(** [ic] is the flag re.IGNORECASE. *)
Definition lit_match (ic : bool) (l c : N) : bool :=
  if ic then (simple_lower c =? simple_lower l)%N else (c =? l)%N.

Definition setitem_match (ic : bool) (i : setitem) (c : N) : bool :=
  match i with
  | SLit l => lit_match ic l c
  | SDigit => is_some (decimal_value c)
  | SSpace => is_whitespace c
  end.

Definition atom_match (ic : bool) (a : atom) (c : N) : bool :=
  match a with
  | ALit l => lit_match ic l c
  | ADot => negb (c =? 10)%N
  | ADigit => is_some (decimal_value c)
  | ASpace => is_whitespace c
  | ASet items => existsb (fun i => setitem_match ic i c) items
  end.

(** Greedy repetition of a one-character test: the longest run first,
    then shorter ones, as the backtracking engine tries them. *)
Fixpoint star_loop {A} (p : N -> bool) (s : pystr)
         (k : pystr -> option A) : option A :=
  match s with
  | c :: s' =>
    if p c then
      match star_loop p s' k with
      | Some a => Some a
      | None => k s
      end
    else k s
  | [] => k []
  end.

(** [run ic r s g k]: match [r] at the head of [s], then continue with
    [k] on the rest; [g] is the text captured by the group so far.  The
    first alternative that lets the continuation succeed wins. *)
Fixpoint run {A} (ic : bool) (r : regex) (s : pystr) (g : option pystr)
         (k : pystr -> option pystr -> option A) : option A :=
  match r with
  | Eps => k s g
  | Atom a =>
    match s with
    | c :: s' => if atom_match ic a c then k s' g else None
    | [] => None
    end
  | Star a => star_loop (atom_match ic a) s (fun s' => k s' g)
  | Plus a =>
    match s with
    | c :: s' =>
      if atom_match ic a c
      then star_loop (atom_match ic a) s' (fun s'' => k s'' g)
      else None
    | [] => None
    end
  | Opt r' =>
    match run ic r' s g k with
    | Some x => Some x
    | None => k s g
    end
  | Cat r1 r2 => run ic r1 s g (fun s' g' => run ic r2 s' g' k)
  | Alt r1 r2 =>
    match run ic r1 s g k with
    | Some x => Some x
    | None => run ic r2 s g k
    end
  | Group r' =>
    run ic r' s g
        (fun s' _ => k s' (Some (firstn (List.length s - List.length s') s)))
  end.

(** A match object, reduced to what the source reads from it: group(1). *)
Definition match_obj := option pystr.

Definition re_match (ic : bool) (r : regex) (s : pystr) : option match_obj :=
  run ic r s None (fun _ g => Some g).

(** re.search: the leftmost position at which the pattern matches. *)
Fixpoint re_search (ic : bool) (r : regex) (s : pystr) : option match_obj :=
  match re_match ic r s with
  | Some m => Some m
  | None =>
    match s with
    | [] => None
    | _ :: s' => re_search ic r s'
    end
  end.

(** ** float(), on the unsigned decimal literals the patterns capture *)

Fixpoint digits_value (ds : pystr) (acc : N) : option N :=
  match ds with
  | [] => Some acc
  | c :: ds' =>
    match decimal_value c with
    | Some d => digits_value ds' (acc * 10 + d)%N
    | None => None
    end
  end.

Fixpoint split_dot (s : pystr) : pystr * option pystr :=
  match s with
  | [] => ([], None)
  | c :: s' =>
    if (c =? 46)%N then ([], Some s')
    else let (a, b) := split_dot s' in (c :: a, b)
  end.

Definition float_of_str (s : pystr) : result Q :=
  let (ip, fp) := split_dot s in
  let fp' := match fp with Some f => f | None => [] end in
  match ip, fp' with
  | [], [] => Raise ValueError
  | _, _ =>
    match digits_value ip 0, digits_value fp' 0 with
    | Some i, Some f =>
      Ok (Qred ((Z.of_N i # 1)
                + (Z.of_N f # Z.to_pos (10 ^ Z.of_nat (List.length fp')))))
    | _, _ => Raise ValueError
    end
  end.

(** float(match.group(1)) *)
Definition float_of_group (m : match_obj) : result Q :=
  match m with
  | Some g => float_of_str g
  | None => Raise TypeError
  end.

(** for pattern in patterns: the first pattern that matches decides. *)
Fixpoint first_match_float (ic : bool) (patterns : list regex) (text : pystr)
  : result (option Q) :=
  match patterns with
  | [] => Ok None
  | p :: rest =>
    match re_search ic p text with
    | Some m => let* v := float_of_group m in Ok (Some v)
    | None => first_match_float ic rest text
    end
  end.

End Matching.

(** ** agents.py: text extractors *)

Definition glucose_value_patterns : list string :=
  [ "(\d+(?:\.\d+)?)\s*(?:mmol|mg)";
    "血糖[是\s]*(\d+(?:\.\d+)?)";
    "(\d+(?:\.\d+)?)" ].

Definition hours_after_meal_patterns : list string :=
  [ "餐后[(\s]*(\d+(?:\.\d+)?)\s*小时";
    "(\d+(?:\.\d+)?)\s*小时[后]";
    "(\d+(?:\.\d+)?)h" ].

Definition fasting_keywords : list string :=
  [ "没吃饭.*时候.*测";
    "没吃饭.*测";
    "饿.*一晚上.*测";
    "饿.*晚上.*测";
    "没吃早饭.*测";
    "没吃早餐.*测";
    "肚子空.*时候.*测";
    "肚子空.*测";
    "空腹";
    "fasting";
    "饿着.*测";
    "空着.*测" ].

Definition pre_meal_keywords : list string :=
  [ "吃饭前.*测";
    "准备开饭.*时候.*测";
    "准备开饭.*测";
    "没吃饭之前.*测";
    "要吃饭.*先测";
    "餐前";
    "pre.*meal";
    "饭前" ].

Definition post_meal_keywords : list string :=
  [ "吃完.*饭后.*测";
    "刚吃完.*饭.*测";
    "吃饱.*东西.*测";
    "吃饱.*测";
    "用餐结束.*测";
    "餐后";
    "post.*meal";
    "饭后";
    "吃完.*测" ].

Definition random_keywords : list string :=
  [ "随便.*时候.*测";
    "想起来.*测";
    "没固定时间.*测";
    "任意时候.*测";
    "随机";
    "random";
    "随便.*测";
    "任意.*测" ].

Definition glucose_value_res : list regex :=
  Eval vm_compute in map re glucose_value_patterns.
Definition hours_after_meal_res : list regex :=
  Eval vm_compute in map re hours_after_meal_patterns.
Definition fasting_res : list regex := Eval vm_compute in map re fasting_keywords.
Definition pre_meal_res : list regex := Eval vm_compute in map re pre_meal_keywords.
Definition post_meal_res : list regex := Eval vm_compute in map re post_meal_keywords.
Definition random_res : list regex := Eval vm_compute in map re random_keywords.

(** The unit names and context names of the source. *)
Definition mg_dL : pystr := Eval vm_compute in u "mg/dL".
Definition mmol_L : pystr := Eval vm_compute in u "mmol/L".
Definition fasting : pystr := Eval vm_compute in u "fasting".
Definition pre_meal : pystr := Eval vm_compute in u "pre_meal".
Definition post_meal : pystr := Eval vm_compute in u "post_meal".
Definition random : pystr := Eval vm_compute in u "random".

(** def convert_glucose_unit(value, from_unit, to_unit) *)
Definition convert_glucose_unit (value : Q) (from_unit to_unit : pystr) : Q :=
  if str_eqb from_unit to_unit then value
  else if str_eqb from_unit mg_dL && str_eqb to_unit mmol_L then value / 18
  else if str_eqb from_unit mmol_L && str_eqb to_unit mg_dL then value * 18
  else value.

Definition microseconds_per_hour : Z := 3600000000.
Definition microseconds_per_day : Z := 86400000000.

(** timestamp.hour *)
Definition hour_of (timestamp : Z) : Z :=
  (timestamp / microseconds_per_hour) mod 24.

(** def infer_meal_type(timestamp) *)
Definition infer_meal_type (timestamp : Z) : pystr :=
  let hour := hour_of timestamp in
  if (6 <=? hour)%Z && (hour <? 10)%Z then u "breakfast"
  else if (10 <=? hour)%Z && (hour <? 14)%Z then u "lunch"
  else if (14 <=? hour)%Z && (hour <? 18)%Z then u "snack"
  else if (18 <=? hour)%Z && (hour <? 22)%Z then u "dinner"
  else u "other".

Section Extractors.
Context {U : Unicode}.

(** def extract_glucose_value(text) *)
Definition extract_glucose_value (text : pystr) : result (option Q) :=
  first_match_float true glucose_value_res text.

(** def detect_unit(text) *)
Definition detect_unit (text : pystr) : pystr :=
  let text_lower := str_lower text in
  if str_in (u "mg") text_lower || str_in (u "mg/dl") text_lower
  then mg_dL
  else mmol_L.

(** def detect_meal_type_from_text(text) *)
Definition detect_meal_type_from_text (text : pystr) : option pystr :=
  let text_lower := str_lower text in
  if str_in (u "早餐") text_lower || str_in (u "早饭") text_lower
     || str_in (u "breakfast") text_lower
  then Some (u "breakfast")
  else if str_in (u "午餐") text_lower || str_in (u "午饭") text_lower
          || str_in (u "lunch") text_lower
  then Some (u "lunch")
  else if str_in (u "晚餐") text_lower || str_in (u "晚饭") text_lower
          || str_in (u "dinner") text_lower
  then Some (u "dinner")
  else if str_in (u "加餐") text_lower || str_in (u "snack") text_lower
  then Some (u "snack")
  else None.

(** def extract_hours_after_meal(text) *)
Definition extract_hours_after_meal (text : pystr) : result (option Q) :=
  first_match_float true hours_after_meal_res text.

(** for pattern in keywords: if re.search(pattern, text_lower) *)
Definition any_search (keywords : list regex) (text_lower : pystr) : bool :=
  existsb (fun pattern => is_some (re_search false pattern text_lower)) keywords.

(** def detect_context_from_colloquial(text) *)
Definition detect_context_from_colloquial (text : pystr) : option pystr :=
  let text_lower := str_lower text in
  if any_search fasting_res text_lower then Some fasting
  else if any_search pre_meal_res text_lower then Some pre_meal
  else if any_search post_meal_res text_lower then Some post_meal
  else if any_search random_res text_lower then Some random
  else None.

End Extractors.

(** ** Python values and dictionaries

    The agents hand their results to the orchestrator as dict literals;
    they are kept as association lists from key to value, so that
    [d\[k\]], [d.get(k)] and the truth test of a value mean what they
    mean in the source. *)

#[local] Unset Elimination Schemes.
Inductive pyval :=
| VNone
| VBool (b : bool)
| VInt (z : Z)
| VFloat (q : Q)
| VStr (s : pystr)
| VList (l : list pyval)
| VDict (d : list (string * pyval)).
#[local] Set Elimination Schemes.

Definition pydict := list (string * pyval).

(** The truth value of an object in a condition. *)
Definition truthy (v : pyval) : bool :=
  match v with
  | VNone => false
  | VBool b => b
  | VInt z => negb (z =? 0)%Z
  | VFloat q => negb (Qeq_bool q 0)
  | VStr s => match s with [] => false | _ => true end
  | VList l => match l with [] => false | _ => true end
  | VDict d => match d with [] => false | _ => true end
  end.

Fixpoint lookup (key : string) (d : pydict) : option pyval :=
  match d with
  | [] => None
  | (k, v) :: d' => if String.eqb k key then Some v else lookup key d'
  end.

(** d.get(key) *)
Definition dict_get (d : pydict) (key : string) : pyval :=
  match lookup key d with
  | Some v => v
  | None => VNone
  end.

(** d[key] *)
Definition dict_item (d : pydict) (key : string) : result pyval :=
  match lookup key d with
  | Some v => Ok v
  | None => Raise KeyError
  end.

(** d[key] = v *)
Fixpoint dict_set (d : pydict) (key : string) (v : pyval) : pydict :=
  match d with
  | [] => [(key, v)]
  | (k, w) :: d' =>
    if String.eqb k key then (k, v) :: d' else (k, w) :: dict_set d' key v
  end.

Definition opt_str (o : option pystr) : pyval :=
  match o with Some s => VStr s | None => VNone end.
Definition opt_float (o : option Q) : pyval :=
  match o with Some q => VFloat q | None => VNone end.
Definition opt_int (o : option Z) : pyval :=
  match o with Some z => VInt z | None => VNone end.
Definition str_list (l : list pystr) : pyval := VList (map VStr l).

(** Reading a value back at the type of the column or parameter that
    receives it. *)
Definition as_str (v : pyval) : option pystr :=
  match v with VStr s => Some s | _ => None end.
Definition as_float (v : pyval) : option Q :=
  match v with
  | VFloat q => Some q
  | VInt z => Some (inject_Z z)
  | _ => None
  end.
Definition as_int (v : pyval) : option Z :=
  match v with VInt z => Some z | _ => None end.
Definition as_str_list (v : pyval) : list pystr :=
  match v with
  | VList l => flat_map (fun x => match x with VStr s => [s] | _ => [] end) l
  | _ => []
  end.

(** str() of an int. *)
Fixpoint nat_digits (fuel : nat) (n : N) (acc : pystr) : pystr :=
  match fuel with
  | O => acc
  | S f =>
    let acc' := (48 + n mod 10)%N :: acc in
    if (n <? 10)%N then acc' else nat_digits f (n / 10)%N acc'
  end.

Definition N_str (n : N) : pystr := nat_digits (S (N.to_nat (N.log2 n))) n [].

Definition Z_str (z : Z) : pystr :=
  if (z <? 0)%Z then 45%N :: N_str (Z.abs_N z) else N_str (Z.abs_N z).

(** Float and date rendering, and JSON serialisation: the format
    specifier .1f, str() of a float, json.dumps with ensure_ascii=False,
    and strftime with year-month-day. *)
Class Format := {
  format_1f : Q -> pystr;
  float_str : Q -> pystr;
  json_dumps : pyval -> pystr;
  strftime_ymd : Z -> pystr
}.

(** ** models.py: the rows the core reads and writes

    Columns that the core never sets or reads (account data, free-text
    notes, links between records) are left out. *)

Module User.
Record t := mk {
  id : Z;
  fasting_target_min : option Q;
  fasting_target_max : option Q;
  post_meal_target_max : option Q
}.
End User.

Module GlucoseReading.
Record t := mk {
  id : Z;
  user_id : Z;
  value : Q;
  unit : pystr;
  timestamp : Z;
  context : option pystr;
  meal_type : option pystr;
  hours_after_meal : option Q;
  risk_level : option pystr;
  analysis_notes : option pystr
}.
End GlucoseReading.

Module MealEntry.
Record t := mk {
  id : Z;
  user_id : Z;
  meal_type : pystr;
  timestamp : Z;
  description : pystr;
  portion_size : option pystr;
  estimated_carbs : option Q;
  estimated_gi : option Q;
  estimated_gl : option Q
}.
End MealEntry.

Module ExerciseRecord.
Record t := mk {
  id : Z;
  user_id : Z;
  exercise_type : pystr;
  duration_minutes : option Z;
  intensity : option pystr;
  timestamp : Z
}.
End ExerciseRecord.

Module MedicationRecord.
Record t := mk {
  id : Z;
  user_id : Z;
  medication_name : pystr;
  dosage : option pystr;
  timestamp : Z
}.
End MedicationRecord.

Module ConversationState.
Record t := mk {
  id : Z;
  user_id : Z;
  session_id : pystr;
  current_topic : option pystr;
  intent : option pystr;
  sentiment : option pystr;
  slots : option pystr;
  created_at : Z;
  updated_at : Z
}.
End ConversationState.

Module AnalysisEvent.
Record t := mk {
  id : Z;
  user_id : Z;
  glucose_reading_id : option Z;
  risk_level : pystr;
  conclusion : option pystr;
  reasoning : option pystr;
  suggestions : option pystr;
  trend_direction : option pystr;
  comparison_period : option pystr;
  average_value : option Q;
  timestamp : Z;
  notified : bool
}.
End AnalysisEvent.

Module WeeklyReport.
Record t := mk {
  id : Z;
  user_id : Z;
  week_start : Z;
  week_end : Z;
  total_measurements : Z;
  average_glucose : option Q;
  fasting_average : option Q;
  post_meal_average : option Q;
  target_compliance_rate : option Q;
  patterns : option pystr;
  action_items : option pystr;
  positive_progress : option pystr;
  created_at : Z
}.
End WeeklyReport.

(** The database: one list of rows per table, oldest row first. *)
Record DB := mkDB {
  users : list User.t;
  glucose_readings : list GlucoseReading.t;
  meal_entries : list MealEntry.t;
  exercise_records : list ExerciseRecord.t;
  medication_records : list MedicationRecord.t;
  conversation_states : list ConversationState.t;
  analysis_events : list AnalysisEvent.t;
  weekly_reports : list WeeklyReport.t
}.

(** The integer primary key that the database assigns to a new row. *)
Definition next_id (ids : list Z) : Z := 1 + fold_right Z.max 0%Z ids.

Definition set_glucose_readings (db : DB) (rows : list GlucoseReading.t) : DB :=
  mkDB (users db) rows (meal_entries db) (exercise_records db)
       (medication_records db) (conversation_states db) (analysis_events db)
       (weekly_reports db).
Definition set_meal_entries (db : DB) (rows : list MealEntry.t) : DB :=
  mkDB (users db) (glucose_readings db) rows (exercise_records db)
       (medication_records db) (conversation_states db) (analysis_events db)
       (weekly_reports db).
Definition set_exercise_records (db : DB) (rows : list ExerciseRecord.t) : DB :=
  mkDB (users db) (glucose_readings db) (meal_entries db) rows
       (medication_records db) (conversation_states db) (analysis_events db)
       (weekly_reports db).
Definition set_medication_records (db : DB) (rows : list MedicationRecord.t) : DB :=
  mkDB (users db) (glucose_readings db) (meal_entries db) (exercise_records db)
       rows (conversation_states db) (analysis_events db) (weekly_reports db).
Definition set_conversation_states (db : DB) (rows : list ConversationState.t) : DB :=
  mkDB (users db) (glucose_readings db) (meal_entries db) (exercise_records db)
       (medication_records db) rows (analysis_events db) (weekly_reports db).
Definition set_analysis_events (db : DB) (rows : list AnalysisEvent.t) : DB :=
  mkDB (users db) (glucose_readings db) (meal_entries db) (exercise_records db)
       (medication_records db) (conversation_states db) rows (weekly_reports db).
Definition set_weekly_reports (db : DB) (rows : list WeeklyReport.t) : DB :=
  mkDB (users db) (glucose_readings db) (meal_entries db) (exercise_records db)
       (medication_records db) (conversation_states db) (analysis_events db) rows.

(** db.query(models.User).filter(models.User.id == user_id).first() *)
Definition find_user (db : DB) (user_id : Z) : option User.t :=
  find (fun usr => (User.id usr =? user_id)%Z) (users db).

(** ** agents.py: DataLoggingAgent *)

Definition or_default {A} (o : option A) (d : A) : A :=
  match o with Some x => x | None => d end.

(** A string in a condition: None and the empty string are false. *)
Definition truthy_str (o : option pystr) : bool :=
  match o with Some (_ :: _) => true | _ => false end.

(** A float in a condition: None and zero are false. *)
Definition truthy_float (o : option Q) : bool :=
  match o with Some q => negb (Qeq_bool q 0) | None => false end.

Section DataLoggingAgent.
Context {U : Unicode} {F : Format}.

(** int(match.group(1)) *)
Definition int_of_group (m : match_obj) : result Z :=
  match m with
  | Some g =>
    match g, digits_value g 0 with
    | _ :: _, Some n => Ok (Z.of_N n)
    | _, _ => Raise ValueError
    end
  | None => Raise TypeError
  end.

(** The context inference of log_glucose, entered when no context was
    passed in.  It yields the context, the hours after the meal and the
    entries appended to missing_info. *)
Definition infer_context (text : pystr) (timestamp : Z)
           (hours_after_meal : option Q)
  : result (pystr * option Q * list pystr) :=
  let finish (c : option pystr) (h : option Q) (missing : list pystr) :=
    match c with
    | Some c' => (c', h, missing)
    | None =>
      if (hour_of timestamp <? 10)%Z then (fasting, h, missing)
      else (random, h, missing ++ [u "测量上下文（空腹/餐后）"])
    end in
  match detect_context_from_colloquial text with
  | Some c => Ok (finish (Some c) hours_after_meal [])
  | None =>
    if str_in (u "空腹") text || str_in (u "fasting") (str_lower text)
    then Ok (finish (Some fasting) hours_after_meal [])
    else if str_in (u "餐后") text || str_in (u "post") (str_lower text)
            || is_some hours_after_meal
    then
      match hours_after_meal with
      | Some _ => Ok (finish (Some post_meal) hours_after_meal [])
      | None =>
        let* h := extract_hours_after_meal text in
        match h with
        | Some _ => Ok (finish (Some post_meal) h [])
        | None => Ok (finish (Some post_meal) None [u "餐后时长"])
        end
      end
    else if str_in (u "餐前") text || str_in (u "pre") (str_lower text)
    then Ok (finish (Some pre_meal) hours_after_meal [])
    else Ok (finish None hours_after_meal [])
  end.

Definition no_value_message : pystr :=
  u "抱歉，我没有在您的话里找到血糖数值，请再说一次，比如"
    ++ [34%N] ++ u "血糖8.5" ++ [34%N] ++ u "。".

(** def log_glucose(self, user_id, text, timestamp=None, unit=None,
    context=None, meal_type=None, hours_after_meal=None) *)
Definition log_glucose (user_id : Z) (text : pystr) (timestamp : option Z)
           (unit context meal_type : option pystr)
           (hours_after_meal : option Q) (now : Z) (db : DB)
  : result pydict * DB :=
  match extract_glucose_value text with
  | Raise e => (Raise e, db)
  | Ok None =>
    (Ok [ ("success", VBool false);
          ("message", VStr no_value_message);
          ("missing_info", str_list [u "血糖数值"]) ], db)
  | Ok (Some value) =>
    let unit := or_default unit (detect_unit text) in
    let value_mmol :=
      if str_eqb unit mg_dL then convert_glucose_unit value mg_dL mmol_L
      else value in
    let timestamp := or_default timestamp now in
    let meal_type :=
      match meal_type with
      | Some m => m
      | None => or_default (detect_meal_type_from_text text)
                           (infer_meal_type timestamp)
      end in
    let inferred :=
      match context with
      | Some c => Ok (c, hours_after_meal, [])
      | None => infer_context text timestamp hours_after_meal
      end in
    match inferred with
    | Raise e => (Raise e, db)
    | Ok (context, hours_after_meal, missing_info) =>
      let reading_id := next_id (map GlucoseReading.id (glucose_readings db)) in
      let reading :=
        GlucoseReading.mk reading_id user_id value_mmol mmol_L timestamp
                          (Some context) (Some meal_type) hours_after_meal
                          None None in
      let db' := set_glucose_readings db (glucose_readings db ++ [reading]) in
      let message :=
        u "已为您记录血糖值：" ++ float_str value ++ u " " ++ unit
          ++ u "（" ++ format_1f value_mmol ++ u " mmol/L）" in
      let message :=
        if truthy_str (Some context)
        then message ++ u "，测量类型：" ++ context else message in
      let message :=
        match missing_info with
        | [] => message
        | _ => message ++ u "。还需要补充：" ++ join (u ", ") missing_info
        end in
      (Ok [ ("success", VBool true);
            ("message", VStr message);
            ("reading_id", VInt reading_id);
            ("value", VFloat value_mmol);
            ("unit", VStr mmol_L);
            ("missing_info", str_list missing_info) ], db')
    end
  end.

(** def _estimate_nutrition(self, text) *)
Definition _estimate_nutrition (text : pystr)
  : option Q * option Q * option Q :=
  let text_lower := str_lower text in
  let '(carbs, gi) :=
    if str_in (u "面") text_lower then (Some 50%Q, Some 60%Q)
    else if str_in (u "米饭") text_lower || str_in (u "米") text_lower
    then (Some 40%Q, Some 70%Q)
    else if str_in (u "面包") text_lower then (Some 30%Q, Some 70%Q)
    else (None, None) in
  let gl :=
    match carbs, gi with
    | Some c, Some g =>
      if truthy_float carbs && truthy_float gi
      then Some (c * g / 100)%Q else None
    | _, _ => None
    end in
  (carbs, gi, gl).

(** def log_meal(self, user_id, text, timestamp=None, meal_type=None,
    portion_size=None) *)
Definition log_meal (user_id : Z) (text : pystr) (timestamp : option Z)
           (meal_type portion_size : option pystr) (now : Z) (db : DB)
  : result pydict * DB :=
  let timestamp := or_default timestamp now in
  let meal_type :=
    match meal_type with
    | Some m => m
    | None => or_default (detect_meal_type_from_text text)
                         (infer_meal_type timestamp)
    end in
  let '(estimated_carbs, estimated_gi, estimated_gl) := _estimate_nutrition text in
  let meal_id := next_id (map MealEntry.id (meal_entries db)) in
  let meal :=
    MealEntry.mk meal_id user_id meal_type timestamp text portion_size
                 estimated_carbs estimated_gi estimated_gl in
  let db' := set_meal_entries db (meal_entries db ++ [meal]) in
  let message := u "已为您记录饮食：" ++ text in
  let '(message, missing_info) :=
    match portion_size with
    | None => (message ++ u "。如需更准确的分析，请补充份量信息。", [u "份量"])
    | Some _ => (message, [])
    end in
  (Ok [ ("success", VBool true);
        ("message", VStr message);
        ("meal_id", VInt meal_id);
        ("missing_info", str_list missing_info) ], db').

Definition minutes_re : regex := Eval vm_compute in re "(\d+)\s*分钟".

(** def log_exercise(self, user_id, text, timestamp=None,
    exercise_type=None, duration_minutes=None, intensity=None) *)
Definition log_exercise (user_id : Z) (text : pystr) (timestamp : option Z)
           (exercise_type : option pystr) (duration_minutes : option Z)
           (intensity : option pystr) (now : Z) (db : DB)
  : result pydict * DB :=
  let timestamp := or_default timestamp now in
  let exercise_type :=
    match exercise_type with
    | Some e => e
    | None =>
      let text_lower := str_lower text in
      if str_in (u "跑步") text_lower || str_in (u "run") text_lower
      then u "跑步"
      else if str_in (u "走路") text_lower || str_in (u "walk") text_lower
      then u "走路"
      else if str_in (u "游泳") text_lower || str_in (u "swim") text_lower
      then u "游泳"
      else text
    end in
  let duration :=
    match duration_minutes with
    | Some d => Ok (Some d)
    | None =>
      match re_search false minutes_re text with
      | Some m => let* d := int_of_group m in Ok (Some d)
      | None => Ok None
      end
    end in
  match duration with
  | Raise e => (Raise e, db)
  | Ok duration_minutes =>
    let intensity := or_default intensity (u "moderate") in
    let exercise_id := next_id (map ExerciseRecord.id (exercise_records db)) in
    let exercise :=
      ExerciseRecord.mk exercise_id user_id exercise_type duration_minutes
                        (Some intensity) timestamp in
    let db' := set_exercise_records db (exercise_records db ++ [exercise]) in
    (Ok [ ("success", VBool true);
          ("message", VStr (u "已记录运动：" ++ exercise_type));
          ("exercise_id", VInt exercise_id) ], db')
  end.

(** def log_medication(self, user_id, text, timestamp=None,
    medication_name=None, dosage=None) *)
Definition log_medication (user_id : Z) (text : pystr) (timestamp : option Z)
           (medication_name dosage : option pystr) (now : Z) (db : DB)
  : result pydict * DB :=
  let timestamp := or_default timestamp now in
  let medication_name := or_default medication_name text in
  let medication_id := next_id (map MedicationRecord.id (medication_records db)) in
  let medication :=
    MedicationRecord.mk medication_id user_id medication_name dosage timestamp in
  let db' := set_medication_records db (medication_records db ++ [medication]) in
  (Ok [ ("success", VBool true);
        ("message", VStr (u "已记录用药：" ++ medication_name));
        ("medication_id", VInt medication_id) ], db').

End DataLoggingAgent.

(** ** agents.py: InstantAnalysisAgent *)

Definition Qlt_bool (a b : Q) : bool := negb (Qle_bool b a).

(** sum(...) of floats, and the mean of a non-empty list. *)
Definition qsum (l : list Q) : Q := fold_left Qplus l 0%Q.
Definition qlen {A} (l : list A) : Q := inject_Z (Z.of_nat (List.length l)).
Definition mean (l : list Q) : Q := (qsum l / qlen l)%Q.

(** [x ** 2] on a float.  Python raises OverflowError when the square is
    too large for a float, that is, from 2^1024 - 2^970 on, where
    rounding to the nearest float leaves the finite ones (the largest
    float is 2^1024 - 2^971); |x| may be up to about 1.34e154. *)
Definition float_square_limit : Q := inject_Z (2 ^ 1024 - 2 ^ 970).

Definition float_pow_2 (x : Q) : result Q :=
  if Qlt_bool (x ^ 2) float_square_limit then Ok (x ^ 2)%Q
  else Raise OverflowError.

(** [(v - m) ** 2 for v in values], consumed by sum(): the first square
    that overflows ends the evaluation. *)
Fixpoint squared_deviations (m : Q) (values : list Q) : result (list Q) :=
  match values with
  | [] => Ok []
  | v :: rest =>
    let* square := float_pow_2 (v - m) in
    let* squares := squared_deviations m rest in
    Ok (square :: squares)
  end.

(** Apply [f] to the first row that satisfies [p]. *)
Fixpoint update_first {A} (p : A -> bool) (f : A -> A) (rows : list A) : list A :=
  match rows with
  | [] => []
  | r :: rows' => if p r then f r :: rows' else r :: update_first p f rows'
  end.

Definition context_is (c : pystr) (context : option pystr) : bool :=
  match context with Some c' => str_eqb c' c | None => false end.

(** def _get_target_range(self, user, context) *)
Definition _get_target_range (user : User.t) (context : option pystr) : Q * Q :=
  if context_is fasting context then
    match User.fasting_target_min user, User.fasting_target_max user with
    | Some lo, Some hi =>
      if truthy_float (Some lo) && truthy_float (Some hi) then (lo, hi)
      else (4.4, 7.2)%Q
    | _, _ => (4.4, 7.2)%Q
    end
  else if context_is post_meal context then
    match User.post_meal_target_max user with
    | Some hi => if truthy_float (Some hi) then (0, hi)%Q else (0, 10.0)%Q
    | None => (0, 10.0)%Q
    end
  else (3.9, 11.1)%Q.

Section InstantAnalysisAgent.
Context {U : Unicode} {F : Format}.

(** def _assess_risk(self, value, target_min, target_max, context) *)
Definition _assess_risk (value target_min target_max : Q)
           (context : option pystr)
  : pystr * pystr * pystr * list pystr :=
  if Qlt_bool value 3.9 then
    ( u "critical",
      u "低血糖风险",
      u "您的血糖值" ++ format_1f value
        ++ u " mmol/L低于安全阈值3.9 mmol/L，属于低血糖。",
      [ u "请立即补充速效碳水化合物（如糖果、果汁、葡萄糖片）";
        u "15分钟后复测血糖";
        u "如症状持续或加重，请立即就医";
        u "注意：本建议仅供参考，紧急情况请及时联系医生" ] )
  else if Qle_bool 16.7 value then
    ( u "critical",
      u "极高血糖风险",
      u "您的血糖值" ++ format_1f value ++ u " mmol/L非常高，需要立即关注。",
      [ u "请多喝水，保持水分";
        u "密切监测症状";
        u "建议尽快联系医生或前往医院";
        u "注意：本建议仅供参考，紧急情况请及时就医" ] )
  else if Qle_bool 11.1 value then
    ( u "high",
      u "血糖偏高",
      u "您的血糖值" ++ format_1f value ++ u " mmol/L偏高。",
      [ u "建议多喝水";
        u "适当增加运动";
        u "检查最近的饮食和用药情况";
        u "如持续偏高，建议咨询医生" ] )
  else if Qlt_bool value target_min then
    ( u "moderate",
      u "血糖偏低",
      u "您的血糖值" ++ format_1f value ++ u " mmol/L略低于目标范围。",
      [ u "注意监测，避免低血糖";
        u "适当调整饮食" ] )
  else if Qle_bool target_min value && Qle_bool value target_max then
    ( u "normal",
      u "血糖在目标范围内",
      u "您的血糖值" ++ format_1f value
        ++ u " mmol/L在目标范围内，控制得很好！",
      [ u "继续保持当前的饮食和运动习惯";
        u "定期监测血糖" ] )
  else
    ( u "moderate",
      u "血糖略高于目标",
      u "您的血糖值" ++ format_1f value ++ u " mmol/L略高于目标范围。",
      [ u "注意饮食搭配";
        u "适当增加运动";
        u "继续监测" ] ).

(** The readings of a user since [start], restricted to [context] when
    one is given (the condition is the truth value of the string). *)
Definition readings_since (db : DB) (user_id : Z) (start : Z)
           (context : option pystr) : list GlucoseReading.t :=
  let rows :=
    filter (fun r => (GlucoseReading.user_id r =? user_id)%Z
                     && (start <=? GlucoseReading.timestamp r)%Z)
           (glucose_readings db) in
  if truthy_str context
  then filter (fun r => match GlucoseReading.context r, context with
                        | Some c, Some c' => str_eqb c c'
                        | _, _ => false
                        end) rows
  else rows.

(** def _analyze_trend(self, db, user_id, current_value, context) *)
Definition _analyze_trend (db : DB) (user_id : Z) (current_value : Q)
           (context : option pystr) (now : Z) : pydict :=
  let week_ago := (now - 7 * microseconds_per_day)%Z in
  let recent_readings := readings_since db user_id week_ago context in
  if (List.length recent_readings <? 2)%nat then
    [ ("direction", VStr (u "insufficient_data"));
      ("message", VStr (u "数据不足，无法分析趋势")) ]
  else
    let avg_value := mean (map GlucoseReading.value recent_readings) in
    let '(direction, message) :=
      if Qlt_bool (avg_value * 1.1) current_value then
        (u "up", u "较近7天平均值(" ++ format_1f avg_value
                   ++ u " mmol/L)有所上升")
      else if Qlt_bool current_value (avg_value * 0.9) then
        (u "down", u "较近7天平均值(" ++ format_1f avg_value
                     ++ u " mmol/L)有所下降")
      else
        (u "stable", u "与近7天平均值(" ++ format_1f avg_value
                       ++ u " mmol/L)基本一致") in
    [ ("direction", VStr direction);
      ("message", VStr message);
      ("average", VFloat avg_value);
      ("period", VStr (u "7d")) ].

(** func.avg over the rows of a query: NULL when there is none. *)
Definition sql_avg (rows : list GlucoseReading.t) : option Q :=
  match rows with
  | [] => None
  | _ => Some (mean (map GlucoseReading.value rows))
  end.

(** def _compare_with_history(self, db, user_id, current_value, context) *)
Definition _compare_with_history (db : DB) (user_id : Z) (current_value : Q)
           (context : option pystr) (now : Z) : pydict :=
  let periods :=
    [ ("7d", (now - 7 * microseconds_per_day)%Z);
      ("14d", (now - 14 * microseconds_per_day)%Z);
      ("30d", (now - 30 * microseconds_per_day)%Z) ] in
  let results : pydict :=
    flat_map (fun '(period_name, start_date) =>
                let avg := sql_avg (readings_since db user_id start_date context) in
                match avg with
                | Some a => if truthy_float avg then [(period_name, VFloat a)] else []
                | None => []
                end) periods in
  let '(period, avg) :=
    match lookup "7d" results with
    | Some a => (u "7d", a)
    | None =>
      match lookup "14d" results with
      | Some a => (u "14d", a)
      | None =>
        match lookup "30d" results with
        | Some a => (u "30d", a)
        | None => (u "7d", VNone)
        end
      end
    end in
  [ ("period", VStr period);
    ("average", avg);
    ("all_periods", VDict results) ].

(** def analyze_glucose(self, user_id, current_value, context=None,
    reading_id=None) *)
Definition analyze_glucose (user_id : Z) (current_value : Q)
           (context : option pystr) (reading_id : option Z)
           (now : Z) (db : DB) : result pydict * DB :=
  match find_user db user_id with
  | None =>
    (Ok [ ("risk_level", VStr (u "unknown"));
          ("conclusion", VStr (u "未找到用户信息"));
          ("reasoning", VStr []);
          ("suggestions", VList []) ], db)
  | Some user =>
    let '(target_min, target_max) := _get_target_range user context in
    let '(risk_level, conclusion, reasoning, suggestions) :=
      _assess_risk current_value target_min target_max context in
    let trend := _analyze_trend db user_id current_value context now in
    let comparison := _compare_with_history db user_id current_value context now in
    let db' :=
      if truthy (opt_int reading_id) then
        let rid := or_default reading_id 0%Z in
        let analysis_event :=
          AnalysisEvent.mk (next_id (map AnalysisEvent.id (analysis_events db)))
                           user_id (Some rid) risk_level (Some conclusion)
                           (Some reasoning)
                           (Some (json_dumps (str_list suggestions)))
                           (as_str (dict_get trend "direction"))
                           (as_str (dict_get comparison "period"))
                           (as_float (dict_get comparison "average"))
                           now false in
        let db1 := set_analysis_events db (analysis_events db ++ [analysis_event]) in
        set_glucose_readings
          db1
          (update_first
             (fun r => (GlucoseReading.id r =? rid)%Z)
             (fun r => GlucoseReading.mk
                         (GlucoseReading.id r) (GlucoseReading.user_id r)
                         (GlucoseReading.value r) (GlucoseReading.unit r)
                         (GlucoseReading.timestamp r) (GlucoseReading.context r)
                         (GlucoseReading.meal_type r)
                         (GlucoseReading.hours_after_meal r)
                         (Some risk_level) (Some reasoning))
             (glucose_readings db1))
      else db in
    (Ok [ ("risk_level", VStr risk_level);
          ("conclusion", VStr conclusion);
          ("reasoning", VStr reasoning);
          ("suggestions", str_list suggestions);
          ("trend", VDict trend);
          ("comparison", VDict comparison) ], db')
  end.

End InstantAnalysisAgent.

(** ** weekly_report.py *)

(** [x or default] on an optional float column. *)
Definition float_or (o : option Q) (default : Q) : Q :=
  match o with
  | Some q => if truthy_float o then q else default
  | None => default
  end.

(** The body of the loop of calculate_target_compliance for one reading:
    does it count as compliant?  Reading a target of a missing user row
    is the AttributeError of None. *)
Definition reading_compliant (user : option User.t) (reading : GlucoseReading.t)
  : result bool :=
  let value := GlucoseReading.value reading in
  if context_is fasting (GlucoseReading.context reading) then
    match user with
    | None => Raise AttributeError
    | Some usr =>
      let target_min := float_or (User.fasting_target_min usr) 4.4 in
      let target_max := float_or (User.fasting_target_max usr) 7.2 in
      Ok (Qle_bool target_min value && Qle_bool value target_max)
    end
  else if context_is post_meal (GlucoseReading.context reading) then
    match user with
    | None => Raise AttributeError
    | Some usr =>
      let target_max := float_or (User.post_meal_target_max usr) 10.0 in
      Ok (Qle_bool value target_max)
    end
  else Ok (Qle_bool 3.9 value && Qle_bool value 11.1).

Fixpoint count_compliant (user : option User.t) (readings : list GlucoseReading.t)
         (compliant_count : Z) : result Z :=
  match readings with
  | [] => Ok compliant_count
  | reading :: rest =>
    let* ok := reading_compliant user reading in
    count_compliant user rest
                    (if ok then compliant_count + 1 else compliant_count)%Z
  end.

(** def calculate_target_compliance(readings, user) *)
Definition calculate_target_compliance (readings : list GlucoseReading.t)
           (user : option User.t) : result Q :=
  match readings with
  | [] => Ok 0%Q
  | _ =>
    let* compliant_count := count_compliant user readings 0 in
    Ok ((inject_Z compliant_count / qlen readings) * 100)%Q
  end.

Definition nl : pystr := [10%N].

(** readings[-3:] *)
Definition last3 {A} (l : list A) : list A := skipn (List.length l - 3) l.

(** The grouping dict of identify_patterns: one entry per meal type, in
    the order of first appearance, with the values appended in order. *)
Fixpoint group_add (groups : list (pystr * list Q)) (key : pystr) (v : Q)
  : list (pystr * list Q) :=
  match groups with
  | [] => [(key, [v])]
  | (k, vs) :: rest =>
    if str_eqb k key then (k, vs ++ [v]) :: rest
    else (k, vs) :: group_add rest key v
  end.

Section WeeklyReportParts.
Context {U : Unicode} {F : Format}.

Definition meal_name (meal_type : pystr) : pystr :=
  if str_eqb meal_type (u "breakfast") then u "早餐"
  else if str_eqb meal_type (u "lunch") then u "午餐"
  else if str_eqb meal_type (u "dinner") then u "晚餐"
  else meal_type.

(** def identify_patterns(readings, meals, exercises) *)
Definition identify_patterns (readings : list GlucoseReading.t)
           (meals : list MealEntry.t) (exercises : list ExerciseRecord.t)
  : list pystr :=
  match readings with
  | [] => []
  | _ =>
    let meal_type_values :=
      fold_left (fun groups reading =>
                   match GlucoseReading.meal_type reading with
                   | Some (c :: m) =>
                     group_add groups (c :: m) (GlucoseReading.value reading)
                   | _ => groups
                   end) readings [] in
    let by_meal :=
      flat_map (fun '(meal_type, values) =>
                  let avg := mean values in
                  if Qlt_bool 8.0 avg then
                    [meal_name meal_type ++ u "后血糖平均值偏高（"
                               ++ format_1f avg ++ u " mmol/L）"]
                  else if Qlt_bool avg 5.0 then
                    [meal_name meal_type ++ u "后血糖平均值偏低（"
                               ++ format_1f avg ++ u " mmol/L）"]
                  else []) meal_type_values in
    let trend :=
      if (3 <=? List.length readings)%nat then
        let recent_avg :=
          (qsum (map GlucoseReading.value (last3 readings)) / 3)%Q in
        let earlier_avg :=
          (qsum (map GlucoseReading.value (firstn 3 readings)) / 3)%Q in
        if Qlt_bool (earlier_avg * 1.1) recent_avg
        then [u "本周后期血糖较前期有所上升"]
        else if Qlt_bool recent_avg (earlier_avg * 0.9)
        then [u "本周后期血糖较前期有所下降"]
        else []
      else [] in
    let exercise :=
      match exercises with
      | [] => []
      | _ => [u "本周进行了" ++ Z_str (Z.of_nat (List.length exercises))
                ++ u "次运动，继续保持"]
      end in
    by_meal ++ trend ++ exercise
  end.

(** def generate_action_items(readings, user, patterns) *)
Definition generate_action_items (readings : list GlucoseReading.t)
           (user : option User.t) (patterns : list pystr)
  : result (list pystr) :=
  match readings with
  | [] => Ok [u "开始记录血糖数据"]
  | _ =>
    let items :=
      flat_map (fun pattern =>
                  if str_in (u "偏高") pattern then
                    if str_in (u "早餐") pattern
                    then [u "早餐选择低GI食物，增加蛋白质和膳食纤维"]
                    else if str_in (u "午餐") pattern
                    then [u "午餐控制主食份量，注意营养搭配"]
                    else if str_in (u "晚餐") pattern
                    then [u "晚餐减少精制碳水，增加蔬菜比例"]
                    else []
                  else []) patterns in
    let* compliance := calculate_target_compliance readings user in
    let items :=
      if Qlt_bool compliance 70
      then items ++ [u "加强血糖监测频率，及时调整饮食和运动"] else items in
    let items :=
      if (List.length readings <? 7)%nat
      then items ++ [u "建议增加测量频率，每天至少2-3次（不同时间点）"]
      else items in
    let items :=
      match items with
      | [] => [u "继续保持当前的良好习惯"; u "定期监测血糖，关注变化趋势"]
      | _ => items
      end in
    Ok (firstn 3 items)
  end.

(** def identify_positive_progress(readings, user).  The squares of the
    deviations are Python's [** 2] and can raise OverflowError; the test
    std_dev < 1.5 on the square root of the variance is taken on the
    variance itself, against the square of 1.5. *)
Definition identify_positive_progress (readings : list GlucoseReading.t)
           (user : option User.t) : result (list pystr) :=
  match readings with
  | [] => Ok []
  | _ =>
    let* compliance := calculate_target_compliance readings user in
    let p1 :=
      if Qle_bool 80 compliance
      then [u "目标达标率达到" ++ format_1f compliance ++ u "%，表现优秀！"]
      else [] in
    let p2 :=
      if (14 <=? List.length readings)%nat
      then [u "本周测量" ++ Z_str (Z.of_nat (List.length readings))
              ++ u "次，监测频率良好"]
      else [] in
    let* p3 :=
      if (3 <=? List.length readings)%nat then
        let values := map GlucoseReading.value readings in
        let* squares := squared_deviations (mean values) values in
        let variance := (qsum squares / qlen values)%Q in
        Ok (if Qlt_bool variance (1.5 * 1.5)
            then [u "血糖波动较小，控制稳定"] else [])
      else Ok [] in
    Ok (p1 ++ p2 ++ p3)
  end.

End WeeklyReportParts.

(** today.weekday(): 0001-01-01, the origin of the time scale, is a Monday. *)
Definition weekday (t : Z) : Z := (t / microseconds_per_day) mod 7.

(** t.replace(hour=0, minute=0, second=0, microsecond=0) *)
Definition midnight (t : Z) : Z := t - t mod microseconds_per_day.

Definition week_start_of (today : Z) : Z :=
  midnight (today - weekday today * microseconds_per_day).
Definition week_end_of (today : Z) : Z :=
  week_start_of today + 7 * microseconds_per_day.

(** order_by(timestamp): rows with equal timestamps keep their table order. *)
Fixpoint insert_by_timestamp (r : GlucoseReading.t) (sorted : list GlucoseReading.t)
  : list GlucoseReading.t :=
  match sorted with
  | [] => [r]
  | x :: rest =>
    if (GlucoseReading.timestamp r <? GlucoseReading.timestamp x)%Z
    then r :: x :: rest
    else x :: insert_by_timestamp r rest
  end.

Definition order_by_timestamp (rows : list GlucoseReading.t) : list GlucoseReading.t :=
  fold_left (fun sorted r => insert_by_timestamp r sorted) rows [].

Definition in_window (user_id week_start week_end row_user row_time : Z) : bool :=
  (row_user =? user_id)%Z && (week_start <=? row_time)%Z && (row_time <? week_end)%Z.

(** The readings of the user in the week that contains [today]. *)
Definition week_readings (db : DB) (user_id : Z) (today : Z) : list GlucoseReading.t :=
  order_by_timestamp
    (filter (fun r => in_window user_id (week_start_of today) (week_end_of today)
                                (GlucoseReading.user_id r) (GlucoseReading.timestamp r))
            (glucose_readings db)).

Definition values_in_context (c : pystr) (readings : list GlucoseReading.t) : list Q :=
  map GlucoseReading.value
      (filter (fun r => context_is c (GlucoseReading.context r)) readings).

Definition mean_if_any (values : list Q) : option Q :=
  match values with
  | [] => None
  | _ => Some (mean values)
  end.

Fixpoint enumerate_from (i : Z) (items : list pystr) : list (Z * pystr) :=
  match items with
  | [] => []
  | x :: rest => (i, x) :: enumerate_from (i + 1) rest
  end.

Definition no_data_content : pystr :=
  Eval vm_compute in u "本周还没有血糖记录，请开始记录您的血糖数据。".

Section GenerateWeeklyReport.
Context {U : Unicode} {F : Format}.

Definition bullets (items : list pystr) : list pystr :=
  map (fun x => u "• " ++ x) items.

Definition report_content (week_start week_end : Z) (total_measurements : nat)
           (avg_glucose : Q) (fasting_avg post_meal_avg : option Q)
           (target_compliance : Q)
           (patterns positive_progress action_items : list pystr)
           (meals exercises : nat) : pystr :=
  let content_parts :=
    [ u "📊 【本周血糖管理报告】";
      u "报告周期：" ++ strftime_ymd week_start ++ u " 至 "
        ++ strftime_ymd week_end ++ nl ]
    ++ [ u "【统计数据】";
         u "• 总测量次数：" ++ Z_str (Z.of_nat total_measurements) ++ u "次";
         u "• 平均血糖：" ++ format_1f avg_glucose ++ u " mmol/L" ]
    ++ (if truthy_float fasting_avg
        then [u "• 空腹平均：" ++ format_1f (or_default fasting_avg 0%Q)
                ++ u " mmol/L"] else [])
    ++ (if truthy_float post_meal_avg
        then [u "• 餐后平均：" ++ format_1f (or_default post_meal_avg 0%Q)
                ++ u " mmol/L"] else [])
    ++ [ u "• 目标达标率：" ++ format_1f target_compliance ++ u "%" ++ nl ]
    ++ match patterns with
       | [] => []
       | _ => [u "【模式识别】"] ++ bullets patterns ++ [[]]
       end
    ++ match positive_progress with
       | [] => []
       | _ => [u "【正面进展】"] ++ bullets positive_progress ++ [[]]
       end
    ++ match action_items with
       | [] => []
       | _ =>
         [u "【行动建议】"]
           ++ map (fun '(i, item) => Z_str i ++ u ". " ++ item)
                  (enumerate_from 1 (firstn 3 action_items))
           ++ [[]]
       end
    ++ (if (0 <? meals)%nat
        then [u "【饮食记录】本周共记录" ++ Z_str (Z.of_nat meals) ++ u "次饮食"]
        else [])
    ++ (if (0 <? exercises)%nat
        then [u "【运动记录】本周共记录" ++ Z_str (Z.of_nat exercises) ++ u "次运动"]
        else []) in
  join nl content_parts.

(** def generate_weekly_report(user_id).  An exception leaves the
    database as it was (rollback): nothing is added before the commit. *)
Definition generate_weekly_report (user_id : Z) (now : Z) (db : DB)
  : result pydict * DB :=
  let today := now in
  let week_start := week_start_of today in
  let week_end := week_end_of today in
  let readings := week_readings db user_id today in
  let meals :=
    filter (fun m => in_window user_id week_start week_end
                               (MealEntry.user_id m) (MealEntry.timestamp m))
           (meal_entries db) in
  let exercises :=
    filter (fun e => in_window user_id week_start week_end
                               (ExerciseRecord.user_id e) (ExerciseRecord.timestamp e))
           (exercise_records db) in
  let user := find_user db user_id in
  let total_measurements := List.length readings in
  if (total_measurements =? 0)%nat then
    (Ok [ ("success", VBool false);
          ("content", VStr no_data_content);
          ("report_id", VNone);
          ("total_measurements", VInt 0);
          ("average_glucose", VNone);
          ("fasting_average", VNone);
          ("post_meal_average", VNone);
          ("target_compliance_rate", VNone) ], db)
  else
    let avg_glucose := mean (map GlucoseReading.value readings) in
    let fasting_avg := mean_if_any (values_in_context fasting readings) in
    let post_meal_avg := mean_if_any (values_in_context post_meal readings) in
    let computed :=
      let* target_compliance := calculate_target_compliance readings user in
      let patterns := identify_patterns readings meals exercises in
      let* action_items := generate_action_items readings user patterns in
      let* positive_progress := identify_positive_progress readings user in
      Ok (target_compliance, patterns, action_items, positive_progress) in
    match computed with
    | Raise e => (Raise e, db)
    | Ok (target_compliance, patterns, action_items, positive_progress) =>
      let content :=
        report_content week_start week_end total_measurements avg_glucose
                       fasting_avg post_meal_avg target_compliance patterns
                       positive_progress action_items
                       (List.length meals) (List.length exercises) in
      let report :=
        WeeklyReport.mk (next_id (map WeeklyReport.id (weekly_reports db)))
                        user_id week_start week_end
                        (Z.of_nat total_measurements) (Some avg_glucose)
                        fasting_avg post_meal_avg (Some target_compliance)
                        (Some (json_dumps (str_list patterns)))
                        (Some (json_dumps (str_list action_items)))
                        (Some (json_dumps (str_list positive_progress)))
                        now in
      let db' := set_weekly_reports db (weekly_reports db ++ [report]) in
      (Ok [ ("success", VBool true);
            ("content", VStr content);
            ("report_id", VInt (WeeklyReport.id report));
            ("total_measurements", VInt (Z.of_nat total_measurements));
            ("average_glucose", VFloat avg_glucose);
            ("fasting_average", opt_float fasting_avg);
            ("post_meal_average", opt_float post_meal_avg);
            ("target_compliance_rate", VFloat target_compliance) ], db')
    end.

End GenerateWeeklyReport.

(** ** agents.py: EducationAgent *)

(** One entry of knowledge_base.  The optional parts are the keys that
    only some topics have; the last three are the keys 正常范围, 意义
    (strings) and 建议 (a dict). *)
Record topic := mkTopic {
  concept : pystr;
  explanation : pystr;
  classification : option (list (pystr * pystr));
  examples : option (list (pystr * pystr));
  normal_range : option pystr;
  meaning : option pystr;
  advice : option (list (pystr * pystr))
}.

Definition knowledge_base : list (pystr * topic) :=
  [ (u "gi",
     mkTopic (u "GI（血糖生成指数）")
             (u "GI值衡量食物导致血糖升高的速度和程度。范围0-100，数值越高，血糖升高越快。")
             (Some [ (u "低GI", u "≤55，血糖升高缓慢，适合糖尿病患者");
                     (u "中GI", u "56-69，血糖升高中等");
                     (u "高GI", u "≥70，血糖升高快速，应适量控制") ])
             (Some [ (u "低GI", u "燕麦、全麦面包、苹果、豆类");
                     (u "高GI", u "白米饭、白面包、糖果、果汁") ])
             None None None);
    (u "gl",
     mkTopic (u "GL（血糖负荷）")
             (u "GL值综合考虑了GI值和食物份量，更能反映实际对血糖的影响。GL = GI × 碳水化合物含量(g) / 100")
             (Some [ (u "低GL", u "≤10"); (u "中GL", u "11-19"); (u "高GL", u "≥20") ])
             None None None None);
    (u "空腹血糖",
     mkTopic (u "空腹血糖")
             (u "空腹血糖是指至少8小时未进食后测量的血糖值，通常在早晨起床后测量。")
             None None
             (Some (u "正常：3.9-6.1 mmol/L；糖尿病前期：6.1-7.0 mmol/L；糖尿病：≥7.0 mmol/L"))
             (Some (u "空腹血糖反映基础胰岛素分泌功能和肝脏葡萄糖输出情况。"))
             None);
    (u "餐后血糖",
     mkTopic (u "餐后血糖")
             (u "餐后血糖是指进食后测量的血糖值，通常测量餐后2小时血糖。")
             None None
             (Some (u "正常：<7.8 mmol/L；糖尿病前期：7.8-11.1 mmol/L；糖尿病：≥11.1 mmol/L"))
             (Some (u "餐后血糖反映餐后胰岛素分泌和葡萄糖处理能力。"))
             None);
    (u "hba1c",
     mkTopic (u "HbA1c（糖化血红蛋白）")
             (u "HbA1c反映过去2-3个月的平均血糖水平，是评估长期血糖控制的重要指标。")
             None None
             (Some (u "正常：<5.7%；糖尿病前期：5.7-6.4%；糖尿病：≥6.5%"))
             (Some (u "不受单次测量波动影响，更能反映整体血糖控制情况。"))
             None);
    (u "监测频率",
     mkTopic (u "血糖监测频率")
             (u "根据病情和治疗方案，监测频率不同。")
             None None None None
             (Some [ (u "新诊断或调整治疗方案", u "每天4-7次（三餐前后+睡前）");
                     (u "稳定期", u "每周2-4次（不同时间点）");
                     (u "特殊情况", u "运动前后、感觉不适时增加监测") ])) ].

(** keyword.replace(old, empty string), for a one-character [old]. *)
Definition remove_char (old : N) (s : pystr) : pystr :=
  filter (fun c => negb (c =? old)%N) s.

Definition items_lines (items : list (pystr * pystr)) : list pystr :=
  map (fun '(k, v) => u "  • " ++ k ++ u "：" ++ v) items.

Section EducationAgent.
Context {U : Unicode}.

(** def _personalize_advice(self, topic, user_id) *)
Definition _personalize_advice (topic : pystr) (user_id : Z) : pystr := [].

(** def answer_question(self, question, user_id=None) *)
Definition answer_question (question : pystr) (user_id : option Z) : pydict :=
  let question_lower := str_lower question in
  let matched_topic :=
    find (fun '(keyword, _) =>
            str_in keyword question_lower
            || str_in (remove_char 20540 keyword) question_lower)
         knowledge_base in
  match matched_topic with
  | None =>
    [ ("answer", VStr (u "这个问题我还在学习中。关于血糖管理，建议关注：低GI饮食、控制总能量、规律运动、定期监测。如有具体问题，可以详细描述。"));
      ("related_info", VStr []);
      ("personalized", VStr []) ]
  | Some (keyword, info) =>
    let answer_parts :=
      [ u "【" ++ concept info ++ u "】"; explanation info ]
      ++ match classification info with
         | Some items => [nl ++ u "分类标准："] ++ items_lines items
         | None => []
         end
      ++ match examples info with
         | Some items => [nl ++ u "常见食物示例："] ++ items_lines items
         | None => []
         end
      ++ match normal_range info with
         | Some v => [nl ++ u "正常范围：" ++ v]
         | None => []
         end
      ++ match meaning info with
         | Some v => [nl ++ u "意义：" ++ v]
         | None => []
         end
      ++ match advice info with
         | Some items => [nl ++ u "建议："] ++ items_lines items
         | None => []
         end in
    let answer := join nl answer_parts in
    let personalized :=
      if truthy (opt_int user_id)
      then _personalize_advice keyword (or_default user_id 0%Z) else [] in
    [ ("answer", VStr answer);
      ("related_info", VStr (u "更多关于" ++ concept info ++ u "的信息，可以继续提问。"));
      ("personalized", VStr personalized) ]
  end.

End EducationAgent.

(** ** agents.py: EmotionalSupportAgent *)

Definition any_in (keywords : list pystr) (text : pystr) : bool :=
  existsb (fun kw => str_in kw text) keywords.

Definition support_positive_keywords : list pystr :=
  map u [ "控制得很好"; "达标"; "开心"; "顺利"; "进步"; "改善"; "好多了";
          "成功"; "坚持"; "努力"; "加油" ].
Definition support_negative_keywords : list pystr :=
  map u [ "沮丧"; "控制不好"; "又高了"; "失败"; "担心"; "焦虑"; "失望";
          "没效果"; "没用"; "放弃"; "太难了" ].
Definition support_anxious_keywords : list pystr :=
  map u [ "担心"; "害怕"; "焦虑"; "紧张"; "不安"; "恐惧" ].

Section EmotionalSupportAgent.
Context {U : Unicode}.

(** def provide_support(self, text, user_id=None) *)
Definition provide_support (text : pystr) (user_id : option Z) : pydict :=
  let text_lower := str_lower text in
  let sentiment :=
    if any_in support_anxious_keywords text_lower then u "anxious"
    else if any_in support_negative_keywords text_lower then u "negative"
    else if any_in support_positive_keywords text_lower then u "positive"
    else u "neutral" in
  if str_eqb sentiment (u "positive") then
    [ ("sentiment", VStr sentiment);
      ("empathy", VStr (u "看到您的进步，我也为您感到高兴！"));
      ("encouragement", VStr (u "继续保持当前的良好习惯，您的努力正在带来积极的变化。"));
      ("next_steps", str_list [ u "记录下今天的成功经验";
                                u "继续保持规律的监测";
                                u "与医生分享您的进步" ]) ]
  else if str_eqb sentiment (u "negative") then
    [ ("sentiment", VStr sentiment);
      ("empathy", VStr (u "我理解您的沮丧，血糖管理确实是一个长期的过程，偶尔的波动是正常的。"));
      ("encouragement", VStr (u "不要因为一次的结果而气馁，重要的是持续的努力和调整。"));
      ("next_steps", str_list [ u "让我们一起复盘最近的数据，找出可以改进的地方";
                                u "设定一个小的、可执行的目标";
                                u "记住：进步是渐进的，不是一蹴而就的" ]) ]
  else if str_eqb sentiment (u "anxious") then
    [ ("sentiment", VStr sentiment);
      ("empathy", VStr (u "我理解您的担心，这是很正常的。让我们一步步来，不要给自己太大压力。"));
      ("encouragement", VStr (u "焦虑是正常的，但我们可以通过科学的管理和监测来减少不确定性。"));
      ("next_steps", str_list [ u "定期监测可以帮助您更好地了解自己的血糖模式";
                                u "与医生沟通您的担忧";
                                u "记住：您不是一个人在战斗" ]) ]
  else
    [ ("sentiment", VStr sentiment);
      ("empathy", VStr []);
      ("encouragement", VStr (u "继续坚持，您正在做正确的事情。"));
      ("next_steps", str_list []) ].

End EmotionalSupportAgent.

(** ** orchestrator.py: OrchestratorAgent *)

(** A computation that reads and writes the database and may raise; what
    was committed before an exception stays committed. *)
Definition M (A : Type) : Type := DB -> result A * DB.

Definition mret {A} (a : A) : M A := fun db => (Ok a, db).

Definition mbind {A B} (m : M A) (f : A -> M B) : M B :=
  fun db =>
    match m db with
    | (Ok a, db') => f a db'
    | (Raise e, db') => (Raise e, db')
    end.

Definition lift {A} (r : result A) : M A := fun db => (r, db).

Notation "'let+' x ':=' m 'in' k" := (mbind m (fun x => k))
  (at level 10, x name, m at level 100, k at level 200) : py_scope.

(** list.insert(i, x) *)
Definition list_insert {A} (i : nat) (x : A) (l : list A) : list A :=
  firstn i l ++ x :: skipn i l.

(** d[key] where a string is expected. *)
Definition item_str (d : pydict) (key : string) : result pystr :=
  let* v := dict_item d key in
  match v with
  | VStr s => Ok s
  | _ => Raise TypeError
  end.

(** d[key] where a float is expected. *)
Definition item_float (d : pydict) (key : string) : result Q :=
  let* v := dict_item d key in
  match as_float v with
  | Some q => Ok q
  | None => Raise TypeError
  end.

Definition nonempty (s : pystr) : bool :=
  match s with [] => false | _ => true end.

Definition disclaimer : pystr :=
  nl ++ nl ++ u "⚠️ 重要提示：以上建议仅供参考，不能替代专业医疗诊断。如有紧急情况或持续异常，请及时联系医生。".

Definition intent_negative_keywords : list pystr :=
  map u [ "沮丧"; "控制不好"; "又高了"; "失败"; "担心"; "焦虑" ].
Definition intent_positive_keywords : list pystr :=
  map u [ "控制得很好"; "达标"; "开心"; "进步" ].

Definition anxious_keywords : list pystr :=
  map u [ "担心"; "害怕"; "焦虑"; "紧张" ].
Definition negative_keywords : list pystr :=
  map u [ "沮丧"; "控制不好"; "又高了"; "失败"; "失望" ].
Definition positive_keywords : list pystr :=
  map u [ "控制得很好"; "达标"; "开心"; "顺利"; "进步" ].

(** The latest reading of a user: order_by(timestamp.desc()).first().
    Among rows with the same greatest timestamp the oldest row is taken. *)
Definition latest_reading (db : DB) (user_id : Z) : option GlucoseReading.t :=
  fold_left (fun best r =>
               if (GlucoseReading.user_id r =? user_id)%Z then
                 match best with
                 | None => Some r
                 | Some b =>
                   if (GlucoseReading.timestamp b <? GlucoseReading.timestamp r)%Z
                   then Some r else best
                 end
               else best)
            (glucose_readings db) None.

Section OrchestratorAgent.
Context {U : Unicode} {F : Format}.

(** def _classify_intent(self, message) *)
Definition _classify_intent (message : pystr) : pystr :=
  let message_lower := str_lower message in
  let has (kw : string) := str_in (u kw) message in
  if (has "血糖" || has "测了" || has "测量") && existsb is_digit message
  then u "record_glucose"
  else if has "吃了" || has "饮食" || (has "餐" && (has "记录" || has "吃"))
  then u "record_meal"
  else if has "运动" || has "锻炼" || has "跑步" || has "走路"
  then u "record_exercise"
  else if has "用药" || has "吃药" || has "药物"
  then u "record_medication"
  else if (has "怎么样" || has "高吗" || has "低吗" || has "正常吗") && has "血糖"
  then u "ask_value_status"
  else if has "周报" || has "这周" || has "本周" || has "复盘"
  then u "weekly_report"
  else if has "是什么" || has "什么意思" || str_in (u "gi") message_lower
          || has "解释"
  then u "ask_education"
  else if any_in (intent_negative_keywords ++ intent_positive_keywords) message
  then u "emotional_support"
  else if has "低血糖" || has "高血糖" || has "紧急"
  then u "risk_alert"
  else u "general".

(** def _detect_sentiment(self, message) *)
Definition _detect_sentiment (message : pystr) : pystr :=
  let message_lower := str_lower message in
  if any_in anxious_keywords message_lower then u "anxious"
  else if any_in negative_keywords message_lower then u "negative"
  else if any_in positive_keywords message_lower then u "positive"
  else u "neutral".

(** def _extract_slots(self, message) *)
Definition _extract_slots (message : pystr) : result pydict :=
  let slots : pydict := [] in
  let* value := extract_glucose_value message in
  let slots :=
    if truthy (opt_float value)
    then dict_set slots "glucose_value" (opt_float value) else slots in
  let unit := detect_unit message in
  let slots :=
    if truthy (VStr unit) then dict_set slots "unit" (VStr unit) else slots in
  let meal_type := detect_meal_type_from_text message in
  let slots :=
    if truthy (opt_str meal_type)
    then dict_set slots "meal_type" (opt_str meal_type) else slots in
  let* hours := extract_hours_after_meal message in
  let slots :=
    if truthy (opt_float hours)
    then dict_set slots "hours_after_meal" (opt_float hours) else slots in
  Ok slots.

Definition same_session (user_id : Z) (session_id : pystr)
           (state : ConversationState.t) : bool :=
  (ConversationState.user_id state =? user_id)%Z
  && str_eqb (ConversationState.session_id state) session_id.

(** def _update_conversation_state(self, user_id, session_id, intent,
    sentiment, slots) *)
Definition _update_conversation_state (user_id : Z) (session_id : pystr)
           (intent sentiment : pystr) (slots : pydict) (now : Z) : M unit :=
  fun db =>
    let rows := conversation_states db in
    let state := find (same_session user_id session_id) rows in
    let rows' :=
      match state with
      | None =>
        rows ++ [ ConversationState.mk
                    (next_id (map ConversationState.id rows))
                    user_id session_id (Some intent) (Some intent)
                    (Some sentiment) (Some (json_dumps (VDict slots)))
                    now now ]
      | Some _ =>
        update_first
          (same_session user_id session_id)
          (fun st => ConversationState.mk
                       (ConversationState.id st) (ConversationState.user_id st)
                       (ConversationState.session_id st)
                       (Some intent) (Some intent) (Some sentiment)
                       (Some (json_dumps (VDict slots)))
                       (ConversationState.created_at st) now)
          rows
      end in
    (Ok tt, set_conversation_states db rows').

(** [a or b], where [b] is only evaluated when [a] is false. *)
Definition or_else (a : pyval) (b : result pyval) : result pyval :=
  if truthy a then Ok a else b.

(** def _handle_record_glucose(self, user_id, message, slots) *)
Definition _handle_record_glucose (user_id : Z) (message : pystr)
           (slots : pydict) (now : Z) : M pydict :=
  let+ value := lift (or_else (dict_get slots "glucose_value")
                              (let* v := extract_glucose_value message in
                               Ok (opt_float v))) in
  let+ unit := lift (or_else (dict_get slots "unit")
                             (Ok (VStr (detect_unit message)))) in
  let+ meal_type := lift (or_else (dict_get slots "meal_type")
                                  (Ok (opt_str (detect_meal_type_from_text message)))) in
  let+ hours_after_meal :=
    lift (or_else (dict_get slots "hours_after_meal")
                  (let* h := extract_hours_after_meal message in
                   Ok (opt_float h))) in
  let context :=
    match detect_context_from_colloquial message with
    | Some c => Some c
    | None =>
      if str_in (u "空腹") message || str_in (u "fasting") (str_lower message)
      then Some fasting
      else if str_in (u "餐后") message || is_some (as_float hours_after_meal)
      then Some post_meal
      else if str_in (u "餐前") message || str_in (u "pre") (str_lower message)
      then Some pre_meal
      else None
    end in
  log_glucose user_id message None (as_str unit) context (as_str meal_type)
              (as_float hours_after_meal) now.

(** def _format_analysis(self, analysis).  The values formatted into the
    text are strings in every dict that reaches this function. *)
Definition _format_analysis (analysis : pydict) : result pystr :=
  let* conclusion := item_str analysis "conclusion" in
  let parts := [u "【分析结果】" ++ conclusion] in
  let* parts :=
    if truthy (dict_get analysis "reasoning") then
      let* reasoning := item_str analysis "reasoning" in
      Ok (parts ++ [u "依据：" ++ reasoning])
    else Ok parts in
  let parts :=
    if truthy (dict_get analysis "suggestions") then
      parts ++ [u "建议："]
            ++ map (fun suggestion => u "  • " ++ suggestion)
                   (as_str_list (dict_get analysis "suggestions"))
    else parts in
  let* trend :=
    match lookup "trend" analysis with
    | None => Ok []
    | Some (VDict d) => Ok d
    | Some _ => Raise AttributeError
    end in
  let* parts :=
    if truthy (dict_get trend "message") then
      let* message := item_str trend "message" in
      Ok (parts ++ [u "趋势：" ++ message])
    else Ok parts in
  Ok (join nl parts).

(** def _handle_ask_value_status(self, user_id, message) *)
Definition _handle_ask_value_status (user_id : Z) (message : pystr) (now : Z)
  : M pydict :=
  fun db =>
    match latest_reading db user_id with
    | None =>
      (Ok [ ("message", VStr (u "抱歉，我没有找到您最近的血糖记录。请先记录一次血糖测量。")) ],
       db)
    | Some latest =>
      (let+ analysis :=
         analyze_glucose user_id (GlucoseReading.value latest)
                         (GlucoseReading.context latest)
                         (Some (GlucoseReading.id latest)) now in
       let+ formatted := lift (_format_analysis analysis) in
       let message_parts :=
         [ u "您最近的血糖值是 " ++ format_1f (GlucoseReading.value latest)
             ++ u " mmol/L";
           formatted ] in
       mret [ ("message", VStr (join (nl ++ nl) message_parts)) ]) db
    end.

(** def _handle_weekly_report(self, user_id) *)
Definition _handle_weekly_report (user_id : Z) (now : Z) : M pydict :=
  let+ report := generate_weekly_report user_id now in
  let+ content := lift (dict_item report "content") in
  mret [ ("message", content) ].

(** Step 5 of process_message: the handler chosen by the intent.  It
    yields reply_parts, actions_taken and needs_clarification. *)
Definition route (intent : pystr) (user_id : Z) (message : pystr)
           (slots : pydict) (now : Z)
  : M (list pystr * list pystr * list pystr) :=
  let intent_is (name : string) := str_eqb intent (u name) in
  let clarifications (result : pydict) :=
    if truthy (dict_get result "missing_info")
    then as_str_list (dict_get result "missing_info") else [] in
  if intent_is "record_glucose" then
    let+ result := _handle_record_glucose user_id message slots now in
    let+ msg := lift (item_str result "message") in
    let reply_parts := [msg] in
    let actions_taken := [u "记录血糖"] in
    let needs_clarification := clarifications result in
    if truthy (dict_get result "reading_id") then
      let+ value := lift (item_float result "value") in
      let+ reading_id := lift (dict_item result "reading_id") in
      let+ analysis :=
        analyze_glucose user_id value (as_str (dict_get result "context"))
                        (as_int reading_id) now in
      let+ formatted := lift (_format_analysis analysis) in
      mret (reply_parts ++ [formatted], actions_taken ++ [u "分析血糖"],
            needs_clarification)
    else mret (reply_parts, actions_taken, needs_clarification)
  else if intent_is "record_meal" then
    let+ result := log_meal user_id message None None None now in
    let+ msg := lift (item_str result "message") in
    mret ([msg], [u "记录饮食"], clarifications result)
  else if intent_is "record_exercise" then
    let+ result := log_exercise user_id message None None None None now in
    let+ msg := lift (item_str result "message") in
    mret ([msg], [u "记录运动"], [])
  else if intent_is "record_medication" then
    let+ result := log_medication user_id message None None None now in
    let+ msg := lift (item_str result "message") in
    mret ([msg], [u "记录用药"], [])
  else if intent_is "ask_value_status" then
    let+ result := _handle_ask_value_status user_id message now in
    let+ msg := lift (item_str result "message") in
    mret ([msg], [u "分析血糖状态"], [])
  else if intent_is "ask_education" then
    let result := answer_question message (Some user_id) in
    let+ answer := lift (item_str result "answer") in
    let+ reply_parts :=
      if truthy (dict_get result "personalized") then
        let+ personalized := lift (item_str result "personalized") in
        mret [answer; personalized]
      else mret [answer] in
    mret (reply_parts, [u "科普教育"], [])
  else if intent_is "emotional_support" then
    let result := provide_support message (Some user_id) in
    let+ empathy := lift (item_str result "empathy") in
    let+ encouragement := lift (item_str result "encouragement") in
    let reply_parts := [empathy; encouragement] in
    let reply_parts :=
      if truthy (dict_get result "next_steps") then
        reply_parts
          ++ [u "建议：" ++ nl
                ++ join nl (map (fun step => u "• " ++ step)
                                (as_str_list (dict_get result "next_steps")))]
      else reply_parts in
    mret (reply_parts, [u "情感支持"], [])
  else if intent_is "weekly_report" then
    let+ result := _handle_weekly_report user_id now in
    let+ msg := lift (item_str result "message") in
    mret ([msg], [u "生成周报"], [])
  else if intent_is "risk_alert" then
    mret ([u "已检测到风险情况，请查看上述分析建议。"], [u "风险告警"], [])
  else
    let reply_parts := [u "我理解您的问题。"] in
    let reply_parts :=
      if str_in (u "血糖") message then
        reply_parts
          ++ [u "如果您想记录血糖，可以说" ++ [34%N] ++ u "我测了血糖X.X"
                ++ [34%N] ++ u "；如果想询问数值，可以说" ++ [34%N]
                ++ u "这个数值高吗？" ++ [34%N]]
      else
        reply_parts
          ++ [u "我可以帮您：记录血糖/饮食/运动，分析血糖状态，回答健康问题，提供情感支持。请告诉我您需要什么帮助。"] in
    mret (reply_parts, [], []).

(** Step 6 of process_message: the empathy line of the support agent. *)
Definition add_empathy (sentiment message : pystr) (user_id : Z)
           (reply_parts : list pystr) : result (list pystr) :=
  if str_eqb sentiment (u "negative") || str_eqb sentiment (u "anxious")
     || str_eqb sentiment (u "frustrated")
  then
    let support := provide_support message (Some user_id) in
    if truthy (dict_get support "empathy") then
      let* empathy := item_str support "empathy" in
      Ok (list_insert 1 empathy reply_parts)
    else Ok reply_parts
  else Ok reply_parts.

(** Steps 7 and 8: join the non-empty parts and add the disclaimer. *)
Definition aggregate (intent : pystr) (reply_parts : list pystr) : pystr :=
  let reply := join (nl ++ nl) (filter nonempty reply_parts) in
  if str_eqb intent (u "ask_value_status") || str_eqb intent (u "risk_alert")
     || str_in (u "建议") reply
  then reply ++ disclaimer
  else reply.

(** def process_message(self, user_id, session_id, message) *)
Definition process_message (user_id : Z) (session_id message : pystr) (now : Z)
  : M pydict :=
  let intent := _classify_intent message in
  let sentiment := _detect_sentiment message in
  let+ slots := lift (_extract_slots message) in
  let+ _ := _update_conversation_state user_id session_id intent sentiment
                                       slots now in
  let+ routed := route intent user_id message slots now in
  let '(reply_parts, actions_taken, needs_clarification) := routed in
  let+ reply_parts := lift (add_empathy sentiment message user_id reply_parts) in
  let reply := aggregate intent reply_parts in
  mret [ ("reply", VStr reply);
         ("intent", VStr intent);
         ("sentiment", VStr sentiment);
         ("actions_taken", str_list actions_taken);
         ("needs_clarification", str_list needs_clarification) ].

End OrchestratorAgent.

(** ** A concrete interpreter, for running the model

    [basic_unicode] is exact on text made of ASCII, fullwidth digits, CJK
    ideographs and CJK punctuation: lower-casing only touches A-Z, and
    the decimal digits are the ASCII and the fullwidth ones.
    [plain_format] renders a float with the digits of its decimal
    expansion (six at most), which is what Python prints for the values
    of the examples. *)

Definition ascii_lower (c : N) : N :=
  if ((65 <=? c) && (c <=? 90))%N then (c + 32)%N else c.

Definition ascii_decimal (c : N) : option N :=
  if ((48 <=? c) && (c <=? 57))%N then Some (c - 48)%N else None.

Definition whitespace_table : list N :=
  [ 9; 10; 11; 12; 13; 28; 29; 30; 31; 32; 133; 160; 5760; 8192; 8193; 8194;
    8195; 8196; 8197; 8198; 8199; 8200; 8201; 8202; 8232; 8233; 8239; 8287;
    12288 ]%N.

Definition basic_decimal (c : N) : option N :=
  if ((48 <=? c) && (c <=? 57))%N then Some (c - 48)%N
  else if ((65296 <=? c) && (c <=? 65305))%N then Some (c - 65296)%N
  else None.

#[export] Instance basic_unicode : Unicode := {|
  str_lower := map ascii_lower;
  decimal_value := basic_decimal;
  is_whitespace := fun c => existsb (N.eqb c) whitespace_table;
  simple_lower := ascii_lower;
  is_digit := fun c => is_some (basic_decimal c)
|}.

(** What the properties below need of the character database: on ASCII
    the decimal digits and the whitespace are the ASCII ones, and no
    other character folds to the full stop under re.IGNORECASE. *)
Definition ascii_conformant (U : Unicode) : Prop :=
  (forall c, (c < 128)%N ->
     decimal_value c = ascii_decimal c
     /\ is_whitespace c = existsb (N.eqb c) [9; 10; 11; 12; 13; 28; 29; 30; 31; 32]%N)
  /\ (forall c, simple_lower c = simple_lower 46 -> c = 46%N).

Fixpoint pad_left (width : nat) (s : pystr) : pystr :=
  if (List.length s <? width)%nat
  then match width with O => s | S w => pad_left w (48%N :: s) end
  else s.

(** Round to the nearest multiple of 1/10^places, ties to even. *)
Definition round_half_even (q : Q) (places : nat) : Z :=
  let scaled := (q * inject_Z (10 ^ Z.of_nat places))%Q in
  let fl := Qfloor scaled in
  let rest := (scaled - inject_Z fl)%Q in
  if Qlt_bool rest 0.5 then fl
  else if Qlt_bool 0.5 rest then (fl + 1)%Z
  else if Z.even fl then fl else (fl + 1)%Z.

Definition fixed_str (q : Q) (places : nat) : pystr :=
  let n := round_half_even q places in
  let digits := pad_left (S places) (N_str (Z.abs_N n)) in
  let k := (List.length digits - places)%nat in
  (if (n <? 0)%Z then [45%N] else [])
    ++ firstn k digits
    ++ match places with O => [] | _ => 46%N :: skipn k digits end.

Fixpoint strip_zeros (rev_digits : pystr) : pystr :=
  match rev_digits with
  | 48%N :: (c :: rest) as tail => if (c =? 46)%N then rev_digits else strip_zeros tail
  | _ => rev_digits
  end.

Definition plain_float_str (q : Q) : pystr :=
  rev (strip_zeros (rev (fixed_str q 6))).

(** The civil date of a day count from 0001-01-01. *)
Definition ymd_of_days (days : Z) : Z * Z * Z :=
  let z := (days + 306)%Z in
  let era := (z / 146097)%Z in
  let doe := (z - era * 146097)%Z in
  let yoe := ((doe - doe / 1460 + doe / 36524 - doe / 146096) / 365)%Z in
  let doy := (doe - (365 * yoe + yoe / 4 - yoe / 100))%Z in
  let mp := ((5 * doy + 2) / 153)%Z in
  let d := (doy - (153 * mp + 2) / 5 + 1)%Z in
  let m := (if (mp <? 10)%Z then mp + 3 else mp - 9)%Z in
  let y := (yoe + era * 400 + (if (m <=? 2)%Z then 1 else 0))%Z in
  (y, m, d).

Definition plain_ymd (t : Z) : pystr :=
  let '(y, m, d) := ymd_of_days (t / microseconds_per_day) in
  pad_left 4 (Z_str y) ++ [45%N] ++ pad_left 2 (Z_str m) ++ [45%N]
           ++ pad_left 2 (Z_str d).

Definition json_string (s : pystr) : pystr :=
  34%N :: flat_map (fun c => if (c =? 34)%N then [92; 34]%N
                             else if (c =? 92)%N then [92; 92]%N
                             else if (c =? 10)%N then [92; 110]%N
                             else [c]) s ++ [34%N].

Fixpoint plain_json (v : pyval) : pystr :=
  match v with
  | VNone => u "null"
  | VBool b => if b then u "true" else u "false"
  | VInt z => Z_str z
  | VFloat q => plain_float_str q
  | VStr s => json_string s
  | VList l =>
    u "[" ++ join (u ", ") (map plain_json l) ++ u "]"
  | VDict d =>
    u "{"
      ++ join (u ", ")
              (map (fun kv => json_string (u (fst kv)) ++ u ": " ++ plain_json (snd kv)) d)
      ++ u "}"
  end.

#[export] Instance plain_format : Format := {|
  format_1f := fun q => fixed_str q 1;
  float_str := plain_float_str;
  json_dumps := plain_json;
  strftime_ymd := plain_ymd
|}.

(** * Properties *)

Unset Implicit Arguments.


(** ** Running the model

    The phrases of the docstring of detect_context_from_colloquial, and
    a few utterances, evaluated with [basic_unicode]. *)

Example colloquial_phrases :
  map (fun s => @detect_context_from_colloquial basic_unicode (u s))
      [ "没吃饭的时候测的"; "饿了一晚上之后测的"; "没吃早饭那会测的"; "肚子空着的时候测的";
        "吃完饭后测的"; "刚吃完饭那阵儿测的"; "吃饱东西之后测的"; "用餐结束后测的";
        "吃饭前测的"; "准备开饭的时候测的"; "没吃饭之前测的"; "要吃饭了先测的";
        "随便啥时候测的"; "想起来就测的时候"; "没固定时间测的"; "任意时候测的" ]
  = [ Some fasting; Some fasting; Some fasting; Some fasting;
      Some post_meal; Some post_meal; Some post_meal; Some post_meal;
      Some pre_meal; Some pre_meal; Some fasting; Some pre_meal;
      Some random; Some random; Some random; Some random ].
Proof. vm_compute. reflexivity. Qed.

Example extract_examples :
  @extract_glucose_value basic_unicode (u "今天空腹测的血糖5.2") = Ok (Some (26 # 5))
  /\ @detect_unit basic_unicode (u "今天空腹测的血糖5.2") = mmol_L
  /\ @extract_glucose_value basic_unicode (u "血糖120 MG/dl") = Ok (Some (120 # 1))
  /\ @detect_unit basic_unicode (u "血糖120 MG/dl") = mg_dL
  /\ @extract_glucose_value basic_unicode (u "餐后2小时血糖7.8") = Ok (Some (39 # 5))
  /\ @extract_hours_after_meal basic_unicode (u "餐后2小时血糖7.8") = Ok (Some (2 # 1))
  /\ @extract_glucose_value basic_unicode (u "今天感觉不错") = Ok None.
Proof. vm_compute. repeat split. Qed.

(** ** Basic facts about strings and comparisons *)

Lemma str_eqb_refl (s : pystr) : str_eqb s s = true.
Proof.
  induction s as [|c s IH]; simpl; [reflexivity|].
  now rewrite N.eqb_refl, IH.
Qed.

Lemma str_eqb_eq (a b : pystr) : str_eqb a b = true <-> a = b.
Proof.
  split.
  - revert b; induction a as [|x a IH]; intros [|y b]; simpl; try discriminate; auto.
    intros H. apply andb_prop in H as [Hx Hab].
    apply N.eqb_eq in Hx. f_equal; auto.
  - intros ->. apply str_eqb_refl.
Qed.

Lemma Qlt_bool_iff (a b : Q) : Qlt_bool a b = true <-> (a < b)%Q.
Proof.
  unfold Qlt_bool. rewrite negb_true_iff.
  split.
  - intros H. apply Qnot_le_lt. intros Hle.
    apply Qle_bool_iff in Hle. congruence.
  - intros H. destruct (Qle_bool b a) eqn:E; [|reflexivity].
    apply Qle_bool_iff in E. lra.
Qed.

Lemma Qlt_bool_false (a b : Q) : Qlt_bool a b = false <-> (b <= a)%Q.
Proof.
  unfold Qlt_bool. rewrite negb_false_iff. apply Qle_bool_iff.
Qed.

Lemma Qle_bool_false (a b : Q) : Qle_bool a b = false <-> (b < a)%Q.
Proof.
  split.
  - intros H. apply Qnot_le_lt. intros Hle.
    apply Qle_bool_iff in Hle. congruence.
  - intros H. destruct (Qle_bool a b) eqn:E; [|reflexivity].
    apply Qle_bool_iff in E. lra.
Qed.

(** ** Unit conversion (C8) *)

(** C8. Conversion multiplies by 18 from mmol/L to mg/dL, divides by 18
    from mg/dL to mmol/L, is the identity when the two units are equal,
    and converting a value from mmol/L to mg/dL and back gives the value
    again (exactly, on the rationals), for every x and so for every
    positive x. *)
Theorem convert_glucose_unit_round_trip (x : Q) :
  convert_glucose_unit x mmol_L mg_dL = (x * 18)%Q
  /\ convert_glucose_unit x mg_dL mmol_L = (x / 18)%Q
  /\ (forall unit, convert_glucose_unit x unit unit = x)
  /\ (convert_glucose_unit (convert_glucose_unit x mmol_L mg_dL) mg_dL mmol_L == x)%Q.
Proof.
  repeat split.
  - intros unit. unfold convert_glucose_unit. now rewrite str_eqb_refl.
  - change (convert_glucose_unit x mmol_L mg_dL) with (x * 18)%Q.
    change (convert_glucose_unit (x * 18) mg_dL mmol_L) with (x * 18 / 18)%Q.
    field.
Qed.

(** ** Risk tiers (C1) *)

Inductive tier :=
| CriticalLow
| CriticalHigh
| High
| ModerateLow
| Normal
| ModerateHigh.

(** The region of each tier as the specification words it, for a value,
    a target minimum and a target maximum. *)
Definition tier_region (t : tier) (v target_min target_max : Q) : Prop :=
  match t with
  | CriticalLow => (v < 3.9)%Q
  | CriticalHigh => (3.9 <= v /\ 16.7 <= v)%Q
  | High => (3.9 <= v /\ v < 16.7 /\ 11.1 <= v)%Q
  | ModerateLow => (3.9 <= v /\ v < 11.1 /\ v < target_min)%Q
  | Normal => (3.9 <= v /\ v < 11.1 /\ target_min <= v /\ v <= target_max)%Q
  | ModerateHigh => (3.9 <= v /\ v < 11.1 /\ target_min <= v /\ target_max < v)%Q
  end.

(** The risk level and the conclusion that name each tier in the output. *)
Definition tier_output (t : tier) : pystr * pystr :=
  match t with
  | CriticalLow => (u "critical", u "低血糖风险")
  | CriticalHigh => (u "critical", u "极高血糖风险")
  | High => (u "high", u "血糖偏高")
  | ModerateLow => (u "moderate", u "血糖偏低")
  | Normal => (u "normal", u "血糖在目标范围内")
  | ModerateHigh => (u "moderate", u "血糖略高于目标")
  end.

Definition level_and_conclusion (r : pystr * pystr * pystr * list pystr)
  : pystr * pystr :=
  let '(risk_level, conclusion, _, _) := r in (risk_level, conclusion).

Lemma tier_region_exhaustive (v lo hi : Q) : exists t, tier_region t v lo hi.
Proof.
  destruct (Qlt_le_dec v 3.9); [now exists CriticalLow|].
  destruct (Qlt_le_dec v 16.7); [|now exists CriticalHigh].
  destruct (Qlt_le_dec v 11.1); [|now exists High].
  destruct (Qlt_le_dec v lo); [now exists ModerateLow|].
  destruct (Qlt_le_dec hi v); [now exists ModerateHigh|now exists Normal].
Qed.

Lemma tier_region_exclusive (v lo hi : Q) (t t' : tier) :
  tier_region t v lo hi -> tier_region t' v lo hi -> t = t'.
Proof.
  destruct t, t'; simpl; intros; try reflexivity; exfalso; lra.
Qed.

Lemma _assess_risk_in_region {F : Format} (v lo hi : Q) (context : option pystr)
      (t : tier) :
  tier_region t v lo hi ->
  level_and_conclusion (_assess_risk v lo hi context) = tier_output t.
Proof.
  intros H. unfold _assess_risk.
  destruct (Qlt_bool v 3.9) eqn:E1.
  { apply Qlt_bool_iff in E1. destruct t; simpl in H; try (exfalso; lra). reflexivity. }
  apply Qlt_bool_false in E1.
  destruct (Qle_bool 16.7 v) eqn:E2.
  { apply Qle_bool_iff in E2. destruct t; simpl in H; try (exfalso; lra). reflexivity. }
  apply Qle_bool_false in E2.
  destruct (Qle_bool 11.1 v) eqn:E3.
  { apply Qle_bool_iff in E3. destruct t; simpl in H; try (exfalso; lra). reflexivity. }
  apply Qle_bool_false in E3.
  destruct (Qlt_bool v lo) eqn:E4.
  { apply Qlt_bool_iff in E4. destruct t; simpl in H; try (exfalso; lra). reflexivity. }
  apply Qlt_bool_false in E4.
  destruct (Qle_bool lo v && Qle_bool v hi) eqn:E5.
  { apply andb_prop in E5 as [_ E5]. apply Qle_bool_iff in E5.
    destruct t; simpl in H; try (exfalso; lra). reflexivity. }
  apply andb_false_iff in E5 as [E5|E5]; apply Qle_bool_false in E5;
    destruct t; simpl in H; try (exfalso; lra); reflexivity.
Qed.

(** C1. For every value and every target range with target_min <
    target_max, the value lies in the region of exactly one of the six
    tiers (below 3.9; at least 16.7; at least 11.1; below the target
    minimum; inside the target range; above the target maximum but below
    11.1), and _assess_risk returns the risk level and the conclusion of
    that tier: critical, critical, high, moderate, normal, moderate. *)
Theorem risk_tiers_partition {F : Format} (v target_min target_max : Q)
        (context : option pystr) :
  (target_min < target_max)%Q ->
  exists t,
    tier_region t v target_min target_max
    /\ (forall t', tier_region t' v target_min target_max -> t' = t)
    /\ level_and_conclusion (_assess_risk v target_min target_max context)
       = tier_output t.
Proof.
  intros _.
  destruct (tier_region_exhaustive v target_min target_max) as [t Ht].
  exists t. split; [exact Ht|]. split.
  - intros t' Ht'. eapply tier_region_exclusive; eassumption.
  - now apply _assess_risk_in_region.
Qed.

Lemma risk_tiers_partition_witness :
  (4.4 < 7.2)%Q
  /\ exists t,
      tier_region t 5.2 4.4 7.2
      /\ (forall t', tier_region t' 5.2 4.4 7.2 -> t' = t)
      /\ level_and_conclusion (@_assess_risk plain_format 5.2 4.4 7.2 (Some fasting))
         = tier_output t.
Proof.
  split; [reflexivity|].
  apply (@risk_tiers_partition plain_format 5.2 4.4 7.2 (Some fasting)).
  reflexivity.
Defined.

(** ** The colloquial context cascade (C2) *)

(** Every pattern of the source lies inside the fragment of [regex], and
    the compiled tables are the compiled patterns. *)
Lemma patterns_compile :
  forallb (fun pattern => is_some (re_compile pattern))
          (glucose_value_patterns ++ hours_after_meal_patterns
             ++ fasting_keywords ++ pre_meal_keywords
             ++ post_meal_keywords ++ random_keywords ++ ["(\d+)\s*分钟"])
  = true
  /\ glucose_value_res = map re glucose_value_patterns
  /\ hours_after_meal_res = map re hours_after_meal_patterns
  /\ fasting_res = map re fasting_keywords
  /\ pre_meal_res = map re pre_meal_keywords
  /\ post_meal_res = map re post_meal_keywords
  /\ random_res = map re random_keywords.
Proof. repeat split; vm_compute; reflexivity. Qed.

(** [text] (as the source matches it: lower-cased, case-sensitively)
    matches one of the patterns of a tier. *)
Definition matches_some {U : Unicode} (tier_patterns : list regex) (text : pystr)
  : Prop :=
  exists pattern,
    In pattern tier_patterns
    /\ re_search false pattern (str_lower text) <> None.

Lemma any_search_true {U : Unicode} (ps : list regex) (text : pystr) :
  any_search ps (str_lower text) = true <-> matches_some ps text.
Proof.
  unfold any_search, matches_some. rewrite existsb_exists.
  split; intros [p [Hin Hp]]; exists p; split; auto.
  - destruct (re_search false p (str_lower text)); [discriminate|discriminate Hp].
  - destruct (re_search false p (str_lower text)); [reflexivity|congruence].
Qed.

Lemma any_search_false {U : Unicode} (ps : list regex) (text : pystr) :
  any_search ps (str_lower text) = false <-> ~ matches_some ps text.
Proof.
  rewrite <- any_search_true. destruct (any_search ps (str_lower text)); split;
    intros; congruence.
Qed.

(** C2. detect_context_from_colloquial is a first-match-wins cascade:
    a text that matches a fasting pattern is fasting; otherwise one that
    matches a pre-meal pattern is pre_meal; otherwise one that matches a
    post-meal pattern is post_meal; otherwise one that matches a random
    pattern is random; otherwise the result is None.  In particular a
    text that matches both a fasting pattern and a random pattern is
    fasting, never random. *)
Theorem colloquial_context_priority {U : Unicode} (text : pystr) :
  (matches_some fasting_res text ->
   detect_context_from_colloquial text = Some fasting)
  /\ (~ matches_some fasting_res text ->
      matches_some pre_meal_res text ->
      detect_context_from_colloquial text = Some pre_meal)
  /\ (~ matches_some fasting_res text ->
      ~ matches_some pre_meal_res text ->
      matches_some post_meal_res text ->
      detect_context_from_colloquial text = Some post_meal)
  /\ (~ matches_some fasting_res text ->
      ~ matches_some pre_meal_res text ->
      ~ matches_some post_meal_res text ->
      matches_some random_res text ->
      detect_context_from_colloquial text = Some random)
  /\ (~ matches_some fasting_res text ->
      ~ matches_some pre_meal_res text ->
      ~ matches_some post_meal_res text ->
      ~ matches_some random_res text ->
      detect_context_from_colloquial text = None)
  /\ (matches_some fasting_res text ->
      matches_some random_res text ->
      detect_context_from_colloquial text = Some fasting
      /\ detect_context_from_colloquial text <> Some random).
Proof.
  unfold detect_context_from_colloquial.
  repeat split; intros;
    repeat match goal with
           | H : matches_some _ _ |- _ => apply any_search_true in H; rewrite ?H
           | H : ~ matches_some _ _ |- _ => apply any_search_false in H; rewrite ?H
           end;
    try reflexivity; discriminate.
Qed.

Lemma colloquial_context_priority_witness :
  let text := u "随机 空腹" in
  @matches_some basic_unicode fasting_res text
  /\ @matches_some basic_unicode random_res text
  /\ @detect_context_from_colloquial basic_unicode text = Some fasting
  /\ @detect_context_from_colloquial basic_unicode text <> Some random.
Proof.
  assert (Hf : @matches_some basic_unicode fasting_res (u "随机 空腹")).
  { exists (re "空腹"). split; [vm_compute; tauto|vm_compute; discriminate]. }
  assert (Hr : @matches_some basic_unicode random_res (u "随机 空腹")).
  { exists (re "随机"). split; [vm_compute; tauto|vm_compute; discriminate]. }
  split; [exact Hf|]. split; [exact Hr|].
  exact (proj2 (proj2 (proj2 (proj2 (proj2
           (@colloquial_context_priority basic_unicode (u "随机 空腹"))))))
           Hf Hr).
Defined.


(** ** The compliance rate (C3) *)

(** The specification's reading of a target: the target of the profile,
    and the default when the profile has none. *)
Definition target_or_default (target : option Q) (default : Q) : Q :=
  match target with
  | Some q => q
  | None => default
  end.

(** The specification's range test: the value of a reading lies inside
    the target range that applies to the context recorded with it
    (fasting: the fasting targets of the user, or 4.4 to 7.2; post_meal:
    at most the post-meal maximum of the user, or 10.0; any other
    context: 3.9 to 11.1). *)
Definition in_target_range (user : User.t) (reading : GlucoseReading.t) : Prop :=
  let v := GlucoseReading.value reading in
  let context := GlucoseReading.context reading in
  (context = Some fasting
   /\ (target_or_default (User.fasting_target_min user) 4.4 <= v)%Q
   /\ (v <= target_or_default (User.fasting_target_max user) 7.2)%Q)
  \/ (context = Some post_meal
      /\ (v <= target_or_default (User.post_meal_target_max user) 10.0)%Q)
  \/ (context <> Some fasting /\ context <> Some post_meal
      /\ (3.9 <= v)%Q /\ (v <= 11.1)%Q).

(** What [target or default] of the code gives: the target when it is
    set and not zero, the default when it is missing or zero. *)
Definition personal_or_default (target : option Q) (default : Q) : Q :=
  match target with
  | Some q => if Qeq_bool q 0 then default else q
  | None => default
  end.

(** The range the code applies: as [in_target_range], with a target of
    zero replaced by its default. *)
Definition in_effective_range (user : User.t) (reading : GlucoseReading.t) : Prop :=
  let v := GlucoseReading.value reading in
  let context := GlucoseReading.context reading in
  (context = Some fasting
   /\ (personal_or_default (User.fasting_target_min user) 4.4 <= v)%Q
   /\ (v <= personal_or_default (User.fasting_target_max user) 7.2)%Q)
  \/ (context = Some post_meal
      /\ (v <= personal_or_default (User.post_meal_target_max user) 10.0)%Q)
  \/ (context <> Some fasting /\ context <> Some post_meal
      /\ (3.9 <= v)%Q /\ (v <= 11.1)%Q).

(** A target that is missing, or set to something else than zero. *)
Definition not_zero (target : option Q) : Prop :=
  match target with
  | Some q => ~ (q == 0)%Q
  | None => True
  end.

(** No target of the profile is stored as zero. *)
Definition no_zero_target (user : User.t) : Prop :=
  not_zero (User.fasting_target_min user)
  /\ not_zero (User.fasting_target_max user)
  /\ not_zero (User.post_meal_target_max user).

(** The test of the loop body on a user row that exists. *)
Definition compliantb (user : User.t) (reading : GlucoseReading.t) : bool :=
  match reading_compliant (Some user) reading with
  | Ok b => b
  | Raise _ => false
  end.

Lemma context_is_true (c : pystr) (context : option pystr) :
  context_is c context = true <-> context = Some c.
Proof.
  destruct context as [c'|]; simpl.
  - rewrite str_eqb_eq. split; congruence.
  - split; discriminate.
Qed.

Lemma float_or_personal (o : option Q) (d : Q) :
  float_or o d = personal_or_default o d.
Proof.
  destruct o as [q|]; simpl; [|reflexivity].
  now destruct (Qeq_bool q 0).
Qed.

Lemma reading_compliant_user (user : User.t) (reading : GlucoseReading.t) :
  reading_compliant (Some user) reading = Ok (compliantb user reading).
Proof.
  unfold compliantb, reading_compliant.
  destruct (context_is fasting _); [reflexivity|].
  destruct (context_is post_meal _); reflexivity.
Qed.

Lemma compliantb_in_effective_range (user : User.t) (reading : GlucoseReading.t) :
  compliantb user reading = true <-> in_effective_range user reading.
Proof.
  unfold compliantb, reading_compliant, in_effective_range.
  rewrite !float_or_personal.
  destruct (context_is fasting (GlucoseReading.context reading)) eqn:Ef.
  { apply context_is_true in Ef. rewrite Ef.
    rewrite andb_true_iff, !Qle_bool_iff. split.
    - intros [H1 H2]. left. auto.
    - intros [[_ [H1 H2]]|[[H _]|[H _]]]; [auto|discriminate H|congruence]. }
  assert (Hnf : GlucoseReading.context reading <> Some fasting).
  { intros H. apply context_is_true in H. congruence. }
  destruct (context_is post_meal (GlucoseReading.context reading)) eqn:Ep.
  { apply context_is_true in Ep. rewrite Ep.
    rewrite Qle_bool_iff. split.
    - intros H. right. left. auto.
    - intros [[H _]|[[_ H]|[_ [H _]]]]; [discriminate H|auto|congruence]. }
  assert (Hnp : GlucoseReading.context reading <> Some post_meal).
  { intros H. apply context_is_true in H. congruence. }
  rewrite andb_true_iff, !Qle_bool_iff. split.
  - intros [H1 H2]. right. right. auto.
  - intros [[H _]|[[H _]|[_ [_ H]]]]; [congruence|congruence|exact H].
Qed.

Lemma count_compliant_user (user : User.t) (readings : list GlucoseReading.t)
      (k : Z) :
  count_compliant (Some user) readings k
  = Ok (k + Z.of_nat (List.length (filter (compliantb user) readings)))%Z.
Proof.
  revert k. induction readings as [|r rs IH]; intros k; simpl.
  - f_equal. lia.
  - rewrite reading_compliant_user. simpl. rewrite IH.
    destruct (compliantb user r); simpl; f_equal; lia.
Qed.

Lemma filter_length_all {A : Type} (f : A -> bool) (l : list A) :
  List.length (filter f l) = List.length l <-> Forall (fun x => f x = true) l.
Proof.
  induction l as [|x l IH]; simpl.
  - split; auto.
  - pose proof (filter_length_le f l) as Hle.
    destruct (f x) eqn:E; simpl; split; intros H.
    + constructor; [exact E|]. apply IH. lia.
    + inversion H; subst. f_equal. now apply IH.
    + lia.
    + inversion H; congruence.
Qed.

Lemma calculate_target_compliance_user (user : User.t)
      (readings : list GlucoseReading.t) :
  readings <> [] ->
  calculate_target_compliance readings (Some user)
  = Ok ((inject_Z (Z.of_nat (List.length (filter (compliantb user) readings)))
         / qlen readings) * 100)%Q.
Proof.
  intros Hne. unfold calculate_target_compliance.
  destruct readings as [|r rs]; [congruence|].
  rewrite count_compliant_user. reflexivity.
Qed.

Lemma qlen_pos {A : Type} (l : list A) : l <> [] -> (0 < qlen l)%Q.
Proof.
  intros Hne. unfold qlen. destruct l as [|x l]; [congruence|].
  change 0%Q with (inject_Z 0). rewrite <- Zlt_Qlt. simpl. lia.
Qed.

Lemma personal_is_target (target : option Q) (default : Q) :
  not_zero target ->
  personal_or_default target default = target_or_default target default.
Proof.
  destruct target as [q|]; simpl; [|reflexivity].
  intros Hq. destruct (Qeq_bool q 0) eqn:E; [|reflexivity].
  apply Qeq_bool_iff in E. contradiction.
Qed.

Lemma effective_is_target (user : User.t) (reading : GlucoseReading.t) :
  no_zero_target user ->
  in_effective_range user reading <-> in_target_range user reading.
Proof.
  intros [Hmin [Hmax Hpost]].
  unfold in_effective_range, in_target_range.
  rewrite !personal_is_target by assumption.
  reflexivity.
Qed.

Lemma rate_100_iff_all_compliant (user : User.t)
      (readings : list GlucoseReading.t) :
  readings <> [] ->
  (Forall (fun r => compliantb user r = true) readings
   <-> (100 * (inject_Z (Z.of_nat (List.length (filter (compliantb user) readings)))
               / qlen readings) == 100)%Q).
Proof.
  intros Hne.
  pose proof (qlen_pos readings Hne) as Hn.
  rewrite <- filter_length_all.
  set (c := List.length (filter (compliantb user) readings)).
  split.
  - intros Hc. rewrite Hc. fold (qlen readings). field. lra.
  - intros Hrate.
    assert (Hone : (inject_Z (Z.of_nat c) / qlen readings == 1)%Q) by lra.
    assert (Heq : (inject_Z (Z.of_nat c) == qlen readings)%Q).
    { rewrite <- (Qmult_div_r (inject_Z (Z.of_nat c)) (qlen readings)) by lra.
      rewrite Hone. ring. }
    unfold qlen, Qeq in Heq. simpl in Heq. lia.
Qed.

(** C3. For every non-empty list of readings and every user profile,
    calculate_target_compliance returns a rate between 0 and 100; the
    rate is 100 times the share of the readings that pass the test of
    the loop; a reading passes exactly when its value lies inside the
    range the code applies to its own recorded context (fasting: the
    fasting targets of the user, each replaced by its default 4.4 or 7.2
    when it is missing or zero; post_meal: at most the post-meal maximum
    of the user, or 10.0 when that is missing or zero; any other
    context: 3.9 to 11.1); the rate is 100 exactly when every reading
    lies inside that range; and for a profile that stores no target as
    zero that range is the target range of the specification, so the
    rate is 100 exactly when every reading lies inside its target
    range. *)
Theorem compliance_rate_range (user : User.t) (readings : list GlucoseReading.t) :
  readings <> [] ->
  exists rate : Q,
    calculate_target_compliance readings (Some user) = Ok rate
    /\ (0 <= rate)%Q /\ (rate <= 100)%Q
    /\ (rate == 100 * (inject_Z (Z.of_nat (List.length (filter (compliantb user) readings)))
                       / qlen readings))%Q
    /\ (forall reading,
          compliantb user reading = true <-> in_effective_range user reading)
    /\ (Forall (in_effective_range user) readings <-> (rate == 100)%Q)
    /\ (no_zero_target user ->
        (forall reading,
            in_effective_range user reading <-> in_target_range user reading)
        /\ (Forall (in_target_range user) readings <-> (rate == 100)%Q)).
Proof.
  intros Hne.
  rewrite (calculate_target_compliance_user user readings Hne).
  eexists. split; [reflexivity|].
  pose proof (qlen_pos readings Hne) as Hn.
  pose proof (filter_length_le (compliantb user) readings) as Hle.
  pose proof (@rate_100_iff_all_compliant user readings Hne) as Hall.
  set (c := List.length (filter (compliantb user) readings)) in *.
  assert (Hc0 : (0 <= inject_Z (Z.of_nat c))%Q).
  { change 0%Q with (inject_Z 0). rewrite <- Zle_Qle. lia. }
  assert (Hcn : (inject_Z (Z.of_nat c) <= qlen readings)%Q).
  { unfold qlen. rewrite <- Zle_Qle. lia. }
  assert (Hx0 : (0 <= inject_Z (Z.of_nat c) / qlen readings)%Q).
  { apply Qle_shift_div_l; [exact Hn|]. lra. }
  assert (Hx1 : (inject_Z (Z.of_nat c) / qlen readings <= 1)%Q).
  { apply Qle_shift_div_r; [exact Hn|]. lra. }
  assert (Heff : Forall (in_effective_range user) readings
                 <-> (inject_Z (Z.of_nat c) / qlen readings * 100 == 100)%Q).
  { rewrite (Qmult_comm _ 100), <- Hall. rewrite !Forall_forall.
    split; intros H r Hr; apply compliantb_in_effective_range; auto. }
  split; [lra|]. split; [lra|]. split; [ring|].
  split; [apply compliantb_in_effective_range|].
  split; [exact Heff|].
  intros Hnz. split; [intros reading; now apply effective_is_target|].
  rewrite <- Heff. rewrite !Forall_forall.
  split; intros H r Hr; apply (@effective_is_target user r Hnz); auto.
Qed.

Definition example_user : User.t := User.mk 1 None None (Some 9.0%Q).

Definition example_readings : list GlucoseReading.t :=
  [ GlucoseReading.mk 1 1 5.2 mmol_L 0 (Some fasting) None None None None;
    GlucoseReading.mk 2 1 9.5 mmol_L 1 (Some post_meal) None None None None;
    GlucoseReading.mk 3 1 11.0 mmol_L 2 (Some random) None None None None;
    GlucoseReading.mk 4 1 7.5 mmol_L 3 (Some fasting) None None None None ].

Lemma compliance_rate_range_witness :
  example_readings <> []
  /\ no_zero_target example_user
  /\ exists rate : Q,
      calculate_target_compliance example_readings (Some example_user) = Ok rate
      /\ (0 <= rate)%Q /\ (rate <= 100)%Q
      /\ (Forall (in_effective_range example_user) example_readings
          <-> (rate == 100)%Q)
      /\ (Forall (in_target_range example_user) example_readings
          <-> (rate == 100)%Q).
Proof.
  assert (Hnz : no_zero_target example_user).
  { repeat split. simpl. intros H. discriminate H. }
  split; [discriminate|]. split; [exact Hnz|].
  destruct (@compliance_rate_range example_user example_readings) as [rate H];
    [discriminate|].
  exists rate.
  destruct H as [H1 [H2 [H3 [_ [_ [H6 H7]]]]]].
  destruct (H7 Hnz) as [_ H8]. tauto.
Defined.

(** A profile whose fasting minimum is stored as 0, and a fasting
    reading of 4.0: the reading lies inside the target range of the
    profile (0 to 7.0), yet the code tests it against 4.4 to 7.0 and the
    rate is 0, not 100. *)
Definition zero_target_user : User.t := User.mk 1 (Some 0%Q) (Some 7.0%Q) None.

Definition zero_target_readings : list GlucoseReading.t :=
  [ GlucoseReading.mk 1 1 4.0 mmol_L 0 (Some fasting) None None None None ].

Lemma compliance_rate_zero_target :
  Forall (in_target_range zero_target_user) zero_target_readings
  /\ calculate_target_compliance zero_target_readings (Some zero_target_user)
     = Ok 0%Q.
Proof.
  split.
  - constructor; [|constructor]. left.
    split; [reflexivity|]. simpl. split; unfold Qle; simpl; lia.
  - vm_compute. reflexivity.
Qed.

(** ** The weekly report (C4, C5) *)

(** The user has a reading inside the week that contains [now]. *)
Definition has_reading_in_week (db : DB) (user_id now : Z) : Prop :=
  exists r,
    In r (glucose_readings db)
    /\ GlucoseReading.user_id r = user_id
    /\ (week_start_of now <= GlucoseReading.timestamp r < week_end_of now)%Z.

Lemma in_window_true (user_id ws we row_user row_time : Z) :
  in_window user_id ws we row_user row_time = true
  <-> row_user = user_id /\ (ws <= row_time < we)%Z.
Proof.
  unfold in_window. rewrite !andb_true_iff, Z.eqb_eq, Z.leb_le, Z.ltb_lt. tauto.
Qed.

Lemma insert_by_timestamp_length (r : GlucoseReading.t) (l : list GlucoseReading.t) :
  List.length (insert_by_timestamp r l) = S (List.length l).
Proof.
  induction l as [|x l IH]; simpl; [reflexivity|].
  destruct (_ <? _)%Z; simpl; [reflexivity|now rewrite IH].
Qed.

Lemma order_by_timestamp_length (rows : list GlucoseReading.t) :
  List.length (order_by_timestamp rows) = List.length rows.
Proof.
  unfold order_by_timestamp.
  assert (H : forall acc, List.length (fold_left (fun sorted r => insert_by_timestamp r sorted) rows acc)
                          = (List.length rows + List.length acc)%nat).
  { induction rows as [|r rows IH]; intros acc; simpl; [reflexivity|].
    rewrite IH, insert_by_timestamp_length. lia. }
  rewrite H. simpl. lia.
Qed.

Lemma week_readings_nil (db : DB) (user_id now : Z) :
  week_readings db user_id now = [] <-> ~ has_reading_in_week db user_id now.
Proof.
  unfold week_readings, has_reading_in_week.
  rewrite <- length_zero_iff_nil, order_by_timestamp_length, length_zero_iff_nil.
  split.
  - intros Hnil [r [Hin [Hu Ht]]].
    assert (Hr : In r (filter (fun r => in_window user_id (week_start_of now) (week_end_of now)
                                    (GlucoseReading.user_id r) (GlucoseReading.timestamp r))
                              (glucose_readings db))).
    { apply filter_In. split; [exact Hin|]. apply in_window_true. auto. }
    rewrite Hnil in Hr. exact Hr.
  - intros Hno.
    destruct (filter _ (glucose_readings db)) as [|r rest] eqn:E; [reflexivity|].
    exfalso. apply Hno. exists r.
    assert (Hr : In r (r :: rest)) by (left; reflexivity).
    rewrite <- E in Hr. apply filter_In in Hr as [Hin Hw].
    apply in_window_true in Hw. tauto.
Qed.

(** C4. When the week of [now] holds no glucose reading of the user,
    generate_weekly_report does not raise: it returns the dict with
    success False, the no-data message, report_id None, a measurement
    count of 0, and None for the three averages and for the compliance
    rate; and it leaves the database as it was. *)
Theorem weekly_report_without_readings {F : Format}
        (db : DB) (user_id now : Z) :
  ~ has_reading_in_week db user_id now ->
  generate_weekly_report user_id now db
  = (Ok [ ("success", VBool false);
          ("content", VStr (u "本周还没有血糖记录，请开始记录您的血糖数据。"));
          ("report_id", VNone);
          ("total_measurements", VInt 0);
          ("average_glucose", VNone);
          ("fasting_average", VNone);
          ("post_meal_average", VNone);
          ("target_compliance_rate", VNone) ],
     db).
Proof.
  intros Hno. apply week_readings_nil in Hno.
  unfold generate_weekly_report. rewrite Hno. reflexivity.
Qed.

Definition empty_db : DB := mkDB [] [] [] [] [] [] [] [].

(** A Saturday afternoon: 2025-11-29 16:00. *)
Definition example_now : Z := 63900028800000000.

Lemma weekly_report_without_readings_witness :
  ~ has_reading_in_week empty_db 1 example_now
  /\ fst (@generate_weekly_report plain_format 1 example_now empty_db)
     = Ok [ ("success", VBool false);
            ("content", VStr (u "本周还没有血糖记录，请开始记录您的血糖数据。"));
            ("report_id", VNone);
            ("total_measurements", VInt 0);
            ("average_glucose", VNone);
            ("fasting_average", VNone);
            ("post_meal_average", VNone);
            ("target_compliance_rate", VNone) ].
Proof.
  assert (Hno : ~ has_reading_in_week empty_db 1 example_now).
  { intros [r [Hin _]]. exact Hin. }
  split; [exact Hno|].
  rewrite (@weekly_report_without_readings plain_format
             empty_db 1 example_now Hno).
  reflexivity.
Defined.


Lemma generate_action_items_user (user : User.t) (readings : list GlucoseReading.t)
      (patterns : list pystr) :
  exists items, generate_action_items readings (Some user) patterns = Ok items.
Proof.
  destruct readings as [|r rs]; [eexists; reflexivity|].
  unfold generate_action_items.
  rewrite calculate_target_compliance_user by discriminate.
  cbn [rbind]. eexists; reflexivity.
Qed.

(** *** The squares of line 308

    [identify_positive_progress] squares the deviations from the mean
    once there are three readings.  The squares stay inside the floats
    when no value is beyond 1e150 in magnitude: the mean is then within
    that bound too, a deviation within 2e150, and its square within
    4e300, below the limit of about 1.8e308. *)
Definition float_safe_bound : Q := inject_Z (10 ^ 150).

Definition values_fit (readings : list GlucoseReading.t) : Prop :=
  (List.length readings < 3)%nat
  \/ Forall (fun r => (Qabs (GlucoseReading.value r) <= float_safe_bound)%Q)
            readings.

(** The readings of the user inside the week of [now] are fewer than
    three, or none of them is beyond 1e150 in magnitude. *)
Definition week_values_fit (db : DB) (user_id now : Z) : Prop :=
  values_fit (week_readings db user_id now).

Lemma fold_sum_bounds (bound : Q) (values : list Q) (acc : Q) :
  Forall (fun v => (Qabs v <= bound)%Q) values ->
  (acc - bound * qlen values <= fold_left Qplus values acc)%Q
  /\ (fold_left Qplus values acc <= acc + bound * qlen values)%Q.
Proof.
  revert acc. induction values as [|v values IH]; intros acc Hall.
  - unfold qlen. simpl. change (inject_Z 0) with 0%Q. split; lra.
  - inversion Hall as [|? ? Hv Hrest]; subst.
    apply Qabs_Qle_condition in Hv.
    destruct (IH (acc + v)%Q Hrest) as [Hlo Hhi].
    assert (Hlen : (qlen (v :: values) == qlen values + 1)%Q).
    { unfold qlen. simpl List.length. rewrite Nat2Z.inj_succ.
      unfold Z.succ. rewrite inject_Z_plus. reflexivity. }
    simpl fold_left. rewrite Hlen. split; lra.
Qed.

Lemma mean_bounds (bound : Q) (values : list Q) :
  values <> [] ->
  Forall (fun v => (Qabs v <= bound)%Q) values ->
  (- bound <= mean values)%Q /\ (mean values <= bound)%Q.
Proof.
  intros Hne Hall.
  pose proof (qlen_pos values Hne) as Hn.
  destruct (@fold_sum_bounds bound values 0 Hall) as [Hlo Hhi].
  unfold mean, qsum. split.
  - apply Qle_shift_div_l; [exact Hn|]. lra.
  - apply Qle_shift_div_r; [exact Hn|]. lra.
Qed.

Lemma square_below_limit (v m : Q) :
  (Qabs v <= float_safe_bound)%Q ->
  (- float_safe_bound <= m)%Q -> (m <= float_safe_bound)%Q ->
  float_pow_2 (v - m) = Ok ((v - m) ^ 2)%Q.
Proof.
  intros Hv Hlo Hhi. apply Qabs_Qle_condition in Hv.
  unfold float_pow_2.
  assert (Hlt : ((v - m) ^ 2 < float_square_limit)%Q).
  { apply Qle_lt_trans with (4 * (float_safe_bound * float_safe_bound))%Q.
    - simpl Qpower. set (b := float_safe_bound) in *.
      assert (H1 : (0 <= (2 * b - (v - m)) * (2 * b + (v - m)))%Q).
      { apply Qmult_le_0_compat; lra. }
      lra.
    - vm_compute. reflexivity. }
  apply Qlt_bool_iff in Hlt. rewrite Hlt. reflexivity.
Qed.

Lemma squared_deviations_fit (m : Q) (values : list Q) :
  (- float_safe_bound <= m)%Q -> (m <= float_safe_bound)%Q ->
  Forall (fun v => (Qabs v <= float_safe_bound)%Q) values ->
  squared_deviations m values = Ok (map (fun v => ((v - m) ^ 2)%Q) values).
Proof.
  intros Hlo Hhi Hall.
  induction values as [|v values IH]; [reflexivity|].
  inversion Hall as [|? ? Hv Hrest]; subst.
  cbn [squared_deviations map].
  rewrite (@square_below_limit v m Hv Hlo Hhi). cbn [rbind].
  rewrite (IH Hrest). reflexivity.
Qed.

Lemma identify_positive_progress_user {F : Format} (user : User.t)
      (readings : list GlucoseReading.t) :
  values_fit readings ->
  exists progress, identify_positive_progress readings (Some user) = Ok progress.
Proof.
  intros Hfit.
  destruct readings as [|r rs]; [eexists; reflexivity|].
  unfold identify_positive_progress.
  rewrite calculate_target_compliance_user by discriminate.
  cbn [rbind].
  destruct (3 <=? List.length (r :: rs))%nat eqn:E3.
  - destruct Hfit as [Hlt|Hall].
    { apply Nat.leb_le in E3. lia. }
    assert (Hvalues : Forall (fun v => (Qabs v <= float_safe_bound)%Q)
                             (map GlucoseReading.value (r :: rs))).
    { apply Forall_map. exact Hall. }
    destruct (@mean_bounds float_safe_bound (map GlucoseReading.value (r :: rs)))
      as [Hlo Hhi]; [discriminate|exact Hvalues|].
    rewrite (@squared_deviations_fit _ _ Hlo Hhi Hvalues).
    cbn [rbind]. eexists; reflexivity.
  - cbn [rbind]. eexists; reflexivity.
Qed.

(** Three readings of one week, one of them 1e200: the square of its
    deviation from the mean is beyond the floats, and the report raises
    OverflowError without a row. *)
Lemma identify_positive_progress_overflow :
  let reading value :=
    GlucoseReading.mk 1 1 value mmol_L 0 None None None None None in
  @identify_positive_progress plain_format
    [reading (inject_Z (10 ^ 200)); reading 5.0%Q; reading 5.0%Q]
    (Some (User.mk 1 None None None))
  = Raise OverflowError.
Proof. vm_compute. reflexivity. Qed.

(** One call for a user row that exists and a week that holds a reading:
    the report is returned and one row is appended. *)
Lemma generate_weekly_report_appends {F : Format} (db : DB) (user_id now : Z)
      (user : User.t) :
  find_user db user_id = Some user ->
  has_reading_in_week db user_id now ->
  week_values_fit db user_id now ->
  exists report row,
    generate_weekly_report user_id now db
    = (Ok report, set_weekly_reports db (weekly_reports db ++ [row]))
    /\ WeeklyReport.user_id row = user_id
    /\ WeeklyReport.week_start row = week_start_of now
    /\ WeeklyReport.week_end row = week_end_of now
    /\ WeeklyReport.id row = next_id (map WeeklyReport.id (weekly_reports db))
    /\ dict_get report "success" = VBool true
    /\ dict_get report "report_id" = VInt (WeeklyReport.id row).
Proof.
  intros Hu Hin Hfit. unfold week_values_fit in Hfit.
  unfold generate_weekly_report.
  destruct (week_readings db user_id now) as [|r rs] eqn:E.
  { apply week_readings_nil in E. contradiction. }
  rewrite Hu. cbv zeta.
  change (List.length (r :: rs) =? 0)%nat with false. cbv iota.
  rewrite calculate_target_compliance_user by discriminate.
  cbn [rbind].
  destruct (generate_action_items_user user (r :: rs)
              (identify_patterns (r :: rs)
                 (filter (fun m => in_window user_id (week_start_of now) (week_end_of now)
                                             (MealEntry.user_id m) (MealEntry.timestamp m))
                         (meal_entries db))
                 (filter (fun e => in_window user_id (week_start_of now) (week_end_of now)
                                             (ExerciseRecord.user_id e)
                                             (ExerciseRecord.timestamp e))
                         (exercise_records db)))) as [items Hitems].
  rewrite Hitems. cbn [rbind].
  destruct (@identify_positive_progress_user F user (r :: rs) Hfit) as [progress Hprogress].
  rewrite Hprogress. cbn [rbind].
  eexists. eexists. split; [reflexivity|].
  repeat split.
Qed.


(** C5, as the code has it. For a user row that exists, every
    invocation of generate_weekly_report whose week holds at least one
    reading of the user, and either fewer than three readings or no
    reading beyond 1e150 in magnitude (so that the squares of line 308
    stay inside the floats), persists a new weekly-report row, and
    nothing is deduplicated: two consecutive such invocations append two
    rows with different ids, each carrying the week of its own
    invocation, so that two calls within the same week leave two rows
    for that week. *)
Theorem weekly_report_not_deduplicated {F : Format} (db : DB)
        (user_id now1 now2 : Z) (user : User.t) :
  find_user db user_id = Some user ->
  has_reading_in_week db user_id now1 ->
  has_reading_in_week db user_id now2 ->
  week_values_fit db user_id now1 ->
  week_values_fit db user_id now2 ->
  exists report1 row1 report2 row2,
    let db1 := set_weekly_reports db (weekly_reports db ++ [row1]) in
    let db2 := set_weekly_reports db (weekly_reports db ++ [row1; row2]) in
    generate_weekly_report user_id now1 db = (Ok report1, db1)
    /\ generate_weekly_report user_id now2 db1 = (Ok report2, db2)
    /\ WeeklyReport.user_id row1 = user_id
    /\ WeeklyReport.user_id row2 = user_id
    /\ WeeklyReport.week_start row1 = week_start_of now1
    /\ WeeklyReport.week_start row2 = week_start_of now2
    /\ WeeklyReport.id row1 <> WeeklyReport.id row2
    /\ dict_get report1 "report_id" = VInt (WeeklyReport.id row1)
    /\ dict_get report2 "report_id" = VInt (WeeklyReport.id row2)
    /\ (week_start_of now1 = week_start_of now2 ->
        WeeklyReport.week_start row1 = WeeklyReport.week_start row2).
Proof.
  intros Hu H1 H2 F1 F2.
  destruct (@generate_weekly_report_appends F db user_id now1 user Hu H1 F1)
    as [report1 [row1 [E1 [Hu1 [Hs1 [_ [Hid1 [_ Hr1]]]]]]]].
  set (db1 := set_weekly_reports db (weekly_reports db ++ [row1])) in *.
  assert (Hu' : find_user db1 user_id = Some user) by exact Hu.
  assert (H2' : has_reading_in_week db1 user_id now2) by exact H2.
  assert (F2' : week_values_fit db1 user_id now2) by exact F2.
  destruct (@generate_weekly_report_appends F db1 user_id now2 user Hu' H2' F2')
    as [report2 [row2 [E2 [Hu2 [Hs2 [_ [Hid2 [_ Hr2]]]]]]]].
  exists report1, row1, report2, row2. cbv zeta. fold db1.
  split; [exact E1|]. split.
  { rewrite E2. unfold db1, set_weekly_reports. simpl.
    rewrite <- app_assoc. reflexivity. }
  repeat split; try assumption.
  - rewrite Hid2. unfold db1. simpl weekly_reports.
    rewrite map_app. simpl map. unfold next_id.
    rewrite fold_right_app. simpl fold_right.
    assert (Hmax : forall l a, (a <= fold_right Z.max a l)%Z).
    { induction l as [|x l IH]; intros a; simpl; [lia|]. specialize (IH a). lia. }
    pose proof (Hmax (map WeeklyReport.id (weekly_reports db))
                     (Z.max (WeeklyReport.id row1) 0)).
    lia.
  - intros Hw. congruence.
Qed.

Definition example_db : DB :=
  mkDB [example_user]
       [ GlucoseReading.mk 1 1 7.5 mmol_L example_now (Some fasting)
                           (Some (u "snack")) None None None ]
       [] [] [] [] [] [].

Lemma example_db_has_reading : has_reading_in_week example_db 1 example_now.
Proof.
  eexists. split; [left; reflexivity|]. split; [reflexivity|].
  vm_compute. split; [discriminate|reflexivity].
Qed.

Lemma example_db_values_fit : week_values_fit example_db 1 example_now.
Proof. left. vm_compute. lia. Qed.

Lemma weekly_report_not_deduplicated_witness :
  find_user example_db 1 = Some example_user
  /\ has_reading_in_week example_db 1 example_now
  /\ week_values_fit example_db 1 example_now
  /\ exists report1 row1 report2 row2,
      @generate_weekly_report plain_format 1 example_now example_db
      = (Ok report1, set_weekly_reports example_db [row1])
      /\ @generate_weekly_report plain_format 1 example_now
                                 (set_weekly_reports example_db [row1])
         = (Ok report2, set_weekly_reports example_db [row1; row2])
      /\ WeeklyReport.id row1 <> WeeklyReport.id row2
      /\ WeeklyReport.week_start row1 = WeeklyReport.week_start row2.
Proof.
  split; [reflexivity|]. split; [exact example_db_has_reading|].
  split; [exact example_db_values_fit|].
  destruct (@weekly_report_not_deduplicated plain_format example_db 1
              example_now example_now example_user eq_refl
              example_db_has_reading example_db_has_reading
              example_db_values_fit example_db_values_fit)
    as [report1 [row1 [report2 [row2 H]]]].
  exists report1, row1, report2, row2.
  cbv zeta in H. simpl app in H.
  destruct H as [E1 [E2 [_ [_ [_ [_ [Hid [_ [_ Hw]]]]]]]]].
  split; [exact E1|]. split; [exact E2|]. split; [exact Hid|].
  apply Hw. reflexivity.
Defined.

(** Three readings in one week, one of them 1e200: the report raises
    OverflowError at the squares and the tables stay as they were. *)
Definition overflow_db : DB :=
  mkDB [example_user]
       [ GlucoseReading.mk 1 1 (inject_Z (10 ^ 200)) mmol_L example_now None
                           None None None None;
         GlucoseReading.mk 2 1 5.0 mmol_L example_now None None None None None;
         GlucoseReading.mk 3 1 5.0 mmol_L example_now None None None None None ]
       [] [] [] [] [] [].

Lemma weekly_report_overflow :
  @generate_weekly_report plain_format 1 example_now overflow_db
  = (Raise OverflowError, overflow_db).
Proof. vm_compute. reflexivity. Qed.

(** C5 as stated fails when the week holds no reading: two consecutive
    invocations for an existing user persist no row at all. *)
Lemma weekly_report_no_row_without_readings :
  let db := mkDB [example_user] [] [] [] [] [] [] [] in
  let db1 := snd (@generate_weekly_report plain_format 1 example_now db) in
  let db2 := snd (@generate_weekly_report plain_format 1 example_now db1) in
  weekly_reports db = [] /\ weekly_reports db1 = [] /\ weekly_reports db2 = [].
Proof. vm_compute. repeat split. Qed.


(** ** Value and unit extraction (C7) *)

Lemma star_loop_skip {A} (p : N -> bool) (l rest : pystr)
      (k : pystr -> option A) (a : A) :
  Forall (fun c => p c = true) l ->
  match rest with [] => True | c :: _ => p c = false end ->
  k rest = Some a ->
  star_loop p (l ++ rest) k = Some a.
Proof.
  intros Hl Hrest Hk. induction Hl as [|x l Hx Hl IH].
  - destruct rest as [|c rest']; simpl; [exact Hk|]. now rewrite Hrest.
  - simpl. now rewrite Hx, IH.
Qed.

Lemma match_some {A} (x : option A) (y : option A) (a : A) :
  x = Some a -> match x with Some v => Some v | None => y end = Some a.
Proof. now intros ->. Qed.

Section ExtractValue.
Context {U : Unicode}.
Hypothesis ascii : ascii_conformant U.

Lemma decimal_value_ascii (c : N) :
  (c < 128)%N -> decimal_value c = ascii_decimal c.
Proof. intros H. now destruct (proj1 ascii c H). Qed.

Lemma is_whitespace_ascii (c : N) :
  (c < 128)%N ->
  is_whitespace c = existsb (N.eqb c) [9; 10; 11; 12; 13; 28; 29; 30; 31; 32]%N.
Proof. intros H. now destruct (proj1 ascii c H). Qed.

Lemma lit_match_same (ic : bool) (c : N) : lit_match ic c c = true.
Proof. unfold lit_match. destruct ic; apply N.eqb_refl. Qed.

(** The first pattern cannot start at a character that is no digit. *)
Lemma number_unit_no_match_at (c : N) (s : pystr) :
  decimal_value c = None ->
  re_match true (re "(\d+(?:\.\d+)?)\s*(?:mmol|mg)") (c :: s) = None.
Proof.
  intros Hc. vm_compute re. unfold re_match. cbn [run atom_match].
  now rewrite Hc.
Qed.

Lemma number_unit_search_skip (pre s : pystr) :
  Forall (fun c => decimal_value c = None) pre ->
  re_search true (re "(\d+(?:\.\d+)?)\s*(?:mmol|mg)") (pre ++ s)
  = re_search true (re "(\d+(?:\.\d+)?)\s*(?:mmol|mg)") s.
Proof.
  induction 1 as [|c pre Hc Hpre IH]; [reflexivity|].
  simpl app. cbn [re_search]. now rewrite (number_unit_no_match_at c (pre ++ s) Hc).
Qed.

Lemma number_unit_match_here (n : nat) (post : pystr) :
  re_match true (re "(\d+(?:\.\d+)?)\s*(?:mmol|mg)")
           (u "8.5" ++ repeat 32%N n ++ u "mmol" ++ post)
  = Some (Some (u "8.5")).
Proof.
  vm_compute re. vm_compute u. unfold re_match.
  set (tail := repeat 32%N n ++ [109; 109; 111; 108]%N ++ post).
  assert (Htail : match tail with
                  | [] => True
                  | c :: _ => is_some (decimal_value c) = false
                  end).
  { unfold tail. destruct n; simpl; rewrite decimal_value_ascii by reflexivity;
      reflexivity. }
  simpl app. cbn [run].
  assert (H56 : atom_match true ADigit 56 = true).
  { simpl. now rewrite decimal_value_ascii by reflexivity. }
  assert (H46 : atom_match true ADigit 46 = false).
  { simpl. now rewrite decimal_value_ascii by reflexivity. }
  assert (H53 : atom_match true ADigit 53 = true).
  { simpl. now rewrite decimal_value_ascii by reflexivity. }
  rewrite H56.
  apply (star_loop_skip _ [] (46%N :: 53%N :: tail)); [constructor|exact H46|].
  apply match_some.
  change (atom_match true (ALit 46) 46) with (lit_match true 46 46).
  rewrite lit_match_same, H53.
  apply (star_loop_skip _ [] tail); [constructor|exact Htail|].
  unfold tail at 1.
  apply star_loop_skip.
  - apply Forall_forall. intros c Hc. apply repeat_spec in Hc. subst c.
    simpl. now rewrite is_whitespace_ascii by reflexivity.
  - simpl. now rewrite is_whitespace_ascii by reflexivity.
  - apply match_some. simpl app. cbv beta iota. cbn [atom_match].
    rewrite !lit_match_same.
    change (List.length (56%N :: 46%N :: 53%N :: tail))
      with (3 + List.length tail)%nat.
    replace (3 + List.length tail - List.length tail)%nat with 3%nat by lia.
    reflexivity.
Qed.

Lemma float_of_8_5 : float_of_str (u "8.5") = Ok (17 # 2).
Proof.
  vm_compute u. unfold float_of_str. cbn [split_dot N.eqb Pos.eqb].
  cbn [digits_value].
  rewrite (decimal_value_ascii 56), (decimal_value_ascii 53) by reflexivity.
  reflexivity.
Qed.

End ExtractValue.

Lemma basic_unicode_conformant : ascii_conformant basic_unicode.
Proof.
  split; [intros c Hc; split|].
  3: { intros c. simpl. unfold ascii_lower.
       destruct ((65 <=? c) && (c <=? 90))%N eqn:E; simpl; [|auto].
       apply andb_prop in E as [E1 E2]. apply N.leb_le in E1. lia. }
  - simpl. unfold basic_decimal, ascii_decimal.
    destruct ((48 <=? c) && (c <=? 57))%N; [reflexivity|].
    replace (65296 <=? c)%N with false; [reflexivity|].
    symmetry. apply N.leb_gt. lia.
  - simpl. unfold whitespace_table. cbn [existsb].
    repeat match goal with
           | |- context [(c =? ?k)%N] =>
             lazymatch k with
             | 9%N => fail | 10%N => fail | 11%N => fail | 12%N => fail
             | 13%N => fail | 28%N => fail | 29%N => fail | 30%N => fail
             | 31%N => fail | 32%N => fail
             | _ => replace (c =? k)%N with false
                 by (symmetry; apply N.eqb_neq; lia)
             end
           end.
    reflexivity.
Qed.

Lemma str_in_prefix (p q s : pystr) :
  str_in (p ++ q) s = true -> str_in p s = true.
Proof.
  assert (Hsw : forall s, startswith (p ++ q) s = true -> startswith p s = true).
  { induction p as [|a p IH]; intros [|b t]; simpl; try discriminate; auto.
    intros H. apply andb_prop in H as [Hab Ht]. rewrite Hab. simpl. auto. }
  induction s as [|c s IH]; simpl.
  - rewrite !orb_false_r. apply Hsw.
  - intros H. apply orb_prop in H as [H|H].
    + now rewrite (Hsw _ H).
    + rewrite (IH H). apply orb_true_r.
Qed.

(** detect_unit answers mmol/L exactly when the lower-cased text does not
    contain mg. *)
Lemma detect_unit_mmol {U : Unicode} (text : pystr) :
  detect_unit text = mmol_L <-> str_in (u "mg") (str_lower text) = false.
Proof.
  unfold detect_unit.
  destruct (str_in (u "mg") (str_lower text)) eqn:Emg; simpl.
  - split; discriminate.
  - destruct (str_in (u "mg/dl") (str_lower text)) eqn:Edl.
    + change (u "mg/dl") with (u "mg" ++ u "/dl") in Edl.
      apply str_in_prefix in Edl. congruence.
    + split; reflexivity.
Qed.

(** C7, as the code has it. When no decimal digit comes before an
    occurrence of 8.5 that is followed, after any number of blanks, by
    mmol, extract_glucose_value returns 8.5; and detect_unit returns
    mmol/L exactly when the lower-cased text does not contain mg. *)
Theorem extract_value_and_unit {U : Unicode} (pre post : pystr) (n : nat) :
  ascii_conformant U ->
  Forall (fun c => decimal_value c = None) pre ->
  let text := pre ++ u "8.5" ++ repeat 32%N n ++ u "mmol" ++ post in
  extract_glucose_value text = Ok (Some (17 # 2))
  /\ (17 # 2 == 8.5)%Q
  /\ (detect_unit text = mmol_L <-> str_in (u "mg") (str_lower text) = false).
Proof.
  intros HU Hpre text. split; [|split; [reflexivity|apply detect_unit_mmol]].
  unfold extract_glucose_value.
  change glucose_value_res
    with (re "(\d+(?:\.\d+)?)\s*(?:mmol|mg)"
             :: tl glucose_value_res).
  cbn [first_match_float]. unfold text.
  rewrite (number_unit_search_skip pre _ Hpre).
  assert (Hs : re_search true (re "(\d+(?:\.\d+)?)\s*(?:mmol|mg)")
                         (u "8.5" ++ repeat 32%N n ++ u "mmol" ++ post)
               = Some (Some (u "8.5"))).
  { change (u "8.5" ++ repeat 32%N n ++ u "mmol" ++ post)
      with (56%N :: (u ".5" ++ repeat 32%N n ++ u "mmol" ++ post)).
    cbn [re_search].
    change (56%N :: (u ".5" ++ repeat 32%N n ++ u "mmol" ++ post))
      with (u "8.5" ++ repeat 32%N n ++ u "mmol" ++ post).
    now rewrite (number_unit_match_here HU). }
  rewrite Hs. cbn [float_of_group]. rewrite (float_of_8_5 HU). reflexivity.
Qed.

Lemma extract_value_and_unit_witness :
  let text := u "今天血糖8.5 mmol/L" in
  text = u "今天血糖" ++ u "8.5" ++ repeat 32%N 1 ++ u "mmol" ++ u "/L"
  /\ ascii_conformant basic_unicode
  /\ Forall (fun c => @decimal_value basic_unicode c = None) (u "今天血糖")
  /\ @extract_glucose_value basic_unicode text = Ok (Some (17 # 2))
  /\ @detect_unit basic_unicode text = mmol_L.
Proof.
  assert (Hpre : Forall (fun c => @decimal_value basic_unicode c = None)
                        (u "今天血糖")).
  { vm_compute. repeat constructor. }
  split; [reflexivity|]. split; [exact basic_unicode_conformant|].
  split; [exact Hpre|].
  destruct (@extract_value_and_unit basic_unicode (u "今天血糖") (u "/L") 1
              basic_unicode_conformant Hpre) as [Hv [_ Hu]].
  split; [exact Hv|]. apply Hu. reflexivity.
Defined.

(** C7 as stated fails: a text may contain 8.5 and mmol and yet yield
    another value (the number that contains 8.5 is 18.5) or another unit
    (the text also mentions mg). *)
Lemma extract_value_contains_is_not_enough :
  let text1 := u "18.5 mmol" in
  let text2 := u "8.5 mmol (153 mg/dL)" in
  str_in (u "8.5") text1 = true /\ str_in (u "mmol") text1 = true
  /\ @extract_glucose_value basic_unicode text1 = Ok (Some (37 # 2))
  /\ ~ (37 # 2 == 8.5)%Q
  /\ str_in (u "8.5") text2 = true /\ str_in (u "mmol") text2 = true
  /\ @detect_unit basic_unicode text2 = mg_dL
  /\ mg_dL <> mmol_L.
Proof.
  cbv zeta. repeat split; try (vm_compute; reflexivity); vm_compute; discriminate.
Qed.


(** ** What a successful match means, and why float() never fails here *)

Section MatchMeaning.
Context {U : Unicode}.

(** [matches ic r s g s' g']: the pattern [r] matches the part of [s]
    that ends where [s'] begins, and turns the captured text [g] into [g']. *)
Fixpoint matches (ic : bool) (r : regex) (s : pystr) (g : option pystr)
         (s' : pystr) (g' : option pystr) : Prop :=
  match r with
  | Eps => s' = s /\ g' = g
  | Atom a => exists c, s = c :: s' /\ atom_match ic a c = true /\ g' = g
  | Star a =>
    exists l, s = l ++ s' /\ Forall (fun c => atom_match ic a c = true) l /\ g' = g
  | Plus a =>
    exists c l, s = c :: l ++ s' /\ atom_match ic a c = true
                /\ Forall (fun c => atom_match ic a c = true) l /\ g' = g
  | Opt r' => matches ic r' s g s' g' \/ (s' = s /\ g' = g)
  | Cat r1 r2 =>
    exists s1 g1, matches ic r1 s g s1 g1 /\ matches ic r2 s1 g1 s' g'
  | Alt r1 r2 => matches ic r1 s g s' g' \/ matches ic r2 s g s' g'
  | Group r' =>
    exists gi, matches ic r' s g s' gi
               /\ g' = Some (firstn (List.length s - List.length s') s)
  end.

Lemma star_loop_sound {A : Type} (p : N -> bool) (s : pystr)
      (k : pystr -> option A) (a : A) :
  star_loop p s k = Some a ->
  exists l s', s = l ++ s' /\ Forall (fun c => p c = true) l /\ k s' = Some a.
Proof.
  induction s as [|c s IH]; simpl; intros H.
  - exists [], []. auto.
  - destruct (p c) eqn:Ec.
    + destruct (star_loop p s k) as [x|] eqn:Es.
      * inversion H; subst x. destruct (IH eq_refl) as [l [s' [-> [Hl Hk]]]].
        exists (c :: l), s'. auto.
      * exists [], (c :: s). auto.
    + exists [], (c :: s). auto.
Qed.

Lemma run_sound {A : Type} (ic : bool) (r : regex) :
  forall (s : pystr) (g : option pystr) (k : pystr -> option pystr -> option A)
         (a : A),
    run ic r s g k = Some a ->
    exists s' g', matches ic r s g s' g' /\ k s' g' = Some a.
Proof.
  induction r as [|a0|a0|a0|r IH|r1 IH1 r2 IH2|r1 IH1 r2 IH2|r IH];
    intros s g k a H; simpl in H.
  - exists s, g. simpl. auto.
  - destruct s as [|c s]; [discriminate|].
    destruct (atom_match ic a0 c) eqn:E; [|discriminate].
    exists s, g. simpl. eauto.
  - apply star_loop_sound in H as [l [s' [-> [Hl Hk]]]].
    exists s', g. simpl. eauto.
  - destruct s as [|c s]; [discriminate|].
    destruct (atom_match ic a0 c) eqn:E; [|discriminate].
    apply star_loop_sound in H as [l [s' [-> [Hl Hk]]]].
    exists s', g. simpl. split; [|exact Hk]. exists c, l. auto.
  - destruct (run ic r s g k) as [x|] eqn:E.
    + inversion H; subst x. destruct (IH _ _ _ _ E) as [s' [g' [Hm Hk]]].
      exists s', g'. simpl. auto.
    + exists s, g. simpl. auto.
  - destruct (IH1 _ _ _ _ H) as [s1 [g1 [Hm1 Hk1]]].
    destruct (IH2 _ _ _ _ Hk1) as [s' [g' [Hm2 Hk]]].
    exists s', g'. simpl. eauto.
  - destruct (run ic r1 s g k) as [x|] eqn:E.
    + inversion H; subst x. destruct (IH1 _ _ _ _ E) as [s' [g' [Hm Hk]]].
      exists s', g'. simpl. auto.
    + destruct (IH2 _ _ _ _ H) as [s' [g' [Hm Hk]]].
      exists s', g'. simpl. auto.
  - destruct (IH _ _ _ _ H) as [s' [gi [Hm Hk]]].
    exists s', (Some (firstn (List.length s - List.length s') s)).
    simpl. eauto.
Qed.

(** re.search only answers with a match of the pattern somewhere. *)
Lemma re_search_sound (ic : bool) (r : regex) (s : pystr) (m : match_obj) :
  re_search ic r s = Some m ->
  exists s0 s', matches ic r s0 None s' m.
Proof.
  induction s as [|c s IH]; simpl; intros H.
  - destruct (re_match ic r []) as [x|] eqn:E; [|discriminate].
    inversion H; subst x. unfold re_match in E.
    apply run_sound in E as [s' [g' [Hm Hk]]]. inversion Hk; subst g'. eauto.
  - destruct (re_match ic r (c :: s)) as [x|] eqn:E.
    + inversion H; subst x. unfold re_match in E.
      apply run_sound in E as [s' [g' [Hm Hk]]]. inversion Hk; subst g'. eauto.
    + auto.
Qed.

Fixpoint group_free (r : regex) : bool :=
  match r with
  | Eps | Atom _ | Star _ | Plus _ => true
  | Opt r' => group_free r'
  | Cat r1 r2 | Alt r1 r2 => group_free r1 && group_free r2
  | Group _ => false
  end.

Lemma matches_group_free (ic : bool) (r : regex) :
  group_free r = true ->
  forall s g s' g', matches ic r s g s' g' -> g' = g.
Proof.
  induction r as [|a0|a0|a0|r IH|r1 IH1 r2 IH2|r1 IH1 r2 IH2|r IH];
    simpl; intros Hf s g s' g' H.
  - tauto.
  - destruct H as [c H]. tauto.
  - destruct H as [l H]. tauto.
  - destruct H as [c [l H]]. tauto.
  - destruct H as [H|H]; [eauto|tauto].
  - apply andb_prop in Hf as [H1 H2].
    destruct H as [s1 [g1 [Ha Hb]]].
    rewrite (IH2 H2 _ _ _ _ Hb). eauto.
  - apply andb_prop in Hf as [H1 H2]. destruct H; eauto.
  - discriminate.
Qed.

(** The text that a match consumes. *)
Lemma matches_suffix (ic : bool) (r : regex) :
  forall s g s' g', matches ic r s g s' g' -> exists d, s = d ++ s'.
Proof.
  induction r as [|a0|a0|a0|r IH|r1 IH1 r2 IH2|r1 IH1 r2 IH2|r IH];
    simpl; intros s g s' g' H.
  - destruct H as [-> _]. now exists [].
  - destruct H as [c [-> _]]. now exists [c].
  - destruct H as [l [-> _]]. now exists l.
  - destruct H as [c [l [-> _]]]. now exists (c :: l).
  - destruct H as [H|[-> _]]; [eauto|now exists []].
  - destruct H as [s1 [g1 [Ha Hb]]].
    destruct (IH1 _ _ _ _ Ha) as [d1 ->]. destruct (IH2 _ _ _ _ Hb) as [d2 ->].
    exists (d1 ++ d2). now rewrite app_assoc.
  - destruct H; eauto.
  - destruct H as [gi [H _]]. eauto.
Qed.

End MatchMeaning.

(** The number inside the capturing group of every value pattern. *)
Definition number : regex := Eval vm_compute in re "\d+(?:\.\d+)?".

(** The pattern is a sequence with one capturing group, around [number]. *)
Inductive captures_number : regex -> Prop :=
| cn_group : captures_number (Group number)
| cn_left (r1 r2 : regex) :
    captures_number r1 -> group_free r2 = true -> captures_number (Cat r1 r2)
| cn_right (r1 r2 : regex) :
    group_free r1 = true -> captures_number r2 -> captures_number (Cat r1 r2).

Ltac solve_captures_number :=
  first [ apply cn_group
        | apply cn_left; [solve_captures_number|reflexivity]
        | apply cn_right; [reflexivity|solve_captures_number] ].

Lemma value_patterns_capture_number :
  Forall captures_number (glucose_value_res ++ hours_after_meal_res).
Proof.
  unfold glucose_value_res, hours_after_meal_res. simpl app.
  repeat (constructor; [solve_captures_number|]). constructor.
Qed.

Section FloatNeverFails.
Context {U : Unicode}.
Hypothesis ascii : ascii_conformant U.

Definition digits (l : pystr) : Prop :=
  Forall (fun c => is_some (decimal_value c) = true) l.

Lemma digit_not_dot (c : N) : is_some (decimal_value c) = true -> (c =? 46)%N = false.
Proof.
  intros H. apply N.eqb_neq. intros ->.
  rewrite (proj1 (proj1 ascii 46%N eq_refl)) in H. discriminate.
Qed.

Lemma split_dot_digits (l : pystr) : digits l -> split_dot l = (l, None).
Proof.
  induction 1 as [|c l Hc Hl IH]; simpl; [reflexivity|].
  now rewrite (digit_not_dot c Hc), IH.
Qed.

Lemma split_dot_fraction (l f : pystr) :
  digits l -> split_dot (l ++ 46%N :: f) = (l, Some f).
Proof.
  induction 1 as [|c l Hc Hl IH]; simpl; [reflexivity|].
  now rewrite (digit_not_dot c Hc), IH.
Qed.

Lemma digits_value_digits (l : pystr) :
  digits l -> forall acc, exists n, digits_value l acc = Some n.
Proof.
  induction 1 as [|c l Hc Hl IH]; intros acc; simpl; [eauto|].
  destruct (decimal_value c) as [d|]; [apply IH|discriminate].
Qed.

Lemma float_of_integer (c : N) (l : pystr) :
  digits (c :: l) -> exists q, float_of_str (c :: l) = Ok q.
Proof.
  intros Hd. unfold float_of_str. rewrite (split_dot_digits _ Hd).
  destruct (digits_value_digits _ Hd 0%N) as [i Hi]. rewrite Hi.
  simpl. eauto.
Qed.

Lemma float_of_decimal (c : N) (l f : pystr) :
  digits (c :: l) -> digits f -> exists q, float_of_str ((c :: l) ++ 46%N :: f) = Ok q.
Proof.
  intros Hd Hf. unfold float_of_str. rewrite (split_dot_fraction _ f Hd).
  destruct (digits_value_digits _ Hd 0%N) as [i Hi]. rewrite Hi.
  destruct (digits_value_digits _ Hf 0%N) as [j Hj]. rewrite Hj.
  eauto.
Qed.

Lemma matches_number (s s' : pystr) (g g' : option pystr) :
  matches true number s g s' g' ->
  exists d, s = d ++ s' /\ exists q, float_of_str d = Ok q.
Proof.
  unfold number. simpl.
  intros [s1 [g1 [[c [l [-> [Hc [Hl _]]]]] Hopt]]].
  assert (Hd : digits (c :: l)) by (constructor; assumption).
  destruct Hopt as [[s2 [g2 [[c' [-> [Hdot _]]] [c2 [l2 [-> [Hc2 [Hl2 _]]]]]]]]|[-> _]].
  - unfold lit_match in Hdot. apply N.eqb_eq in Hdot.
    apply (proj2 ascii) in Hdot. subst c'.
    exists ((c :: l) ++ 46%N :: c2 :: l2). split.
    + simpl. rewrite <- !app_assoc. reflexivity.
    + apply float_of_decimal; [exact Hd|]. constructor; assumption.
  - exists (c :: l). split; [reflexivity|]. now apply float_of_integer.
Qed.

Lemma firstn_consumed (d s' : pystr) :
  firstn (List.length (d ++ s') - List.length s') (d ++ s') = d.
Proof.
  rewrite length_app.
  replace (List.length d + List.length s' - List.length s')%nat
    with (List.length d + 0)%nat by lia.
  rewrite firstn_app_2. simpl. apply app_nil_r.
Qed.

Lemma captured_number_floats (r : regex) :
  captures_number r ->
  forall s g s' g',
    matches true r s g s' g' ->
    exists q, float_of_group g' = Ok q.
Proof.
  induction 1 as [|r1 r2 H1 IH Hf|r1 r2 Hf H2 IH]; intros s g s' g' Hm.
  - destruct Hm as [gi [Hm ->]].
    destruct (matches_number _ _ _ _ Hm) as [d [-> Hq]].
    rewrite firstn_consumed. exact Hq.
  - destruct Hm as [s1 [g1 [Ha Hb]]].
    rewrite (matches_group_free true r2 Hf _ _ _ _ Hb). eauto.
  - destruct Hm as [s1 [g1 [Ha Hb]]]. eauto.
Qed.

Lemma first_match_float_total (patterns : list regex) (text : pystr) :
  Forall captures_number patterns ->
  exists v, first_match_float true patterns text = Ok v.
Proof.
  induction 1 as [|p ps Hp Hps IH]; simpl; [eauto|].
  destruct (re_search true p text) as [m|] eqn:E; [|exact IH].
  destruct (re_search_sound _ _ _ _ E) as [s0 [s' Hm]].
  destruct (captured_number_floats p Hp _ _ _ _ Hm) as [q Hq].
  rewrite Hq. simpl. eauto.
Qed.

Lemma extract_glucose_value_total (text : pystr) :
  exists v, extract_glucose_value text = Ok v.
Proof.
  apply first_match_float_total.
  exact (proj1 (proj1 (Forall_app _ _ _) value_patterns_capture_number)).
Qed.

Lemma extract_hours_after_meal_total (text : pystr) :
  exists v, extract_hours_after_meal text = Ok v.
Proof.
  apply first_match_float_total.
  exact (proj2 (proj1 (Forall_app _ _ _) value_patterns_capture_number)).
Qed.

(** Slot extraction never raises. *)
Lemma _extract_slots_total (message : pystr) :
  exists slots, _extract_slots message = Ok slots.
Proof.
  unfold _extract_slots.
  destruct (extract_glucose_value_total message) as [v ->].
  destruct (extract_hours_after_meal_total message) as [h ->].
  simpl. eauto.
Qed.

End FloatNeverFails.


(** ** The conversation state (C9) *)

(** A computation that leaves the table of conversation states alone. *)
Definition keeps_states {A : Type} (m : M A) : Prop :=
  forall db, conversation_states (snd (m db)) = conversation_states db.

Lemma keeps_mret {A : Type} (a : A) : keeps_states (mret a).
Proof. intros db. reflexivity. Qed.

Lemma keeps_lift {A : Type} (r : result A) : keeps_states (lift r).
Proof. intros db. reflexivity. Qed.

Lemma keeps_bind {A B : Type} (m : M A) (f : A -> M B) :
  keeps_states m -> (forall a, keeps_states (f a)) -> keeps_states (mbind m f).
Proof.
  intros Hm Hf db. unfold mbind. specialize (Hm db).
  destruct (m db) as [[a|e] db']; simpl in *; [|exact Hm].
  now rewrite Hf.
Qed.

Ltac break_result :=
  repeat match goal with
         | |- conversation_states (snd (match ?x with _ => _ end)) = _ =>
           destruct x
         | |- conversation_states (snd (if ?x then _ else _)) = _ =>
           destruct x
         end.

Ltac keeps_with handlers :=
  repeat first
         [ apply keeps_mret
         | apply keeps_lift
         | handlers
         | apply keeps_bind; [|intros ?]
         | match goal with
           | |- keeps_states (if ?b then _ else _) => destruct b
           | |- keeps_states (match ?x with _ => _ end) => destruct x
           end ].

Section Frame.
Context {U : Unicode} {F : Format}.

Lemma keeps_log_glucose user_id text timestamp unit context meal_type hours now :
  keeps_states (log_glucose user_id text timestamp unit context meal_type hours now).
Proof. intros db. unfold log_glucose. cbv zeta. break_result; reflexivity. Qed.

Lemma keeps_log_meal user_id text timestamp meal_type portion_size now :
  keeps_states (log_meal user_id text timestamp meal_type portion_size now).
Proof. intros db. unfold log_meal. cbv zeta. break_result; reflexivity. Qed.

Lemma keeps_log_exercise user_id text timestamp exercise_type duration intensity now :
  keeps_states (log_exercise user_id text timestamp exercise_type duration intensity now).
Proof. intros db. unfold log_exercise. cbv zeta. break_result; reflexivity. Qed.

Lemma keeps_log_medication user_id text timestamp name dosage now :
  keeps_states (log_medication user_id text timestamp name dosage now).
Proof. intros db. reflexivity. Qed.

Lemma keeps_analyze_glucose user_id value context reading_id now :
  keeps_states (analyze_glucose user_id value context reading_id now).
Proof.
  intros db. unfold analyze_glucose. cbv zeta. break_result; try reflexivity.
  cbn [snd]. destruct (truthy (opt_int reading_id)); reflexivity.
Qed.

Lemma keeps_generate_weekly_report user_id now :
  keeps_states (generate_weekly_report user_id now).
Proof.
  intros db. unfold generate_weekly_report. cbv zeta. break_result; reflexivity.
Qed.

Ltac keeps :=
  keeps_with ltac:(first [ apply keeps_log_glucose
                         | apply keeps_log_meal
                         | apply keeps_log_exercise
                         | apply keeps_log_medication
                         | apply keeps_analyze_glucose
                         | apply keeps_generate_weekly_report ]).

Lemma keeps__handle_record_glucose user_id message slots now :
  keeps_states (_handle_record_glucose user_id message slots now).
Proof. unfold _handle_record_glucose. cbv zeta. keeps. Qed.

Lemma keeps__handle_ask_value_status user_id message now :
  keeps_states (_handle_ask_value_status user_id message now).
Proof.
  intros db. unfold _handle_ask_value_status.
  destruct (latest_reading db user_id) as [latest|]; [|reflexivity].
  revert db. change (keeps_states (let+ analysis := analyze_glucose user_id (GlucoseReading.value latest) (GlucoseReading.context latest) (Some (GlucoseReading.id latest)) now in let+ formatted := lift (_format_analysis analysis) in mret [("message", VStr (join (nl ++ nl) [u "您最近的血糖值是 " ++ format_1f (GlucoseReading.value latest) ++ u " mmol/L"; formatted]))])).
  keeps.
Qed.

Lemma keeps__handle_weekly_report user_id now :
  keeps_states (_handle_weekly_report user_id now).
Proof. unfold _handle_weekly_report. keeps. Qed.

Lemma keeps_route intent user_id message slots now :
  keeps_states (route intent user_id message slots now).
Proof.
  unfold route. cbv zeta.
  repeat first
         [ apply keeps__handle_record_glucose
         | apply keeps__handle_ask_value_status
         | apply keeps__handle_weekly_report
         | progress keeps ].
Qed.

End Frame.

(** At most one row per user and session. *)
Definition at_most_one_state (db : DB) : Prop :=
  forall user_id session_id,
    (List.length (filter (same_session user_id session_id) (conversation_states db))
     <= 1)%nat.

(** The row holds what a turn with this intent, sentiment and slot dict
    writes. *)
Definition state_of_turn {F : Format} (user_id : Z) (session_id intent sentiment : pystr)
           (slots : pydict) (st : ConversationState.t) : Prop :=
  ConversationState.user_id st = user_id
  /\ ConversationState.session_id st = session_id
  /\ ConversationState.current_topic st = Some intent
  /\ ConversationState.intent st = Some intent
  /\ ConversationState.sentiment st = Some sentiment
  /\ ConversationState.slots st = Some (json_dumps (VDict slots)).

Lemma same_session_true (user_id : Z) (session_id : pystr) (st : ConversationState.t) :
  same_session user_id session_id st = true
  <-> ConversationState.user_id st = user_id
      /\ ConversationState.session_id st = session_id.
Proof.
  unfold same_session. now rewrite andb_true_iff, Z.eqb_eq, str_eqb_eq.
Qed.

Lemma same_session_other (u1 u2 : Z) (s1 s2 : pystr) (st : ConversationState.t) :
  u1 <> u2 \/ s1 <> s2 ->
  same_session u2 s2 st = true -> same_session u1 s1 st = false.
Proof.
  intros Hne H. apply same_session_true in H as [Hu Hs].
  destruct (same_session u1 s1 st) eqn:E; [|reflexivity].
  apply same_session_true in E as [Hu' Hs']. destruct Hne; congruence.
Qed.

Lemma update_first_length {A : Type} (p : A -> bool) (f : A -> A) (rows : list A) :
  List.length (update_first p f rows) = List.length rows.
Proof.
  induction rows as [|x rows IH]; simpl; [reflexivity|].
  destruct (p x); simpl; congruence.
Qed.

Lemma filter_update_first_same {A : Type} (p : A -> bool) (f : A -> A)
      (rows : list A) :
  (forall x, p (f x) = p x) ->
  filter p (update_first p f rows) = update_first p f (filter p rows).
Proof.
  intros Hf. induction rows as [|x rows IH]; simpl; [reflexivity|].
  destruct (p x) eqn:E; simpl.
  - now rewrite Hf, E.
  - now rewrite E.
Qed.

Lemma filter_update_first_other {A : Type} (p q : A -> bool) (f : A -> A)
      (rows : list A) :
  (forall x, q (f x) = q x) ->
  (forall x, p x = true -> q x = false) ->
  filter q (update_first p f rows) = filter q rows.
Proof.
  intros Hf Hpq. induction rows as [|x rows IH]; simpl; [reflexivity|].
  destruct (p x) eqn:E; simpl.
  - now rewrite Hf, (Hpq x E).
  - now rewrite IH.
Qed.

Lemma find_none_filter {A : Type} (p : A -> bool) (rows : list A) :
  find p rows = None -> filter p rows = [].
Proof.
  induction rows as [|x rows IH]; simpl; [reflexivity|].
  destruct (p x); [discriminate|exact IH].
Qed.

Lemma find_some_filter {A : Type} (p : A -> bool) (rows : list A) (x : A) :
  find p rows = Some x -> exists rest, filter p rows = x :: rest.
Proof.
  induction rows as [|y rows IH]; simpl; [discriminate|].
  destruct (p y) eqn:E.
  - intros H. inversion H; subst. eauto.
  - exact IH.
Qed.

(** One update of the conversation state. *)
Lemma _update_conversation_state_spec {F : Format} (db : DB) (user_id : Z)
      (session_id intent sentiment : pystr) (slots : pydict) (now : Z) :
  at_most_one_state db ->
  let db' := snd (_update_conversation_state user_id session_id intent sentiment
                                             slots now db) in
  at_most_one_state db'
  /\ (exists st,
        filter (same_session user_id session_id) (conversation_states db') = [st]
        /\ state_of_turn user_id session_id intent sentiment slots st)
  /\ (forall u' s', u' <> user_id \/ s' <> session_id ->
        filter (same_session u' s') (conversation_states db')
        = filter (same_session u' s') (conversation_states db))
  /\ (find (same_session user_id session_id) (conversation_states db) = None ->
      exists st,
        conversation_states db' = conversation_states db ++ [st]
        /\ state_of_turn user_id session_id intent sentiment slots st).
Proof.
  intros Hone db'. unfold _update_conversation_state in db'. simpl in db'.
  set (rows := conversation_states db) in *.
  set (p := same_session user_id session_id) in *.
  set (new := ConversationState.mk (next_id (map ConversationState.id rows))
                                   user_id session_id (Some intent) (Some intent)
                                   (Some sentiment) (Some (json_dumps (VDict slots)))
                                   now now).
  set (upd := fun st : ConversationState.t =>
                ConversationState.mk (ConversationState.id st)
                                     (ConversationState.user_id st)
                                     (ConversationState.session_id st)
                                     (Some intent) (Some intent) (Some sentiment)
                                     (Some (json_dumps (VDict slots)))
                                     (ConversationState.created_at st) now).
  assert (Hnew : p new = true).
  { apply same_session_true. split; reflexivity. }
  assert (Hupd : forall u' s' x, same_session u' s' (upd x) = same_session u' s' x)
    by reflexivity.
  assert (Hsame : exists st, filter p (conversation_states db') = [st]
                             /\ state_of_turn user_id session_id intent sentiment slots st).
  { unfold db'. simpl conversation_states. fold rows. fold p.
    destruct (find p rows) as [st0|] eqn:E.
    - fold upd. rewrite filter_update_first_same by (intros; apply Hupd).
      destruct (find_some_filter p rows st0 E) as [rest Hrest].
      pose proof (Hone user_id session_id) as Hle. fold rows in Hle. fold p in Hle.
      rewrite Hrest in Hle. destruct rest as [|y rest]; [|simpl in Hle; lia].
      rewrite Hrest. simpl.
      assert (Hp0 : p st0 = true).
      { assert (Hin : In st0 (filter p rows)) by (rewrite Hrest; left; reflexivity).
        now apply filter_In in Hin. }
      rewrite Hp0. exists (upd st0). split; [reflexivity|].
      apply same_session_true in Hp0 as [Hu0 Hs0].
      repeat split; assumption.
    - rewrite filter_app, (find_none_filter p rows E). simpl. fold new.
      rewrite Hnew. exists new. split; [reflexivity|]. repeat split. }
  assert (Hother : forall u' s', u' <> user_id \/ s' <> session_id ->
                                 filter (same_session u' s') (conversation_states db')
                                 = filter (same_session u' s') rows).
  { intros u' s' Hne. unfold db'. simpl conversation_states. fold rows. fold p.
    destruct (find p rows) as [st0|] eqn:E.
    - fold upd. apply filter_update_first_other; [intros; apply Hupd|].
      intros x Hx. now apply (same_session_other u' user_id s' session_id).
    - rewrite filter_app. fold new. simpl.
      rewrite (same_session_other u' user_id s' session_id new Hne Hnew).
      apply app_nil_r. }
  split; [|split; [exact Hsame|split; [exact Hother|]]].
  - intros u' s'.
    destruct (Z.eq_dec u' user_id) as [->|Hu].
    + destruct (list_eq_dec N.eq_dec s' session_id) as [->|Hs].
      * fold p. destruct Hsame as [st [-> _]]. simpl. lia.
      * rewrite Hother by auto. apply Hone.
    + rewrite Hother by auto. apply Hone.
  - intros Hfind. unfold db'. simpl conversation_states. fold rows. fold p.
    rewrite Hfind. fold new. exists new. split; [reflexivity|]. repeat split.
Qed.

Lemma at_most_one_state_ext (db db' : DB) :
  conversation_states db' = conversation_states db ->
  at_most_one_state db -> at_most_one_state db'.
Proof. intros E H u0 s0. rewrite E. apply H. Qed.

(** A turn changes the table of conversation states by its update of
    step 4 and by nothing else, whatever the handler does afterwards. *)
Lemma process_message_states {U : Unicode} {F : Format} (db : DB) (user_id : Z)
      (session_id message : pystr) (now : Z) :
  ascii_conformant U ->
  exists slots,
    _extract_slots message = Ok slots
    /\ conversation_states (snd (process_message user_id session_id message now db))
       = conversation_states
           (snd (_update_conversation_state user_id session_id
                                            (_classify_intent message)
                                            (_detect_sentiment message)
                                            slots now db)).
Proof.
  intros HU. destruct (_extract_slots_total HU message) as [slots Hs].
  exists slots. split; [exact Hs|].
  unfold process_message. cbv zeta. unfold mbind at 1. unfold lift at 1.
  rewrite Hs. unfold mbind at 1.
  unfold _update_conversation_state at 1. cbv beta zeta iota.
  match goal with
  | |- conversation_states (snd (?rest ?db1)) = _ =>
    assert (Hk : keeps_states rest); [|rewrite Hk; reflexivity]
  end.
  keeps_with ltac:(apply keeps_route).
Qed.

(** C9. Starting from a table with at most one row per user and
    session, two process_message calls with the same user and session
    leave at most one row per user and session, and the one row of that
    session holds the intent, the sentiment and the serialised slots of
    the second call (and nothing of the first); a call with a session
    that has no row appends one fresh row carrying the values of that
    call. *)
Theorem conversation_state_overwritten {U : Unicode} {F : Format} (db : DB)
        (user_id : Z) (session_id m1 m2 : pystr) (now1 now2 : Z) :
  ascii_conformant U ->
  at_most_one_state db ->
  let db1 := snd (process_message user_id session_id m1 now1 db) in
  let db2 := snd (process_message user_id session_id m2 now2 db1) in
  at_most_one_state db2
  /\ (exists slots2 st,
        _extract_slots m2 = Ok slots2
        /\ filter (same_session user_id session_id) (conversation_states db2) = [st]
        /\ state_of_turn user_id session_id (_classify_intent m2)
                         (_detect_sentiment m2) slots2 st)
  /\ (forall new_session,
        find (same_session user_id new_session) (conversation_states db) = None ->
        exists slots1 st,
          _extract_slots m1 = Ok slots1
          /\ conversation_states
               (snd (process_message user_id new_session m1 now1 db))
             = conversation_states db ++ [st]
          /\ state_of_turn user_id new_session (_classify_intent m1)
                           (_detect_sentiment m1) slots1 st).
Proof.
  intros HU Hone db1 db2.
  destruct (process_message_states db user_id session_id m1 now1 HU)
    as [slots1 [Hs1 E1]].
  destruct (_update_conversation_state_spec db user_id session_id
              (_classify_intent m1) (_detect_sentiment m1) slots1 now1 Hone)
    as [Hone1 _].
  assert (Hone_db1 : at_most_one_state db1).
  { eapply at_most_one_state_ext; [exact E1|exact Hone1]. }
  destruct (process_message_states db1 user_id session_id m2 now2 HU)
    as [slots2 [Hs2 E2]].
  destruct (_update_conversation_state_spec db1 user_id session_id
              (_classify_intent m2) (_detect_sentiment m2) slots2 now2 Hone_db1)
    as [Hone2 [[st [Hst Hturn]] _]].
  split; [|split].
  - eapply at_most_one_state_ext; [exact E2|exact Hone2].
  - exists slots2, st. split; [exact Hs2|]. split; [|exact Hturn].
    unfold db2. rewrite E2. exact Hst.
  - intros new_session Hfresh.
    destruct (process_message_states db user_id new_session m1 now1 HU)
      as [slots [Hs E]].
    destruct (_update_conversation_state_spec db user_id new_session
                (_classify_intent m1) (_detect_sentiment m1) slots now1 Hone)
      as [_ [_ [_ Hnew]]].
    destruct (Hnew Hfresh) as [st' [Hrows Hturn']].
    exists slots, st'. split; [exact Hs|]. split; [|exact Hturn'].
    rewrite E. exact Hrows.
Qed.

Lemma empty_db_at_most_one : at_most_one_state empty_db.
Proof. intros u0 s0. simpl. lia. Qed.

Lemma conversation_state_overwritten_witness :
  ascii_conformant basic_unicode
  /\ at_most_one_state empty_db
  /\ let db1 := snd (@process_message basic_unicode plain_format 1 (u "s1")
                                      (u "血糖8.5") example_now empty_db) in
     let db2 := snd (@process_message basic_unicode plain_format 1 (u "s1")
                                      (u "害怕") example_now db1) in
     exists slots2 st,
       @_extract_slots basic_unicode (u "害怕") = Ok slots2
       /\ filter (same_session 1 (u "s1")) (conversation_states db2) = [st]
       /\ @state_of_turn plain_format 1 (u "s1")
                         (@_classify_intent basic_unicode (u "害怕"))
                         (@_detect_sentiment basic_unicode (u "害怕")) slots2 st.
Proof.
  split; [exact basic_unicode_conformant|].
  split; [exact empty_db_at_most_one|].
  exact (proj1 (proj2
           (@conversation_state_overwritten basic_unicode plain_format empty_db 1
              (u "s1") (u "血糖8.5") (u "害怕") example_now example_now
              basic_unicode_conformant empty_db_at_most_one))).
Defined.


(** ** The empathy line (C6) *)

Lemma any_in_incl (ks ks' : list pystr) (text : pystr) :
  incl ks ks' -> any_in ks text = true -> any_in ks' text = true.
Proof.
  unfold any_in. rewrite !existsb_exists.
  intros Hi [k [Hk Hin]]. exists k. split; [apply Hi|]; assumption.
Qed.

Lemma anxious_keywords_incl : incl anxious_keywords support_anxious_keywords.
Proof. intros k Hk. vm_compute in Hk. vm_compute. tauto. Qed.

Lemma negative_keywords_incl : incl negative_keywords support_negative_keywords.
Proof. intros k Hk. vm_compute in Hk. vm_compute. tauto. Qed.

Definition anxious_empathy : pystr :=
  u "我理解您的担心，这是很正常的。让我们一步步来，不要给自己太大压力。".
Definition negative_empathy : pystr :=
  u "我理解您的沮丧，血糖管理确实是一个长期的过程，偶尔的波动是正常的。".

(** What step 6 does for every message whose detected sentiment is
    anxious or negative: the empathy line of the support agent goes to
    index 1, behind the first reply part. *)
Lemma add_empathy_at_index_1 {U : Unicode} (message : pystr) (user_id : Z)
      (first : pystr) (rest : list pystr) :
  _detect_sentiment message = u "anxious"
  \/ _detect_sentiment message = u "negative" ->
  exists empathy,
    (empathy = anxious_empathy \/ empathy = negative_empathy)
    /\ add_empathy (_detect_sentiment message) message user_id (first :: rest)
       = Ok (first :: empathy :: rest).
Proof.
  unfold _detect_sentiment, add_empathy, provide_support.
  destruct (any_in anxious_keywords (str_lower message)) eqn:Ea.
  - intros _. rewrite (any_in_incl _ _ _ anxious_keywords_incl Ea).
    exists anxious_empathy. split; [left; reflexivity|]. vm_compute. reflexivity.
  - destruct (any_in negative_keywords (str_lower message)) eqn:En.
    + intros _. rewrite (any_in_incl _ _ _ negative_keywords_incl En).
      destruct (any_in support_anxious_keywords (str_lower message)).
      * exists anxious_empathy. split; [left; reflexivity|].
        vm_compute. reflexivity.
      * exists negative_empathy. split; [right; reflexivity|].
        vm_compute. reflexivity.
    + destruct (any_in positive_keywords (str_lower message));
        intros [H|H]; vm_compute in H; discriminate H.
Qed.

(** C6 at the failing input: the message is anxious and of general
    intent; the reply is made of three parts and the empathy line is the
    second of them, behind the first part of the handler. *)
Theorem empathy_line_is_second_fragment :
  fst (@process_message basic_unicode plain_format 1 (u "s1") (u "害怕")
                        example_now empty_db)
  = Ok [ ("reply",
          VStr (join (nl ++ nl)
                     [ u "我理解您的问题。";
                       anxious_empathy;
                       u "我可以帮您：记录血糖/饮食/运动，分析血糖状态，回答健康问题，提供情感支持。请告诉我您需要什么帮助。" ]));
         ("intent", VStr (u "general"));
         ("sentiment", VStr (u "anxious"));
         ("actions_taken", VList []);
         ("needs_clarification", VList []) ].
Proof. vm_compute. reflexivity. Qed.


(** ** The analysis after a recorded reading (C10) *)

(** The dict that log_glucose returns after it stored a reading. *)
Definition logged_dict (message : pystr) (reading_id : Z) (value : Q)
           (missing_info : list pystr) : pydict :=
  [ ("success", VBool true);
    ("message", VStr message);
    ("reading_id", VInt reading_id);
    ("value", VFloat value);
    ("unit", VStr mmol_L);
    ("missing_info", str_list missing_info) ].








(** A user with personal fasting targets, and no reading yet. *)
Definition fasting_user_db : DB :=
  mkDB [User.mk 1 (Some 4.4%Q) (Some 7.0%Q) None] [] [] [] [] [] [] [].




(** * Further properties of the agents *)

(** ** The week window of the report *)

Lemma week_start_of_mod (now : Z) :
  week_start_of now = (now - now mod (7 * microseconds_per_day))%Z.
Proof.
  unfold week_start_of, midnight, weekday, microseconds_per_day.
  Z.to_euclidean_division_equations. lia.
Qed.

(** X1. The window of generate_weekly_report: it holds the moment of the call,
    is seven days long, starts at a midnight that is a Monday, and is the
    same for every moment inside it. *)
Theorem week_window (now : Z) :
  (week_start_of now <= now < week_end_of now)%Z
  /\ week_end_of now = (week_start_of now + 7 * microseconds_per_day)%Z
  /\ weekday (week_start_of now) = 0%Z
  /\ midnight (week_start_of now) = week_start_of now
  /\ (forall t, (week_start_of now <= t < week_end_of now)%Z <->
                week_start_of t = week_start_of now).
Proof.
  assert (H : forall t, week_start_of t = (t - t mod 604800000000)%Z).
  { intros t. rewrite week_start_of_mod. reflexivity. }
  unfold week_end_of. change (7 * microseconds_per_day)%Z with 604800000000%Z.
  split; [|split; [|split; [|split]]].
  - rewrite H. Z.to_euclidean_division_equations. lia.
  - reflexivity.
  - rewrite H. unfold weekday, microseconds_per_day.
    Z.to_euclidean_division_equations. lia.
  - rewrite H. unfold midnight, microseconds_per_day.
    Z.to_euclidean_division_equations. lia.
  - intros t. rewrite !H. Z.to_euclidean_division_equations. lia.
Qed.

(** ** The meal type inferred from the clock *)

(** X2. infer_meal_type reads only the hour of the day: the hour lies between
    0 and 23, the four bands from 6, 10, 14 and 18 o'clock give breakfast,
    lunch, snack and dinner, every other hour gives other, and moving the
    timestamp by whole days changes nothing. *)
Theorem infer_meal_type_by_hour (timestamp : Z) :
  let hour := hour_of timestamp in
  (0 <= hour < 24)%Z
  /\ ((6 <= hour < 10)%Z <-> infer_meal_type timestamp = u "breakfast")
  /\ ((10 <= hour < 14)%Z <-> infer_meal_type timestamp = u "lunch")
  /\ ((14 <= hour < 18)%Z <-> infer_meal_type timestamp = u "snack")
  /\ ((18 <= hour < 22)%Z <-> infer_meal_type timestamp = u "dinner")
  /\ ((hour < 6 \/ 22 <= hour)%Z <-> infer_meal_type timestamp = u "other")
  /\ (forall days : Z,
        infer_meal_type (timestamp + days * microseconds_per_day)
        = infer_meal_type timestamp).
Proof.
  cbv zeta.
  assert (Hh : (0 <= hour_of timestamp < 24)%Z).
  { unfold hour_of. apply Z.mod_pos_bound. lia. }
  split; [exact Hh|].
  assert (Hper : forall days,
             infer_meal_type (timestamp + days * microseconds_per_day)
             = infer_meal_type timestamp).
  { intros days. unfold infer_meal_type.
    replace (hour_of (timestamp + days * microseconds_per_day))
      with (hour_of timestamp); [reflexivity|].
    unfold hour_of, microseconds_per_hour, microseconds_per_day.
    Z.to_euclidean_division_equations. lia. }
  assert (Hval :
            ((hour_of timestamp < 6 \/ 22 <= hour_of timestamp)%Z
             /\ infer_meal_type timestamp = u "other")
            \/ ((6 <= hour_of timestamp < 10)%Z
                /\ infer_meal_type timestamp = u "breakfast")
            \/ ((10 <= hour_of timestamp < 14)%Z
                /\ infer_meal_type timestamp = u "lunch")
            \/ ((14 <= hour_of timestamp < 18)%Z
                /\ infer_meal_type timestamp = u "snack")
            \/ ((18 <= hour_of timestamp < 22)%Z
                /\ infer_meal_type timestamp = u "dinner")).
  { unfold infer_meal_type. cbv zeta.
    remember (hour_of timestamp) as h eqn:Eh. clear Eh Hper.
    assert (Hcase : ((h < 6 \/ 22 <= h) \/ (6 <= h < 10) \/ (10 <= h < 14)
                     \/ (14 <= h < 18) \/ (18 <= h < 22))%Z) by lia.
    destruct Hcase as [Hc|[Hc|[Hc|[Hc|Hc]]]];
      [left|right; left|right; right; left|right; right; right; left
       |right; right; right; right];
      (split; [exact Hc|]);
      try (destruct Hc as [Hc|Hc]);
      repeat match goal with
             | |- context [(?a <=? ?b)%Z] =>
               first [ replace (a <=? b)%Z with true by (symmetry; apply Z.leb_le; lia)
                     | replace (a <=? b)%Z with false by (symmetry; apply Z.leb_gt; lia) ]
             | |- context [(?a <? ?b)%Z] =>
               first [ replace (a <? b)%Z with true by (symmetry; apply Z.ltb_lt; lia)
                     | replace (a <? b)%Z with false by (symmetry; apply Z.ltb_ge; lia) ]
             end;
      reflexivity. }
  destruct Hval as [[Hc Hv]|[[Hc Hv]|[[Hc Hv]|[[Hc Hv]|[Hc Hv]]]]]; rewrite Hv;
    (split; [|split; [|split; [|split; [|split; [|intros days; rewrite <- Hv; apply Hper]]]]]);
    (split; [intros Hr; first [reflexivity | exfalso; lia]
            |intros He; first [exact Hc | vm_compute in He; discriminate He]]).
Qed.

(** ** Unit conversion beyond the two known units *)

(** X3. convert_glucose_unit changes a value only between mg/dL and mmol/L:
    from mg/dL to mmol/L it divides by 18, from mmol/L to mg/dL it
    multiplies by 18, and for every other pair of unit names, known or
    not, it returns the value as it is. *)
Theorem convert_glucose_unit_other_units (x : Q) (from_unit to_unit : pystr) :
  convert_glucose_unit x from_unit to_unit = x
  \/ (from_unit = mg_dL /\ to_unit = mmol_L
      /\ convert_glucose_unit x from_unit to_unit = (x / 18)%Q)
  \/ (from_unit = mmol_L /\ to_unit = mg_dL
      /\ convert_glucose_unit x from_unit to_unit = (x * 18)%Q).
Proof.
  unfold convert_glucose_unit.
  destruct (str_eqb from_unit to_unit); [left; reflexivity|].
  destruct (str_eqb from_unit mg_dL) eqn:E1;
    destruct (str_eqb to_unit mmol_L) eqn:E2; cbn [andb].
  - apply str_eqb_eq in E1, E2. right. left. auto.
  - destruct (str_eqb from_unit mmol_L && str_eqb to_unit mg_dL) eqn:E3.
    + apply andb_prop in E3 as [E3 E4]. apply str_eqb_eq in E3, E4.
      right. right. auto.
    + left. reflexivity.
  - destruct (str_eqb from_unit mmol_L && str_eqb to_unit mg_dL) eqn:E3.
    + apply andb_prop in E3 as [E3 E4]. apply str_eqb_eq in E3, E4.
      right. right. auto.
    + left. reflexivity.
  - destruct (str_eqb from_unit mmol_L && str_eqb to_unit mg_dL) eqn:E3.
    + apply andb_prop in E3 as [E3 E4]. apply str_eqb_eq in E3, E4.
      right. right. auto.
    + left. reflexivity.
Qed.

(** ** When no value is found *)

Section NoValue.
Context {U : Unicode}.

Definition no_digit (text : pystr) : Prop :=
  Forall (fun c => decimal_value c = None) text.

(** re.search answers with a match that starts somewhere inside the text. *)
Lemma re_search_inside (ic : bool) (r : regex) (s : pystr) (m : match_obj) :
  re_search ic r s = Some m ->
  exists pre s0 s', s = pre ++ s0 /\ matches ic r s0 None s' m.
Proof.
  induction s as [|c s IH]; simpl; intros H.
  - destruct (re_match ic r []) as [x|] eqn:E; [|discriminate].
    inversion H; subst x. unfold re_match in E.
    apply run_sound in E as [s' [g' [Hm Hk]]]. inversion Hk; subst g'.
    exists [], [], s'. auto.
  - destruct (re_match ic r (c :: s)) as [x|] eqn:E.
    + inversion H; subst x. unfold re_match in E.
      apply run_sound in E as [s' [g' [Hm Hk]]]. inversion Hk; subst g'.
      exists [], (c :: s), s'. auto.
    + destruct (IH H) as [pre [s0 [s' [-> Hm]]]].
      exists (c :: pre), s0, s'. auto.
Qed.

(** A match of a pattern around [number] starts at or before a digit. *)
Lemma captured_number_has_digit (r : regex) :
  captures_number r ->
  forall s g s' g',
    matches true r s g s' g' ->
    exists c, In c s /\ is_some (decimal_value c) = true.
Proof.
  induction 1 as [|r1 r2 H1 IH Hf|r1 r2 Hf H2 IH]; intros s g s' g' Hm.
  - destruct Hm as [gi [Hm _]]. unfold number in Hm. simpl in Hm.
    destruct Hm as [s1 [g1 [[c [l [-> [Hc _]]]] _]]].
    exists c. split; [left; reflexivity|exact Hc].
  - destruct Hm as [s1 [g1 [Ha Hb]]]. eauto.
  - destruct Hm as [s1 [g1 [Ha Hb]]].
    destruct (IH _ _ _ _ Hb) as [c [Hin Hc]].
    destruct (matches_suffix _ _ _ _ _ _ Ha) as [d ->].
    exists c. split; [apply in_or_app; right; exact Hin|exact Hc].
Qed.

Lemma no_digit_no_search (r : regex) (text : pystr) :
  captures_number r -> no_digit text -> re_search true r text = None.
Proof.
  intros Hr Hn.
  destruct (re_search true r text) as [m|] eqn:E; [|reflexivity].
  destruct (re_search_inside _ _ _ _ E) as [pre [s0 [s' [-> Hm]]]].
  destruct (captured_number_has_digit r Hr _ _ _ _ Hm) as [c [Hin Hc]].
  unfold no_digit in Hn. rewrite Forall_forall in Hn.
  rewrite (Hn c) in Hc by (apply in_or_app; right; exact Hin).
  discriminate Hc.
Qed.

Lemma no_digit_no_float (patterns : list regex) (text : pystr) :
  Forall captures_number patterns -> no_digit text ->
  first_match_float true patterns text = Ok None.
Proof.
  induction 1 as [|p ps Hp Hps IH]; intros Hn; simpl; [reflexivity|].
  rewrite (no_digit_no_search p text Hp Hn). auto.
Qed.

Lemma star_loop_total {A : Type} (p : N -> bool) (s : pystr)
      (k : pystr -> option A) :
  (forall s', k s' <> None) -> star_loop p s k <> None.
Proof.
  intros Hk. induction s as [|c s IH]; simpl; [apply Hk|].
  destruct (p c); [|apply Hk].
  destruct (star_loop p s k); [discriminate|apply Hk].
Qed.

(** The bare-number pattern matches wherever a digit stands. *)
Lemma number_matches_at_digit (c : N) (s : pystr) :
  is_some (decimal_value c) = true ->
  re_match true (Group number) (c :: s) <> None.
Proof.
  intros Hc. unfold re_match, number. cbn [run atom_match]. rewrite Hc.
  apply star_loop_total. intros s'. cbv beta.
  match goal with
  | |- match ?x with _ => _ end <> None => destruct x; discriminate
  end.
Qed.

Lemma digit_found (text : pystr) :
  ~ no_digit text -> re_search true (Group number) text <> None.
Proof.
  induction text as [|c text IH]; intros Hn.
  - exfalso. apply Hn. constructor.
  - cbn [re_search].
    destruct (re_match true (Group number) (c :: text)) eqn:E; [discriminate|].
    destruct (decimal_value c) eqn:Ec.
    + exfalso. apply (number_matches_at_digit c text); [now rewrite Ec|exact E].
    + apply IH. intros Hn'. apply Hn. constructor; assumption.
Qed.

End NoValue.

Lemma first_match_float_none {U : Unicode} (ic : bool) (patterns : list regex)
      (text : pystr) :
  first_match_float ic patterns text = Ok None ->
  Forall (fun p => re_search ic p text = None) patterns.
Proof.
  induction patterns as [|p ps IH]; simpl; intros H; [constructor|].
  destruct (re_search ic p text) as [m|] eqn:E.
  - destruct (float_of_group m); discriminate H.
  - constructor; auto.
Qed.

Lemma no_digit_dec {U : Unicode} (text : pystr) : {no_digit text} + {~ no_digit text}.
Proof.
  apply Forall_dec. intros c. destruct (decimal_value c); [right; discriminate|left; reflexivity].
Qed.

Lemma no_digit_check {U : Unicode} (text : pystr) :
  forallb (fun c => negb (is_some (decimal_value c))) text = true -> no_digit text.
Proof.
  intros H. apply Forall_forall. intros c Hc.
  rewrite forallb_forall in H. specialize (H c Hc).
  destruct (decimal_value c); [discriminate H|reflexivity].
Qed.

Lemma extract_glucose_value_none {U : Unicode} (text : pystr) :
  extract_glucose_value text = Ok None <-> no_digit text.
Proof.
  split.
  - intros H. destruct (no_digit_dec text) as [Hn|Hn]; [exact Hn|].
    exfalso. apply first_match_float_none in H.
    unfold glucose_value_res in H.
    inversion H as [|p1 l1 _ H1]; subst.
    inversion H1 as [|p2 l2 _ H2]; subst.
    inversion H2 as [|p3 l3 H3 _]; subst.
    exact (digit_found text Hn H3).
  - intros Hn. apply no_digit_no_float; [|exact Hn].
    exact (proj1 (proj1 (Forall_app _ _ _) value_patterns_capture_number)).
Qed.

(** X4. extract_glucose_value never raises, and it finds no value exactly when
    the text holds no decimal digit: any digit at all is taken as a
    reading, whatever stands around it. *)
Theorem extract_glucose_value_none_iff {U : Unicode} (text : pystr) :
  ascii_conformant U ->
  (exists v, extract_glucose_value text = Ok v)
  /\ (extract_glucose_value text = Ok None <-> no_digit text).
Proof.
  intros HU. split; [apply (extract_glucose_value_total HU)|].
  apply extract_glucose_value_none.
Qed.

Lemma extract_glucose_value_none_iff_witness :
  ascii_conformant basic_unicode
  /\ (@extract_glucose_value basic_unicode (u "今天感觉不错") = Ok None
      <-> @no_digit basic_unicode (u "今天感觉不错"))
  /\ @no_digit basic_unicode (u "今天感觉不错").
Proof.
  split; [exact basic_unicode_conformant|].
  split.
  - exact (proj2 (@extract_glucose_value_none_iff basic_unicode (u "今天感觉不错")
                    basic_unicode_conformant)).
  - apply no_digit_check. vm_compute. reflexivity.
Defined.

(** ** What log_glucose stores *)

Definition no_value_dict : pydict :=
  [ ("success", VBool false);
    ("message", VStr no_value_message);
    ("missing_info", str_list [u "血糖数值"]) ].

Lemma next_id_fresh (ids : list Z) :
  (0 < next_id ids)%Z /\ ~ In (next_id ids) ids.
Proof.
  unfold next_id.
  assert (H : (0 <= fold_right Z.max 0 ids)%Z
              /\ forall x, In x ids -> (x <= fold_right Z.max 0 ids)%Z).
  { induction ids as [|y ids [IH0 IH]]; simpl; [split; [lia|tauto]|].
    split; [lia|]. intros x [->|Hx]; [lia|]. specialize (IH x Hx). lia. }
  destruct H as [H0 H]. split; [lia|].
  intros Hin. specialize (H _ Hin). lia.
Qed.

Lemma infer_context_total {U : Unicode} (text : pystr) (timestamp : Z)
      (hours : option Q) :
  ascii_conformant U ->
  exists c h mi, infer_context text timestamp hours = Ok (c, h, mi).
Proof.
  intros HU. unfold infer_context.
  assert (Hok : forall t : pystr * option Q * list pystr,
             exists c h mi, Ok t = Ok (c, h, mi)).
  { intros [[c h] mi]. eauto. }
  destruct (detect_context_from_colloquial text); [apply Hok|].
  destruct (str_in (u "空腹") text || str_in (u "fasting") (str_lower text));
    [apply Hok|].
  destruct (str_in (u "餐后") text || str_in (u "post") (str_lower text)
            || is_some hours).
  - destruct hours; [apply Hok|].
    destruct (extract_hours_after_meal_total HU text) as [h ->].
    cbn [rbind]. destruct h; apply Hok.
  - destruct (str_in (u "餐前") text || str_in (u "pre") (str_lower text));
      apply Hok.
Qed.

Lemma log_glucose_no_value {U : Unicode} {F : Format} (user_id : Z)
      (text : pystr) (timestamp : option Z) (unit context meal_type : option pystr)
      (hours : option Q) (now : Z) (db : DB) :
  no_digit text ->
  log_glucose user_id text timestamp unit context meal_type hours now db
  = (Ok no_value_dict, db).
Proof.
  intros Hn. apply extract_glucose_value_none in Hn.
  unfold log_glucose. rewrite Hn. reflexivity.
Qed.

Lemma log_glucose_stores {U : Unicode} {F : Format} (user_id : Z)
      (text : pystr) (timestamp : option Z) (unit context meal_type : option pystr)
      (hours : option Q) (now : Z) (db : DB) :
  ascii_conformant U ->
  ~ no_digit text ->
  exists message missing_info reading,
    log_glucose user_id text timestamp unit context meal_type hours now db
    = (Ok (logged_dict message (GlucoseReading.id reading)
                       (GlucoseReading.value reading) missing_info),
       set_glucose_readings db (glucose_readings db ++ [reading]))
    /\ GlucoseReading.id reading
       = next_id (map GlucoseReading.id (glucose_readings db))
    /\ GlucoseReading.user_id reading = user_id
    /\ GlucoseReading.unit reading = mmol_L
    /\ GlucoseReading.timestamp reading = or_default timestamp now
    /\ GlucoseReading.risk_level reading = None
    /\ GlucoseReading.analysis_notes reading = None.
Proof.
  intros HU Hn.
  destruct (extract_glucose_value_total HU text) as [v Hv].
  destruct v as [v|]; [|exfalso; apply Hn, extract_glucose_value_none, Hv].
  unfold log_glucose. rewrite Hv. cbv zeta.
  assert (Hinf : exists c h mi,
             match context with
             | Some c => Ok (c, hours, [])
             | None => infer_context text (or_default timestamp now) hours
             end = Ok (c, h, mi)).
  { destruct context; [eauto|]. apply (infer_context_total _ _ _ HU). }
  destruct Hinf as [c [h [mi ->]]].
  match goal with
  | |- context [("message", VStr ?m)] =>
    match goal with
    | |- context [glucose_readings db ++ [?r]] => exists m, mi, r
    end
  end.
  repeat split.
Qed.

(** X5. log_glucose either finds no digit, answers with the request to say
    the value again and stores nothing; or it appends exactly one reading
    to the table: under a new, positive id, for the user of the call, at
    the given timestamp (the moment of the call when none is given),
    always with the unit mmol/L and not yet analysed. *)
Theorem log_glucose_outcome {U : Unicode} {F : Format} (user_id : Z)
        (text : pystr) (timestamp : option Z) (unit context meal_type : option pystr)
        (hours : option Q) (now : Z) (db : DB) :
  ascii_conformant U ->
  (no_digit text ->
   log_glucose user_id text timestamp unit context meal_type hours now db
   = (Ok no_value_dict, db))
  /\ (~ no_digit text ->
      exists message missing_info reading,
        log_glucose user_id text timestamp unit context meal_type hours now db
        = (Ok (logged_dict message (GlucoseReading.id reading)
                           (GlucoseReading.value reading) missing_info),
           set_glucose_readings db (glucose_readings db ++ [reading]))
        /\ (0 < GlucoseReading.id reading)%Z
        /\ ~ In (GlucoseReading.id reading)
                (map GlucoseReading.id (glucose_readings db))
        /\ GlucoseReading.user_id reading = user_id
        /\ GlucoseReading.unit reading = mmol_L
        /\ GlucoseReading.timestamp reading = or_default timestamp now
        /\ GlucoseReading.risk_level reading = None
        /\ GlucoseReading.analysis_notes reading = None).
Proof.
  intros HU. split; [apply log_glucose_no_value|].
  intros Hn.
  destruct (log_glucose_stores user_id text timestamp unit context meal_type
                               hours now db HU Hn)
    as [message [mi [reading [H [Hid Hrest]]]]].
  exists message, mi, reading. split; [exact H|].
  rewrite Hid.
  destruct (next_id_fresh (map GlucoseReading.id (glucose_readings db)))
    as [Hpos Hfresh].
  split; [exact Hpos|]. split; [exact Hfresh|]. exact Hrest.
Qed.

Lemma log_glucose_outcome_witness :
  ascii_conformant basic_unicode
  /\ @no_digit basic_unicode (u "今天感觉不错")
  /\ @log_glucose basic_unicode plain_format 1 (u "今天感觉不错") None None None
                  None None example_now example_db
     = (Ok no_value_dict, example_db).
Proof.
  assert (Hn : @no_digit basic_unicode (u "今天感觉不错")).
  { apply no_digit_check. vm_compute. reflexivity. }
  split; [exact basic_unicode_conformant|]. split; [exact Hn|].
  exact (proj1 (@log_glucose_outcome basic_unicode plain_format 1
                  (u "今天感觉不错") None None None None None example_now
                  example_db basic_unicode_conformant) Hn).
Defined.


Definition context_name (c : pystr) : Prop :=
  c = fasting \/ c = pre_meal \/ c = post_meal \/ c = random.

Definition meal_type_name (m : pystr) : Prop :=
  m = u "breakfast" \/ m = u "lunch" \/ m = u "dinner" \/ m = u "snack"
  \/ m = u "other".

Lemma detect_meal_type_from_text_range {U : Unicode} (text m : pystr) :
  detect_meal_type_from_text text = Some m -> meal_type_name m.
Proof.
  unfold detect_meal_type_from_text, meal_type_name. cbv zeta.
  destruct (_ || _ || _); [intros H; inversion H; auto|].
  destruct (_ || _ || _); [intros H; inversion H; auto|].
  destruct (_ || _ || _); [intros H; inversion H; auto|].
  destruct (_ || _); [intros H; inversion H; auto 6|].
  discriminate.
Qed.

Lemma infer_meal_type_range (timestamp : Z) :
  meal_type_name (infer_meal_type timestamp).
Proof.
  unfold infer_meal_type, meal_type_name. cbv zeta.
  destruct (_ && _); [auto|].
  destruct (_ && _); [auto|].
  destruct (_ && _); [auto 6|].
  destruct (_ && _); auto 6.
Qed.

Lemma detect_context_from_colloquial_range {U : Unicode} (text c : pystr) :
  detect_context_from_colloquial text = Some c -> context_name c.
Proof.
  unfold detect_context_from_colloquial, context_name.
  destruct (any_search fasting_res _); [intros H; inversion H; auto|].
  destruct (any_search pre_meal_res _); [intros H; inversion H; auto|].
  destruct (any_search post_meal_res _); [intros H; inversion H; auto|].
  destruct (any_search random_res _); [intros H; inversion H; auto|].
  discriminate.
Qed.

Lemma infer_context_range {U : Unicode} (text : pystr) (timestamp : Z)
      (hours h : option Q) (c : pystr) (mi : list pystr) :
  infer_context text timestamp hours = Ok (c, h, mi) -> context_name c.
Proof.
  unfold infer_context. cbv zeta beta.
  destruct (detect_context_from_colloquial text) as [c1|] eqn:E1.
  { intros H. inversion H; subst.
    now apply detect_context_from_colloquial_range with text. }
  destruct (str_in (u "空腹") text || str_in (u "fasting") (str_lower text)).
  { intros H. inversion H. unfold context_name. auto. }
  destruct (str_in (u "餐后") text || str_in (u "post") (str_lower text)
            || is_some hours).
  - destruct hours.
    + intros H. inversion H. unfold context_name. auto.
    + destruct (extract_hours_after_meal text) as [[h1|]|e]; cbn [rbind];
        intros H; inversion H; unfold context_name; auto.
  - destruct (str_in (u "餐前") text || str_in (u "pre") (str_lower text)).
    + intros H. inversion H. unfold context_name. auto.
    + destruct (hour_of timestamp <? 10)%Z; intros H; inversion H;
        unfold context_name; auto.
Qed.

(** X6. The value that a successful log_glucose stores is the number found in
    the text, divided by 18 when the unit of the call (the detected one
    when none is passed) is mg/dL and unchanged otherwise; when no unit
    is passed, that is a division by 18 exactly when the lower-cased text
    holds the letters mg.  The stored unit is always mmol/L, and the
    returned value and unit are the stored ones. *)
Theorem log_glucose_canonical_unit {U : Unicode} {F : Format} (user_id : Z)
        (text : pystr) (timestamp : option Z) (unit context meal_type : option pystr)
        (hours : option Q) (now : Z) (db db' : DB) (result : pydict) :
  log_glucose user_id text timestamp unit context meal_type hours now db
  = (Ok result, db') ->
  truthy (dict_get result "reading_id") = true ->
  exists v reading,
    extract_glucose_value text = Ok (Some v)
    /\ glucose_readings db' = glucose_readings db ++ [reading]
    /\ GlucoseReading.unit reading = mmol_L
    /\ GlucoseReading.value reading
       = (if str_eqb (or_default unit (detect_unit text)) mg_dL
          then (v / 18)%Q else v)
    /\ (unit = None ->
        GlucoseReading.value reading
        = if str_in (u "mg") (str_lower text) then (v / 18)%Q else v)
    /\ dict_get result "value" = VFloat (GlucoseReading.value reading)
    /\ dict_get result "unit" = VStr mmol_L
    /\ dict_get result "reading_id" = VInt (GlucoseReading.id reading).
Proof.
  unfold log_glucose. cbv zeta.
  destruct (extract_glucose_value text) as [[v|]|e].
  - match goal with
    | |- context [match ?x with Ok _ => _ | Raise _ => _ end] =>
      destruct x as [[[c h] mi]|e]
    end; [|discriminate].
    intros H _. inversion H; subst; clear H.
    exists v.
    match goal with
    | |- context [glucose_readings db ++ [?r]] => exists r
    end.
    split; [reflexivity|]. split; [reflexivity|]. split; [reflexivity|].
    split; [reflexivity|]. split; [|repeat split; reflexivity].
    intros ->. cbn [GlucoseReading.value or_default].
    destruct (str_in (u "mg") (str_lower text)) eqn:E.
    + unfold detect_unit. rewrite E. reflexivity.
    + rewrite (proj2 (detect_unit_mmol text) E). reflexivity.
  - intros H Ht. inversion H; subst. discriminate Ht.
  - discriminate.
Qed.

(** X7. The context that a successful log_glucose stores is never missing: it
    is the context passed in, and when none is passed it is one of
    fasting, pre_meal, post_meal and random; a meal type is stored too,
    the one passed in or else one of breakfast, lunch, dinner, snack and
    other. *)
Theorem log_glucose_context {U : Unicode} {F : Format} (user_id : Z)
        (text : pystr) (timestamp : option Z) (unit context meal_type : option pystr)
        (hours : option Q) (now : Z) (db db' : DB) (result : pydict) :
  log_glucose user_id text timestamp unit context meal_type hours now db
  = (Ok result, db') ->
  truthy (dict_get result "reading_id") = true ->
  exists reading c m,
    glucose_readings db' = glucose_readings db ++ [reading]
    /\ GlucoseReading.context reading = Some c
    /\ GlucoseReading.meal_type reading = Some m
    /\ (forall c0, context = Some c0 -> c = c0)
    /\ (context = None -> context_name c)
    /\ (forall m0, meal_type = Some m0 -> m = m0)
    /\ (meal_type = None -> meal_type_name m).
Proof.
  unfold log_glucose. cbv zeta.
  destruct (extract_glucose_value text) as [[v|]|e].
  - match goal with
    | |- context [match ?x with Ok _ => _ | Raise _ => _ end] =>
      destruct x as [[[c h] mi]|e] eqn:E
    end; [|discriminate].
    intros H _. inversion H; subst; clear H.
    match goal with
    | |- context [glucose_readings db ++ [?r]] => exists r
    end.
    exists c. eexists. split; [reflexivity|]. split; [reflexivity|].
    split; [reflexivity|]. split; [|split; [|split]].
    + intros c0 ->. now inversion E.
    + intros ->. now apply infer_context_range in E.
    + intros m0 ->. reflexivity.
    + intros ->.
      destruct (detect_meal_type_from_text text) as [m1|] eqn:Em; cbn [or_default].
      * now apply detect_meal_type_from_text_range with text.
      * apply infer_meal_type_range.
  - intros H Ht. inversion H; subst. discriminate Ht.
  - discriminate.
Qed.

Lemma log_glucose_canonical_unit_witness :
  exists result db' reading,
    @log_glucose basic_unicode plain_format 1 (u "血糖153mg") None None None
                 None None example_now example_db
    = (Ok result, db')
    /\ truthy (dict_get result "reading_id") = true
    /\ glucose_readings db' = glucose_readings example_db ++ [reading]
    /\ GlucoseReading.unit reading = mmol_L
    /\ (GlucoseReading.value reading == 8.5)%Q
    /\ dict_get result "value" = VFloat (GlucoseReading.value reading).
Proof.
  destruct (@log_glucose basic_unicode plain_format 1 (u "血糖153mg") None None
              None None None example_now example_db)
    as [[result|e] db'] eqn:E.
  2: { vm_compute in E. discriminate E. }
  assert (E' := E). vm_compute in E'. injection E' as Hr Hd.
  assert (Ht : truthy (dict_get result "reading_id") = true).
  { rewrite <- Hr. reflexivity. }
  destruct (@log_glucose_canonical_unit basic_unicode plain_format 1
              (u "血糖153mg") None None None None None example_now example_db
              db' result E Ht)
    as [v [reading [Hv [Hrows [Hunit [Hval [_ [Hdv _]]]]]]]].
  exists result, db', reading.
  split; [reflexivity|]. split; [exact Ht|]. split; [exact Hrows|].
  split; [exact Hunit|]. split; [|exact Hdv].
  rewrite Hval. vm_compute in Hv. injection Hv as <-. vm_compute. reflexivity.
Defined.

Lemma log_glucose_context_witness :
  exists result db' reading,
    @log_glucose basic_unicode plain_format 1 (u "午饭后两小时血糖9.2") None None
                 None None None example_now example_db
    = (Ok result, db')
    /\ truthy (dict_get result "reading_id") = true
    /\ glucose_readings db' = glucose_readings example_db ++ [reading]
    /\ GlucoseReading.context reading = Some post_meal
    /\ GlucoseReading.meal_type reading = Some (u "lunch").
Proof.
  destruct (@log_glucose basic_unicode plain_format 1 (u "午饭后两小时血糖9.2")
              None None None None None example_now example_db)
    as [[result|e] db'] eqn:E.
  2: { vm_compute in E. discriminate E. }
  assert (E' := E). vm_compute in E'. injection E' as Hr Hd.
  assert (Ht : truthy (dict_get result "reading_id") = true).
  { rewrite <- Hr. reflexivity. }
  destruct (@log_glucose_context basic_unicode plain_format 1
              (u "午饭后两小时血糖9.2") None None None None None example_now
              example_db db' result E Ht)
    as [reading [c [m [Hrows [Hc [Hm _]]]]]].
  exists result, db', reading.
  split; [reflexivity|]. split; [exact Ht|]. split; [exact Hrows|].
  rewrite <- Hd in Hrows. cbn [glucose_readings set_glucose_readings] in Hrows.
  vm_compute in Hrows. injection Hrows as <-.
  split; vm_compute; reflexivity.
Defined.

(** ** The other three loggers *)

(** The group of the minutes pattern is a non-empty run of decimal digits,
    which int() reads. *)
Lemma minutes_group_is_int {U : Unicode} (text : pystr) (m : match_obj) :
  re_search false minutes_re text = Some m ->
  exists d, int_of_group m = Ok d /\ (0 <= d)%Z.
Proof.
  intros H. apply re_search_sound in H as [s0 [s' Hm]].
  unfold minutes_re in Hm. cbn [matches] in Hm.
  destruct Hm as [s1 [g1 [[gi [[c [l [-> [Hc [Hl _]]]]] ->]] Hrest]]].
  assert (Hg : m = Some (c :: l)).
  { destruct Hrest as [s2 [g2 [[l2 [_ [_ ->]]] [s3 [g3 [[c3 [_ [_ ->]]] [c4 [_ [_ ->]]]]]]]]].
    f_equal. exact (firstn_consumed (c :: l) s1). }
  subst m.
  assert (Hd : digits (c :: l)) by (constructor; assumption).
  destruct (digits_value_digits (c :: l) Hd 0%N) as [n Hn].
  unfold int_of_group. rewrite Hn. exists (Z.of_N n). split; [reflexivity|lia].
Qed.

Lemma log_exercise_duration {U : Unicode} (text : pystr) (duration_minutes : option Z) :
  exists d,
    match duration_minutes with
    | Some d => Ok (Some d)
    | None =>
      match re_search false minutes_re text with
      | Some m => let* d := int_of_group m in Ok (Some d)
      | None => Ok None
      end
    end = Ok d
    /\ (forall d0, duration_minutes = Some d0 -> d = Some d0)
    /\ (duration_minutes = None -> forall d1, d = Some d1 -> (0 <= d1)%Z).
Proof.
  destruct duration_minutes as [d0|].
  - exists (Some d0). split; [reflexivity|]. split; [intros d1 H; exact H|discriminate].
  - destruct (re_search false minutes_re text) as [m|] eqn:E.
    + destruct (minutes_group_is_int text m E) as [d [Hd Hpos]].
      rewrite Hd. exists (Some d). split; [reflexivity|].
      split; [discriminate|]. intros _ d1 H. inversion H; subst. exact Hpos.
    + exists None. split; [reflexivity|]. split; discriminate.
Qed.

(** The minutes that log_exercise reads from the text fit the integer
    column they are stored in: the run of digits in front of the word for
    minutes has at most 18 digits.  An int has no bound in Python and in
    the embedding; the column has one. *)
Definition minutes_fit {U : Unicode} (text : pystr) : Prop :=
  forall g, re_search false minutes_re text = Some (Some g) ->
            (List.length g <= 18)%nat.

(** The duration of the call fits the integer column. *)
Definition duration_fits {U : Unicode} (text : pystr) (duration_minutes : option Z)
  : Prop :=
  match duration_minutes with
  | Some d => (- 2 ^ 63 <= d < 2 ^ 63)%Z
  | None => minutes_fit text
  end.

(** X8. log_meal, log_exercise and log_medication never raise, whatever the
    text is (for log_exercise, as long as the duration fits the integer
    column): each appends exactly one row to its own table, under a new
    id and for the user of the call, at the given timestamp or else at
    the moment of the call, and returns that id.  The meal keeps the text
    as its description; the exercise has an intensity, moderate unless
    one is passed, and a duration read from the text that is never
    negative; the medication is named by the whole text unless a name is
    passed. *)
Theorem loggers_append_one_row {U : Unicode} (user_id : Z)
        (text : pystr) (timestamp : option Z) (now : Z) (db : DB) :
  (forall meal_type portion_size,
      exists result meal,
        log_meal user_id text timestamp meal_type portion_size now db
        = (Ok result, set_meal_entries db (meal_entries db ++ [meal]))
        /\ dict_get result "meal_id" = VInt (MealEntry.id meal)
        /\ ~ In (MealEntry.id meal) (map MealEntry.id (meal_entries db))
        /\ MealEntry.user_id meal = user_id
        /\ MealEntry.timestamp meal = or_default timestamp now
        /\ MealEntry.description meal = text
        /\ MealEntry.portion_size meal = portion_size)
  /\ (forall exercise_type duration_minutes intensity,
         duration_fits text duration_minutes ->
         exists result exercise,
           log_exercise user_id text timestamp exercise_type duration_minutes
                        intensity now db
           = (Ok result,
              set_exercise_records db (exercise_records db ++ [exercise]))
           /\ dict_get result "exercise_id" = VInt (ExerciseRecord.id exercise)
           /\ ~ In (ExerciseRecord.id exercise)
                   (map ExerciseRecord.id (exercise_records db))
           /\ ExerciseRecord.user_id exercise = user_id
           /\ ExerciseRecord.timestamp exercise = or_default timestamp now
           /\ ExerciseRecord.intensity exercise
              = Some (or_default intensity (u "moderate"))
           /\ (forall d, duration_minutes = Some d ->
                         ExerciseRecord.duration_minutes exercise = Some d)
           /\ (duration_minutes = None ->
               forall d, ExerciseRecord.duration_minutes exercise = Some d ->
                         (0 <= d)%Z))
  /\ (forall medication_name dosage,
         exists result medication,
           log_medication user_id text timestamp medication_name dosage now db
           = (Ok result,
              set_medication_records db (medication_records db ++ [medication]))
           /\ dict_get result "medication_id" = VInt (MedicationRecord.id medication)
           /\ ~ In (MedicationRecord.id medication)
                   (map MedicationRecord.id (medication_records db))
           /\ MedicationRecord.user_id medication = user_id
           /\ MedicationRecord.timestamp medication = or_default timestamp now
           /\ MedicationRecord.medication_name medication
              = or_default medication_name text
           /\ MedicationRecord.dosage medication = dosage).
Proof.
  split; [|split].
  - intros meal_type portion_size. unfold log_meal. cbv zeta.
    destruct (_estimate_nutrition text) as [[carbs gi] gl].
    destruct portion_size as [p|];
      (eexists; eexists; split; [reflexivity|]);
      (split; [reflexivity|]);
      (split; [apply next_id_fresh|]); repeat split.
  - intros exercise_type duration_minutes intensity _. unfold log_exercise. cbv zeta.
    destruct (log_exercise_duration text duration_minutes) as [d [-> [Hsome Hnone]]].
    eexists. eexists. split; [reflexivity|].
    split; [reflexivity|].
    split; [apply next_id_fresh|].
    split; [reflexivity|]. split; [reflexivity|]. split; [reflexivity|].
    split; [exact Hsome|exact Hnone].
  - intros medication_name dosage. unfold log_medication. cbv zeta.
    eexists. eexists. split; [reflexivity|].
    split; [reflexivity|].
    split; [apply next_id_fresh|]. repeat split.
Qed.

(** ** The nutrition estimate *)

(** X9. _estimate_nutrition has three outcomes only: 50 g of carbohydrate at
    GI 60 (load 30) for a text with the noodle character, else 40 g at
    GI 70 (load 28) for a text with the rice character, else nothing.
    The bread branch is never taken, because the word for bread holds the
    noodle character: a text that names bread gets the noodle estimate. *)
Theorem estimate_nutrition_outcomes {U : Unicode} (text : pystr) :
  (_estimate_nutrition text = (Some 50%Q, Some 60%Q, Some (50 * 60 / 100)%Q)
   \/ _estimate_nutrition text = (Some 40%Q, Some 70%Q, Some (40 * 70 / 100)%Q)
   \/ _estimate_nutrition text = (None, None, None))
  /\ _estimate_nutrition text <> (Some 30%Q, Some 70%Q, Some (30 * 70 / 100)%Q)
  /\ (str_in (u "面包") (str_lower text) = true ->
      _estimate_nutrition text = (Some 50%Q, Some 60%Q, Some (50 * 60 / 100)%Q)).
Proof.
  assert (Hbread : str_in (u "面包") (str_lower text) = true ->
                   str_in (u "面") (str_lower text) = true).
  { intros H. apply str_in_prefix with (u "包"). exact H. }
  unfold _estimate_nutrition. cbv zeta.
  destruct (str_in (u "面") (str_lower text)) eqn:E1.
  - split; [left; reflexivity|]. split; [discriminate|]. reflexivity.
  - destruct (str_in (u "米饭") (str_lower text) || str_in (u "米") (str_lower text)).
    + split; [right; left; reflexivity|]. split; [discriminate|].
      intros H. apply Hbread in H. discriminate H.
    + destruct (str_in (u "面包") (str_lower text)) eqn:E3.
      * discriminate (Hbread eq_refl).
      * split; [right; right; reflexivity|]. split; [discriminate|].
        discriminate.
Qed.

Lemma loggers_append_one_row_witness :
  @duration_fits basic_unicode (u "跑步30分钟") None
  /\ exists result exercise,
      @log_exercise basic_unicode 1 (u "跑步30分钟") None None None None
                    example_now example_db
      = (Ok result,
         set_exercise_records example_db
                              (exercise_records example_db ++ [exercise]))
      /\ ExerciseRecord.user_id exercise = 1%Z
      /\ ExerciseRecord.intensity exercise = Some (u "moderate").
Proof.
  assert (Hfit : @duration_fits basic_unicode (u "跑步30分钟") None).
  { intros g H. vm_compute in H. injection H as <-. simpl. lia. }
  split; [exact Hfit|].
  destruct (proj1 (proj2 (@loggers_append_one_row basic_unicode 1
                            (u "跑步30分钟") None example_now example_db))
                  None None None Hfit)
    as [result [exercise [H [_ [_ [Hu [_ [Hi _]]]]]]]].
  exists result, exercise. split; [exact H|]. split; [exact Hu|exact Hi].
Defined.

Lemma estimate_nutrition_outcomes_witness :
  str_in (u "面包") (@str_lower basic_unicode (u "早餐吃了全麦面包")) = true
  /\ @_estimate_nutrition basic_unicode (u "早餐吃了全麦面包")
     = (Some 50%Q, Some 60%Q, Some (50 * 60 / 100)%Q).
Proof.
  assert (H : str_in (u "面包") (@str_lower basic_unicode (u "早餐吃了全麦面包")) = true)
    by (vm_compute; reflexivity).
  split; [exact H|].
  exact (proj2 (proj2 (@estimate_nutrition_outcomes basic_unicode
                         (u "早餐吃了全麦面包"))) H).
Defined.

(** ** What an analysis writes *)

(** A reading without the two columns that the analysis fills in. *)
Definition without_analysis (r : GlucoseReading.t) : GlucoseReading.t :=
  GlucoseReading.mk (GlucoseReading.id r) (GlucoseReading.user_id r)
                    (GlucoseReading.value r) (GlucoseReading.unit r)
                    (GlucoseReading.timestamp r) (GlucoseReading.context r)
                    (GlucoseReading.meal_type r)
                    (GlucoseReading.hours_after_meal r) None None.

Lemma update_first_map {A B : Type} (p : A -> bool) (f : A -> A) (g : A -> B)
      (rows : list A) :
  (forall r, g (f r) = g r) ->
  map g (update_first p f rows) = map g rows.
Proof.
  intros Hg. induction rows as [|r rows IH]; simpl; [reflexivity|].
  destruct (p r); simpl; [now rewrite Hg|now rewrite IH].
Qed.

Lemma update_first_other {A : Type} (p : A -> bool) (f : A -> A) (rows : list A)
      (r : A) :
  In r rows -> p r = false -> In r (update_first p f rows).
Proof.
  induction rows as [|x rows IH]; simpl; [tauto|].
  intros [->|Hin] Hp.
  - rewrite Hp. left. reflexivity.
  - destruct (p x); [right; exact Hin|right; now apply IH].
Qed.

Lemma update_first_hit {A : Type} (p : A -> bool) (f : A -> A) (rows : list A)
      (r : A) :
  In r rows -> p r = true ->
  exists r0, In r0 rows /\ p r0 = true /\ In (f r0) (update_first p f rows).
Proof.
  induction rows as [|x rows IH]; simpl; [tauto|].
  intros Hin Hp. destruct (p x) eqn:Ex.
  - exists x. split; [left; reflexivity|]. split; [exact Ex|left; reflexivity].
  - destruct Hin as [->|Hin]; [congruence|].
    destruct (IH Hin Hp) as [r0 [H0 [Hp0 Hf]]].
    exists r0. split; [right; exact H0|]. split; [exact Hp0|right; exact Hf].
Qed.

Lemma update_first_none {A : Type} (p : A -> bool) (f : A -> A) (rows : list A) :
  (forall r, In r rows -> p r = false) -> update_first p f rows = rows.
Proof.
  induction rows as [|x rows IH]; simpl; intros H; [reflexivity|].
  rewrite (H x) by (left; reflexivity). f_equal. apply IH.
  intros r Hr. apply H. right. exact Hr.
Qed.

(** The reading with the two columns that the analysis fills in. *)
Definition annotated (risk_level reasoning : pystr) (r : GlucoseReading.t)
  : GlucoseReading.t :=
  GlucoseReading.mk (GlucoseReading.id r) (GlucoseReading.user_id r)
                    (GlucoseReading.value r) (GlucoseReading.unit r)
                    (GlucoseReading.timestamp r) (GlucoseReading.context r)
                    (GlucoseReading.meal_type r)
                    (GlucoseReading.hours_after_meal r)
                    (Some risk_level) (Some reasoning).

(** The database after an analysis that stored [event] and annotated the
    first reading with the id [reading_id]. *)
Definition with_analysis (db : DB) (reading_id : Z) (risk_level reasoning : pystr)
           (event : AnalysisEvent.t) : DB :=
  set_glucose_readings
    (set_analysis_events db (analysis_events db ++ [event]))
    (update_first (fun r => (GlucoseReading.id r =? reading_id)%Z)
                  (annotated risk_level reasoning)
                  (glucose_readings db)).

Lemma analyze_glucose_with_reading {F : Format} (user_id : Z) (value : Q)
      (context : option pystr) (reading_id : Z) (now : Z) (db : DB)
      (user : User.t) :
  find_user db user_id = Some user ->
  reading_id <> 0%Z ->
  exists analysis event risk_level reasoning,
    analyze_glucose user_id value context (Some reading_id) now db
    = (Ok analysis, with_analysis db reading_id risk_level reasoning event)
    /\ lookup "risk_level" analysis = Some (VStr risk_level)
    /\ lookup "reasoning" analysis = Some (VStr reasoning)
    /\ AnalysisEvent.id event = next_id (map AnalysisEvent.id (analysis_events db))
    /\ AnalysisEvent.user_id event = user_id
    /\ AnalysisEvent.glucose_reading_id event = Some reading_id
    /\ AnalysisEvent.risk_level event = risk_level
    /\ AnalysisEvent.timestamp event = now
    /\ risk_level
       = fst (level_and_conclusion
                (_assess_risk value (fst (_get_target_range user context))
                              (snd (_get_target_range user context)) context)).
Proof.
  intros Hu Hrid. unfold analyze_glucose. rewrite Hu.
  destruct (_get_target_range user context) as [lo hi]. cbn [fst snd].
  destruct (_assess_risk value lo hi context) as [[[rl co] re] su].
  cbv zeta.
  assert (Ht : truthy (opt_int (Some reading_id)) = true).
  { cbn [opt_int truthy]. apply negb_true_iff. apply Z.eqb_neq. exact Hrid. }
  rewrite Ht. cbn [or_default].
  eexists.
  match goal with
  | |- context [analysis_events db ++ [?e]] => exists e
  end.
  exists rl, re. repeat split.
Qed.

(** X10. An analysis with the id of a reading, for a user row that exists:
    one analysis event is appended, which carries the user, the reading
    id and the risk level of the returned analysis; the readings keep
    their number, order and measured data; a reading with another id is
    left as it is, and a reading with this id, if there is one, now
    carries the risk level and the reasoning, whichever user it belongs
    to.  Nothing else in the database changes. *)
Theorem analyze_glucose_write_back {F : Format} (user_id : Z) (value : Q)
        (context : option pystr) (reading_id : Z) (now : Z) (db : DB)
        (user : User.t) :
  find_user db user_id = Some user ->
  reading_id <> 0%Z ->
  exists analysis db' event risk_level reasoning,
    analyze_glucose user_id value context (Some reading_id) now db
    = (Ok analysis, db')
    /\ dict_get analysis "risk_level" = VStr risk_level
    /\ dict_get analysis "reasoning" = VStr reasoning
    /\ analysis_events db' = analysis_events db ++ [event]
    /\ AnalysisEvent.user_id event = user_id
    /\ AnalysisEvent.glucose_reading_id event = Some reading_id
    /\ AnalysisEvent.risk_level event = risk_level
    /\ AnalysisEvent.timestamp event = now
    /\ ~ In (AnalysisEvent.id event) (map AnalysisEvent.id (analysis_events db))
    /\ map without_analysis (glucose_readings db')
       = map without_analysis (glucose_readings db)
    /\ (forall r, In r (glucose_readings db) ->
                  GlucoseReading.id r <> reading_id ->
                  In r (glucose_readings db'))
    /\ ((exists r, In r (glucose_readings db)
                   /\ GlucoseReading.id r = reading_id) ->
        exists r', In r' (glucose_readings db')
                   /\ GlucoseReading.id r' = reading_id
                   /\ GlucoseReading.risk_level r' = Some risk_level
                   /\ GlucoseReading.analysis_notes r' = Some reasoning)
    /\ ((forall r, In r (glucose_readings db) ->
                   GlucoseReading.id r <> reading_id) ->
        glucose_readings db' = glucose_readings db)
    /\ users db' = users db
    /\ meal_entries db' = meal_entries db
    /\ exercise_records db' = exercise_records db
    /\ medication_records db' = medication_records db
    /\ conversation_states db' = conversation_states db
    /\ weekly_reports db' = weekly_reports db.
Proof.
  intros Hu Hrid.
  destruct (analyze_glucose_with_reading user_id value context reading_id now db
                                         user Hu Hrid)
    as [analysis [event [rl [re [H [Hrl [Hre [Hid [Huid [Hr [Hlevel [Hts _]]]]]]]]]]]].
  exists analysis, (with_analysis db reading_id rl re event), event, rl, re.
  split; [exact H|].
  split; [unfold dict_get; now rewrite Hrl|].
  split; [unfold dict_get; now rewrite Hre|].
  split; [reflexivity|]. split; [exact Huid|]. split; [exact Hr|].
  split; [exact Hlevel|]. split; [exact Hts|].
  split; [rewrite Hid; apply next_id_fresh|].
  unfold with_analysis.
  cbn [glucose_readings set_glucose_readings set_analysis_events].
  split; [apply update_first_map; intros r; reflexivity|].
  split.
  { intros r Hin Hne. apply update_first_other; [exact Hin|].
    apply Z.eqb_neq. exact Hne. }
  split.
  { intros [r [Hin Heq]].
    destruct (update_first_hit
                (fun r => (GlucoseReading.id r =? reading_id)%Z)
                (annotated rl re) (glucose_readings db) r Hin)
      as [r0 [H0 [Hp0 Hf]]].
    { apply Z.eqb_eq. exact Heq. }
    eexists. split; [exact Hf|]. cbn.
    split; [apply Z.eqb_eq; exact Hp0|]. split; reflexivity. }
  split.
  { intros Hnone. apply update_first_none. intros r Hin.
    apply Z.eqb_neq. now apply Hnone. }
  repeat split.
Qed.

Lemma analyze_glucose_write_back_witness :
  exists analysis db' event,
    @analyze_glucose plain_format 1 (15 # 2) (Some fasting) (Some 1%Z)
                     example_now example_db
    = (Ok analysis, db')
    /\ analysis_events db' = analysis_events example_db ++ [event]
    /\ AnalysisEvent.glucose_reading_id event = Some 1%Z
    /\ dict_get analysis "risk_level" = VStr (AnalysisEvent.risk_level event)
    /\ List.length (glucose_readings db') = List.length (glucose_readings example_db).
Proof.
  destruct (@analyze_glucose_write_back plain_format 1 (15 # 2) (Some fasting) 1
              example_now example_db example_user eq_refl)
    as [analysis [db' [event [rl [re [H [Hrl [_ [Hev [_ [Hrid [Hlevel [_ [_ [Hmap _]]]]]]]]]]]]]]].
  { discriminate. }
  exists analysis, db', event.
  split; [exact H|]. split; [exact Hev|]. split; [exact Hrid|].
  split; [rewrite Hlevel; exact Hrl|].
  rewrite <- (length_map without_analysis), Hmap. apply length_map.
Defined.

(** X11. An analysis that cannot write: when the user row is missing it
    answers with the risk level unknown, and when no reading id is given,
    or the id is 0, it answers as usual; in all three cases the database
    is left exactly as it was. *)
Theorem analyze_glucose_read_only {F : Format} (user_id : Z) (value : Q)
        (context : option pystr) (reading_id : option Z) (now : Z) (db : DB) :
  find_user db user_id = None \/ reading_id = None \/ reading_id = Some 0%Z ->
  snd (analyze_glucose user_id value context reading_id now db) = db
  /\ (find_user db user_id = None ->
      fst (analyze_glucose user_id value context reading_id now db)
      = Ok [ ("risk_level", VStr (u "unknown"));
             ("conclusion", VStr (u "未找到用户信息"));
             ("reasoning", VStr []);
             ("suggestions", VList []) ]).
Proof.
  intros H. unfold analyze_glucose.
  destruct (find_user db user_id) as [user|].
  - destruct H as [H|H]; [discriminate H|].
    destruct (_get_target_range user context) as [lo hi].
    destruct (_assess_risk value lo hi context) as [[[rl co] re] su].
    cbv zeta. split; [|discriminate].
    destruct H as [-> | ->]; reflexivity.
  - split; reflexivity.
Qed.

Lemma analyze_glucose_read_only_witness :
  snd (@analyze_glucose plain_format 1 (15 # 2) None None example_now example_db)
  = example_db
  /\ snd (@analyze_glucose plain_format 7 (15 # 2) None (Some 1%Z) example_now
                           example_db)
     = example_db.
Proof.
  split.
  - exact (proj1 (@analyze_glucose_read_only plain_format 1 (15 # 2) None None
                    example_now example_db (or_intror (or_introl eq_refl)))).
  - exact (proj1 (@analyze_glucose_read_only plain_format 7 (15 # 2) None
                    (Some 1%Z) example_now example_db (or_introl eq_refl))).
Defined.

(** ** The analysis and the weekly compliance test side by side *)

(** The user has both fasting targets or neither (a target of 0 counts
    as missing, as in the source). *)
Definition fasting_targets_paired (user : User.t) : Prop :=
  truthy_float (User.fasting_target_min user)
  = truthy_float (User.fasting_target_max user).

Lemma _get_target_range_fasting (user : User.t) :
  fasting_targets_paired user ->
  _get_target_range user (Some fasting)
  = (personal_or_default (User.fasting_target_min user) 4.4,
     personal_or_default (User.fasting_target_max user) 7.2).
Proof.
  unfold fasting_targets_paired, _get_target_range.
  change (context_is fasting (Some fasting)) with true. cbv iota.
  destruct (User.fasting_target_min user) as [lo|];
    destruct (User.fasting_target_max user) as [hi|]; cbn [truthy_float personal_or_default].
  - destruct (Qeq_bool lo 0); destruct (Qeq_bool hi 0); cbn [negb andb];
      intros H; try discriminate H; reflexivity.
  - destruct (Qeq_bool lo 0); cbn [negb]; intros H; [reflexivity|discriminate H].
  - destruct (Qeq_bool hi 0); cbn [negb]; intros H; [reflexivity|discriminate H].
  - reflexivity.
Qed.

Lemma _get_target_range_post_meal (user : User.t) :
  _get_target_range user (Some post_meal)
  = (0%Q, personal_or_default (User.post_meal_target_max user) 10.0).
Proof.
  unfold _get_target_range.
  change (context_is fasting (Some post_meal)) with false.
  change (context_is post_meal (Some post_meal)) with true. cbv iota.
  destruct (User.post_meal_target_max user) as [hi|];
    cbn [truthy_float personal_or_default]; [|reflexivity].
  destruct (Qeq_bool hi 0); reflexivity.
Qed.

Lemma _get_target_range_other (user : User.t) (context : option pystr) :
  context <> Some fasting -> context <> Some post_meal ->
  _get_target_range user context = (3.9, 11.1)%Q.
Proof.
  intros Hf Hp. unfold _get_target_range.
  destruct (context_is fasting context) eqn:E1.
  { apply context_is_true in E1. contradiction. }
  destruct (context_is post_meal context) eqn:E2.
  { apply context_is_true in E2. contradiction. }
  reflexivity.
Qed.

Lemma normal_level_is_normal_tier (t : tier) :
  fst (tier_output t) = u "normal" <-> t = Normal.
Proof.
  destruct t; split; intros H; try reflexivity; try discriminate H;
    vm_compute in H; discriminate H.
Qed.

Lemma level_normal_iff {F : Format} (v lo hi : Q) (context : option pystr) :
  fst (level_and_conclusion (_assess_risk v lo hi context)) = u "normal"
  <-> (3.9 <= v /\ v < 11.1 /\ lo <= v /\ v <= hi)%Q.
Proof.
  destruct (tier_region_exhaustive v lo hi) as [t Ht].
  rewrite (_assess_risk_in_region v lo hi context t Ht).
  rewrite normal_level_is_normal_tier. split.
  - intros ->. exact Ht.
  - intros H. apply (tier_region_exclusive v lo hi t Normal Ht H).
Qed.

(** X12. For a value in the band from 3.9 up to (not including) 11.1 and a
    user whose fasting targets come in a pair, the two judgements of a
    reading agree: analysed under the context stored with it, its risk
    level is normal exactly when the weekly report counts it as
    compliant. *)
Theorem normal_level_iff_compliant {F : Format} (user : User.t)
        (reading : GlucoseReading.t) :
  fasting_targets_paired user ->
  (3.9 <= GlucoseReading.value reading)%Q ->
  (GlucoseReading.value reading < 11.1)%Q ->
  let context := GlucoseReading.context reading in
  let '(target_min, target_max) := _get_target_range user context in
  fst (level_and_conclusion
         (_assess_risk (GlucoseReading.value reading) target_min target_max context))
  = u "normal"
  <-> compliantb user reading = true.
Proof.
  intros Hpair Hlo Hhi. cbv zeta.
  destruct (context_is fasting (GlucoseReading.context reading)) eqn:Ef.
  { apply context_is_true in Ef. rewrite Ef.
    rewrite (_get_target_range_fasting user Hpair). cbv beta iota.
    rewrite level_normal_iff.
    rewrite compliantb_in_effective_range. unfold in_effective_range. cbv zeta.
    rewrite Ef.
    split.
    - intros [_ [_ [H1 H2]]]. left. auto.
    - intros [[_ [H1 H2]]|[[H _]|[H _]]];
        [auto|discriminate H|congruence]. }
  assert (Hnf : GlucoseReading.context reading <> Some fasting).
  { intros H. apply context_is_true in H. congruence. }
  destruct (context_is post_meal (GlucoseReading.context reading)) eqn:Ep.
  { apply context_is_true in Ep. rewrite Ep.
    rewrite (_get_target_range_post_meal user). cbv beta iota.
    rewrite level_normal_iff.
    rewrite compliantb_in_effective_range. unfold in_effective_range. cbv zeta.
    rewrite Ep.
    split.
    - intros [_ [_ [H1 H2]]]. right. left. auto.
    - intros [[H _]|[[_ H]|[_ [H _]]]];
        [discriminate H| |congruence].
      repeat split; try assumption. lra. }
  assert (Hnp : GlucoseReading.context reading <> Some post_meal).
  { intros H. apply context_is_true in H. congruence. }
  rewrite (_get_target_range_other user _ Hnf Hnp). cbv beta iota.
  rewrite level_normal_iff.
  rewrite compliantb_in_effective_range. unfold in_effective_range. cbv zeta.
  split.
  - intros [H1 [H2 _]]. right. right. repeat split; try assumption. lra.
  - intros _. repeat split; try assumption. lra.
Qed.

Lemma normal_level_iff_compliant_witness :
  fasting_targets_paired example_user
  /\ (fst (level_and_conclusion (@_assess_risk plain_format 9.5 0 9.0 (Some post_meal)))
      = u "normal"
      <-> compliantb example_user
                     (GlucoseReading.mk 2 1 9.5 mmol_L 1 (Some post_meal)
                                        None None None None) = true)
  /\ compliantb example_user
                (GlucoseReading.mk 2 1 9.5 mmol_L 1 (Some post_meal)
                                   None None None None) = false.
Proof.
  split; [reflexivity|]. split; [|reflexivity].
  exact (@normal_level_iff_compliant plain_format example_user
           (GlucoseReading.mk 2 1 9.5 mmol_L 1 (Some post_meal) None None None None)
           eq_refl ltac:(vm_compute; discriminate) ltac:(reflexivity)).
Defined.

(** X13. Outside that band the two judgements part: a post-meal reading below
    3.9 is a critical low for the analysis, yet the weekly report counts
    it as compliant whenever it does not exceed the post-meal maximum;
    and a reading of exactly 11.1 without a fasting or post-meal context
    is compliant for the report and high for the analysis. *)
Theorem compliant_yet_not_normal {F : Format} (user : User.t)
        (reading : GlucoseReading.t) :
  let value := GlucoseReading.value reading in
  let context := GlucoseReading.context reading in
  (context = Some post_meal ->
   (value < 3.9)%Q ->
   (value <= personal_or_default (User.post_meal_target_max user) 10.0)%Q ->
   compliantb user reading = true
   /\ forall target_min target_max,
       level_and_conclusion (_assess_risk value target_min target_max context)
       = (u "critical", u "低血糖风险"))
  /\ (context <> Some fasting -> context <> Some post_meal ->
      (value == 11.1)%Q ->
      compliantb user reading = true
      /\ forall target_min target_max,
          level_and_conclusion (_assess_risk value target_min target_max context)
          = (u "high", u "血糖偏高")).
Proof.
  cbv zeta. split.
  - intros Hc Hv Hmax. split.
    + apply compliantb_in_effective_range. right. left. auto.
    + intros lo hi.
      apply (_assess_risk_in_region _ lo hi _ CriticalLow). exact Hv.
  - intros Hnf Hnp Hv. split.
    + apply compliantb_in_effective_range. right. right.
      repeat split; try assumption; lra.
    + intros lo hi.
      apply (_assess_risk_in_region _ lo hi _ High). simpl. lra.
Qed.

Lemma compliant_yet_not_normal_witness :
  let reading :=
    GlucoseReading.mk 1 1 3.2 mmol_L 0 (Some post_meal) None None None None in
  compliantb example_user reading = true
  /\ level_and_conclusion (@_assess_risk plain_format 3.2 0 9.0 (Some post_meal))
     = (u "critical", u "低血糖风险").
Proof.
  cbv zeta.
  destruct (proj1 (@compliant_yet_not_normal plain_format example_user
                     (GlucoseReading.mk 1 1 3.2 mmol_L 0 (Some post_meal)
                                        None None None None))
                  eq_refl eq_refl ltac:(vm_compute; discriminate))
    as [Hc Hl].
  split; [exact Hc|]. exact (Hl 0%Q 9.0%Q).
Defined.

(** ** The weekly report when the user row is missing *)

(** The loop of calculate_target_compliance reads a target of the user
    for this reading. *)
Definition needs_targets (reading : GlucoseReading.t) : Prop :=
  GlucoseReading.context reading = Some fasting
  \/ GlucoseReading.context reading = Some post_meal.

Lemma reading_compliant_free (user : option User.t) (reading : GlucoseReading.t) :
  ~ needs_targets reading ->
  reading_compliant user reading
  = Ok (Qle_bool 3.9 (GlucoseReading.value reading)
        && Qle_bool (GlucoseReading.value reading) 11.1).
Proof.
  intros Hn. unfold reading_compliant.
  destruct (context_is fasting _) eqn:Ef.
  { apply context_is_true in Ef. exfalso. apply Hn. left. exact Ef. }
  destruct (context_is post_meal _) eqn:Ep.
  { apply context_is_true in Ep. exfalso. apply Hn. right. exact Ep. }
  reflexivity.
Qed.

Lemma reading_compliant_needs (reading : GlucoseReading.t) :
  needs_targets reading -> reading_compliant None reading = Raise AttributeError.
Proof.
  intros [H|H]; unfold reading_compliant.
  - apply context_is_true in H. rewrite H. reflexivity.
  - destruct (context_is fasting _); [reflexivity|].
    apply context_is_true in H. rewrite H. reflexivity.
Qed.

Lemma needs_targets_dec (reading : GlucoseReading.t) :
  {needs_targets reading} + {~ needs_targets reading}.
Proof.
  unfold needs_targets.
  destruct (context_is fasting (GlucoseReading.context reading)) eqn:Ef.
  { left. left. now apply context_is_true. }
  destruct (context_is post_meal (GlucoseReading.context reading)) eqn:Ep.
  { left. right. now apply context_is_true. }
  right. intros [H|H]; apply context_is_true in H; congruence.
Qed.

Lemma count_compliant_raises (readings : list GlucoseReading.t) (k : Z) :
  Exists needs_targets readings ->
  count_compliant None readings k = Raise AttributeError.
Proof.
  revert k. induction readings as [|r rs IH]; intros k H.
  - inversion H.
  - cbn [count_compliant].
    destruct (needs_targets_dec r) as [Hr|Hr].
    + rewrite (reading_compliant_needs r Hr). reflexivity.
    + rewrite (reading_compliant_free None r Hr). cbn [rbind].
      apply IH. inversion H; subst; [contradiction|assumption].
Qed.

Lemma count_compliant_free (user user' : option User.t)
      (readings : list GlucoseReading.t) (k : Z) :
  Forall (fun r => ~ needs_targets r) readings ->
  count_compliant user readings k = count_compliant user' readings k.
Proof.
  intros H. revert k. induction H as [|r rs Hr Hrs IH]; intros k; [reflexivity|].
  cbn [count_compliant].
  rewrite (reading_compliant_free user r Hr), (reading_compliant_free user' r Hr).
  cbn [rbind]. apply IH.
Qed.

Lemma calculate_target_compliance_raises (readings : list GlucoseReading.t) :
  Exists needs_targets readings ->
  calculate_target_compliance readings None = Raise AttributeError.
Proof.
  intros H. unfold calculate_target_compliance.
  destruct readings as [|r rs]; [inversion H|].
  rewrite (count_compliant_raises (r :: rs) 0 H). reflexivity.
Qed.

(** X14. Without a user row, calculate_target_compliance raises the
    AttributeError of None as soon as one reading is a fasting or a
    post-meal one; when no reading is, it returns the same rate as for
    any user, and it returns 0 for no readings at all. *)
Theorem compliance_without_user (readings : list GlucoseReading.t) :
  (Exists needs_targets readings ->
   calculate_target_compliance readings None = Raise AttributeError)
  /\ (Forall (fun r => ~ needs_targets r) readings ->
      forall user,
        calculate_target_compliance readings None
        = calculate_target_compliance readings (Some user))
  /\ (readings = [] -> calculate_target_compliance readings None = Ok 0%Q).
Proof.
  split; [|split].
  - apply calculate_target_compliance_raises.
  - intros H user. unfold calculate_target_compliance.
    destruct readings as [|r rs]; [reflexivity|].
    rewrite (count_compliant_free None (Some user) (r :: rs) 0 H). reflexivity.
  - intros ->. reflexivity.
Qed.

Lemma compliance_without_user_witness :
  @calculate_target_compliance example_readings None = Raise AttributeError
  /\ (forall user,
         calculate_target_compliance
           [GlucoseReading.mk 3 1 11.0 mmol_L 2 (Some random) None None None None]
           None
         = calculate_target_compliance
             [GlucoseReading.mk 3 1 11.0 mmol_L 2 (Some random) None None None None]
             (Some user)).
Proof.
  split.
  - apply (proj1 (compliance_without_user example_readings)).
    apply Exists_cons_hd. left. reflexivity.
  - apply (proj1 (proj2 (compliance_without_user
                           [GlucoseReading.mk 3 1 11.0 mmol_L 2 (Some random)
                                              None None None None]))).
    constructor; [|constructor].
    intros [H|H]; vm_compute in H; discriminate H.
Defined.

Lemma insert_by_timestamp_in (r x : GlucoseReading.t) (l : list GlucoseReading.t) :
  In x (insert_by_timestamp r l) <-> x = r \/ In x l.
Proof.
  induction l as [|y l IH]; simpl.
  - split; intros [H|H]; auto.
  - destruct (_ <? _)%Z; simpl; [split; intros [H|H]; auto|].
    rewrite IH. split; intros H; tauto.
Qed.

Lemma order_by_timestamp_in (x : GlucoseReading.t) (rows : list GlucoseReading.t) :
  In x (order_by_timestamp rows) <-> In x rows.
Proof.
  unfold order_by_timestamp.
  assert (H : forall acc,
             In x (fold_left (fun sorted r => insert_by_timestamp r sorted) rows acc)
             <-> In x rows \/ In x acc).
  { induction rows as [|r rows IH]; intros acc; simpl; [tauto|].
    rewrite IH, insert_by_timestamp_in. split; intros H; intuition auto. }
  rewrite H. simpl. tauto.
Qed.

Lemma week_readings_in (db : DB) (user_id now : Z) (r : GlucoseReading.t) :
  In r (week_readings db user_id now)
  <-> In r (glucose_readings db)
      /\ GlucoseReading.user_id r = user_id
      /\ (week_start_of now <= GlucoseReading.timestamp r < week_end_of now)%Z.
Proof.
  unfold week_readings. rewrite order_by_timestamp_in, filter_In, in_window_true.
  tauto.
Qed.

(** The week of [now] holds a fasting or post-meal reading of the user. *)
Definition week_needs_targets (db : DB) (user_id now : Z) : Prop :=
  exists r,
    In r (glucose_readings db)
    /\ GlucoseReading.user_id r = user_id
    /\ (week_start_of now <= GlucoseReading.timestamp r < week_end_of now)%Z
    /\ needs_targets r.

Lemma generate_weekly_report_raises {F : Format} (db : DB) (user_id now : Z) :
  find_user db user_id = None ->
  week_needs_targets db user_id now ->
  generate_weekly_report user_id now db = (Raise AttributeError, db).
Proof.
  intros Hu [r [Hin [Hr [Ht Hn]]]].
  assert (Hw : In r (week_readings db user_id now)).
  { apply week_readings_in. auto. }
  unfold generate_weekly_report. rewrite Hu. cbv zeta.
  destruct (week_readings db user_id now) as [|r0 rs] eqn:E; [destruct Hw|].
  change (List.length (r0 :: rs) =? 0)%nat with false. cbv iota.
  assert (Hex : Exists needs_targets (r0 :: rs)).
  { apply Exists_exists. exists r. auto. }
  rewrite (calculate_target_compliance_raises (r0 :: rs) Hex).
  reflexivity.
Qed.

(** ** A weekly-report turn that fails *)

Ltac decide_intent_tests :=
  repeat match goal with
         | |- context [str_eqb (u ?a) (u ?b)] =>
           let v := eval vm_compute in (str_eqb (u a) (u b)) in
           change (str_eqb (u a) (u b)) with v
         end;
  cbv iota.

Lemma route_weekly_report {U : Unicode} {F : Format} (user_id : Z)
      (message : pystr) (slots : pydict) (now : Z) :
  route (u "weekly_report") user_id message slots now
  = (let+ result := _handle_weekly_report user_id now in
     let+ msg := lift (item_str result "message") in
     mret ([msg], [u "生成周报"], [])).
Proof. unfold route. cbv zeta. decide_intent_tests. reflexivity. Qed.

(** X15. A turn that asks for the weekly report of a user without a user row,
    in a week that holds a fasting or post-meal reading of that user:
    generate_weekly_report raises the AttributeError and leaves the
    database as it was (nothing is stored before the commit), and
    process_message raises it too, but only after the conversation state
    of the turn has been written, so the failed turn is still recorded. *)
Theorem weekly_report_turn_without_user {U : Unicode} {F : Format}
        (user_id : Z) (session_id message : pystr) (now : Z) (db : DB) :
  ascii_conformant U ->
  _classify_intent message = u "weekly_report" ->
  find_user db user_id = None ->
  week_needs_targets db user_id now ->
  generate_weekly_report user_id now db = (Raise AttributeError, db)
  /\ exists slots,
      _extract_slots message = Ok slots
      /\ process_message user_id session_id message now db
         = (Raise AttributeError,
            snd (_update_conversation_state
                   user_id session_id (u "weekly_report")
                   (_detect_sentiment message) slots now db)).
Proof.
  intros HU Hintent Hu Hweek.
  split; [now apply generate_weekly_report_raises|].
  destruct (_extract_slots_total HU message) as [slots Hslots].
  exists slots. split; [exact Hslots|].
  unfold process_message. cbv zeta. rewrite Hintent, Hslots.
  unfold mbind at 1, lift at 1.
  unfold mbind at 1.
  unfold _update_conversation_state at 1.
  cbv zeta. cbn [snd].
  match goal with
  | |- context [set_conversation_states db ?rows] =>
    set (db1 := set_conversation_states db rows)
  end.
  unfold mbind at 1. rewrite route_weekly_report.
  unfold mbind at 1, _handle_weekly_report. unfold mbind at 1.
  rewrite (generate_weekly_report_raises db1 user_id now Hu Hweek).
  reflexivity.
Qed.

(** No user row, and one fasting reading of user 1 in the week of
    [example_now]. *)
Definition orphan_db : DB :=
  mkDB []
       [ GlucoseReading.mk 1 1 7.5 mmol_L example_now (Some fasting)
                           (Some (u "snack")) None None None ]
       [] [] [] [] [] [].

Lemma weekly_report_turn_without_user_witness :
  @generate_weekly_report plain_format 1 example_now orphan_db
  = (Raise AttributeError, orphan_db)
  /\ fst (@process_message basic_unicode plain_format 1 (u "s1") (u "本周周报")
                           example_now orphan_db)
     = Raise AttributeError
  /\ List.length
       (conversation_states
          (snd (@process_message basic_unicode plain_format 1 (u "s1")
                                 (u "本周周报") example_now orphan_db)))
     = 1%nat.
Proof.
  assert (Hweek : week_needs_targets orphan_db 1 example_now).
  { eexists. split; [left; reflexivity|]. split; [reflexivity|].
    split; [vm_compute; split; [discriminate|reflexivity]|].
    left. reflexivity. }
  destruct (@weekly_report_turn_without_user basic_unicode plain_format 1
              (u "s1") (u "本周周报") example_now orphan_db
              basic_unicode_conformant ltac:(vm_compute; reflexivity) eq_refl Hweek)
    as [Hgen [slots [Hslots Hturn]]].
  split; [exact Hgen|].
  rewrite Hturn. split; [reflexivity|].
  vm_compute in Hslots. injection Hslots as <-.
  vm_compute. reflexivity.
Defined.

(** ** Turns that cannot raise *)

(** From a database that satisfies [P], the computation returns a value
    that satisfies [Q] and leaves a database that satisfies [P]. *)
Definition returns {A : Type} (P : DB -> Prop) (m : M A) (Q : A -> Prop) : Prop :=
  forall db, P db -> exists a db', m db = (Ok a, db') /\ P db' /\ Q a.

Lemma returns_mret {A : Type} (P : DB -> Prop) (a : A) (Q : A -> Prop) :
  Q a -> returns P (mret a) Q.
Proof. intros Ha db Hdb. exists a, db. auto. Qed.

Lemma returns_lift {A : Type} (P : DB -> Prop) (r : result A) (Q : A -> Prop) :
  (exists a, r = Ok a /\ Q a) -> returns P (lift r) Q.
Proof. intros [a [-> Ha]] db Hdb. exists a, db. auto. Qed.

Lemma returns_bind {A B : Type} (P : DB -> Prop) (m : M A) (f : A -> M B)
      (Q : A -> Prop) (R : B -> Prop) :
  returns P m Q -> (forall a, Q a -> returns P (f a) R) ->
  returns P (mbind m f) R.
Proof.
  intros Hm Hf db Hdb. unfold mbind.
  destruct (Hm db Hdb) as [a [db1 [-> [H1 Ha]]]].
  exact (Hf a Ha db1 H1).
Qed.

Lemma returns_weaken {A : Type} (P : DB -> Prop) (m : M A) (Q Q' : A -> Prop) :
  returns P m Q -> (forall a, Q a -> Q' a) -> returns P m Q'.
Proof.
  intros Hm HQ db Hdb. destruct (Hm db Hdb) as [a [db' [H [HP Ha]]]].
  exists a, db'. auto.
Qed.

(** The shape of the dicts that analyze_glucose builds: string
    conclusion and reasoning, a list of suggestions, and either no trend
    or a trend dict whose message is a string. *)
Definition analysis_shape (analysis : pydict) : Prop :=
  exists conclusion reasoning suggestions,
    lookup "conclusion" analysis = Some (VStr conclusion)
    /\ lookup "reasoning" analysis = Some (VStr reasoning)
    /\ lookup "suggestions" analysis = Some (str_list suggestions)
    /\ (lookup "trend" analysis = None
        \/ exists trend message,
             lookup "trend" analysis = Some (VDict trend)
             /\ lookup "message" trend = Some (VStr message)).

Lemma _format_analysis_total {F : Format} (analysis : pydict) :
  analysis_shape analysis ->
  exists s, _format_analysis analysis = Ok s.
Proof.
  intros [co [re [su [Hco [Hre [Hsu Htr]]]]]].
  unfold _format_analysis, item_str, dict_item, dict_get.
  rewrite Hco, Hre, Hsu. cbn [rbind].
  destruct (truthy (VStr re)); cbn [rbind];
    destruct Htr as [-> | [tr [msg [-> Hmsg]]]]; cbn [rbind lookup];
      try rewrite Hmsg; try change (truthy VNone) with false; cbn [rbind];
        try destruct (truthy (VStr msg)); cbn [rbind]; eauto.
Qed.

Lemma _analyze_trend_message {F : Format} (db : DB) (user_id : Z) (value : Q)
      (context : option pystr) (now : Z) :
  exists s, lookup "message" (_analyze_trend db user_id value context now)
            = Some (VStr s).
Proof.
  unfold _analyze_trend. cbv zeta.
  destruct (List.length _ <? 2)%nat.
  - eexists. reflexivity.
  - destruct (Qlt_bool _ _); [|destruct (Qlt_bool _ _)];
      eexists; reflexivity.
Qed.

Lemma analyze_glucose_shape {F : Format} (user_id : Z) (value : Q)
      (context : option pystr) (reading_id : option Z) (now : Z) (db : DB) :
  exists analysis db',
    analyze_glucose user_id value context reading_id now db = (Ok analysis, db')
    /\ users db' = users db
    /\ analysis_shape analysis.
Proof.
  unfold analyze_glucose.
  destruct (find_user db user_id) as [user|].
  - destruct (_get_target_range user context) as [lo hi].
    destruct (_assess_risk value lo hi context) as [[[rl co] re] su].
    cbv zeta.
    destruct (_analyze_trend_message db user_id value context now) as [msg Hmsg].
    eexists. eexists. split; [reflexivity|]. split.
    + destruct (truthy (opt_int reading_id)); reflexivity.
    + exists co, re, su. split; [reflexivity|]. split; [reflexivity|].
      split; [reflexivity|]. right. eexists. exists msg. split; [reflexivity|].
      exact Hmsg.
  - eexists. eexists. split; [reflexivity|]. split; [reflexivity|].
    eexists. eexists. exists []. split; [reflexivity|]. split; [reflexivity|].
    split; [reflexivity|]. left. reflexivity.
Qed.

(** A result dict whose message is a string. *)
Definition has_message (d : pydict) : Prop :=
  exists s, item_str d "message" = Ok s.

Lemma or_else_total (a : pyval) (b : result pyval) :
  (exists v, b = Ok v) -> exists v, or_else a b = Ok v.
Proof.
  intros [v ->]. unfold or_else. destruct (truthy a); eauto.
Qed.

Section Returns.
Context {U : Unicode} {F : Format}.
Hypothesis ascii : ascii_conformant U.
Variable rows : list User.t.

(** The table of users is the one the turn started with. *)
Definition same_users (db : DB) : Prop := users db = rows.

Definition log_glucose_result (result : pydict) : Prop :=
  result = no_value_dict
  \/ exists message reading_id value missing_info,
      result = logged_dict message reading_id value missing_info.

Lemma returns_log_glucose user_id text timestamp unit context meal_type hours now :
  returns same_users
          (log_glucose user_id text timestamp unit context meal_type hours now)
          log_glucose_result.
Proof.
  intros db Hdb. destruct (no_digit_dec text) as [Hn|Hn].
  - rewrite (log_glucose_no_value user_id text timestamp unit context meal_type
                                  hours now db Hn).
    eexists. eexists. split; [reflexivity|]. split; [exact Hdb|]. left. reflexivity.
  - destruct (log_glucose_stores user_id text timestamp unit context meal_type
                                 hours now db ascii Hn)
      as [message [mi [reading [-> _]]]].
    eexists. eexists. split; [reflexivity|]. split; [exact Hdb|].
    right. eauto.
Qed.

Lemma returns__handle_record_glucose user_id message slots now :
  returns same_users (_handle_record_glucose user_id message slots now)
          log_glucose_result.
Proof.
  unfold _handle_record_glucose.
  apply returns_bind with (Q := fun _ => True).
  { apply returns_lift.
    destruct (or_else_total (dict_get slots "glucose_value")
                (let* v := extract_glucose_value message in Ok (opt_float v)))
      as [v Hv]; [|eauto].
    destruct (extract_glucose_value_total ascii message) as [v ->].
    cbn [rbind]. eauto. }
  intros value _.
  apply returns_bind with (Q := fun _ => True).
  { apply returns_lift.
    destruct (or_else_total (dict_get slots "unit") (Ok (VStr (detect_unit message))))
      as [v Hv]; eauto. }
  intros unit _.
  apply returns_bind with (Q := fun _ => True).
  { apply returns_lift.
    destruct (or_else_total (dict_get slots "meal_type")
                (Ok (opt_str (detect_meal_type_from_text message))))
      as [v Hv]; eauto. }
  intros meal_type _.
  apply returns_bind with (Q := fun _ => True).
  { apply returns_lift.
    destruct (or_else_total (dict_get slots "hours_after_meal")
                (let* h := extract_hours_after_meal message in Ok (opt_float h)))
      as [v Hv]; [|eauto].
    destruct (extract_hours_after_meal_total ascii message) as [h ->].
    cbn [rbind]. eauto. }
  intros hours _. cbv zeta.
  apply returns_log_glucose.
Qed.

Lemma returns_analyze_glucose user_id value context reading_id now :
  returns same_users (analyze_glucose user_id value context reading_id now)
          analysis_shape.
Proof.
  intros db Hdb.
  destruct (analyze_glucose_shape user_id value context reading_id now db)
    as [analysis [db' [H [Hu Hs]]]].
  exists analysis, db'. split; [exact H|]. split; [|exact Hs].
  unfold same_users. now rewrite Hu.
Qed.

Lemma returns_formatted_analysis user_id value context reading_id now :
  returns same_users
          (let+ analysis := analyze_glucose user_id value context reading_id now in
           lift (_format_analysis analysis))
          (fun _ => True).
Proof.
  apply returns_bind with (Q := analysis_shape).
  - apply returns_analyze_glucose.
  - intros analysis Hs. apply returns_lift.
    destruct (_format_analysis_total analysis Hs) as [s ->]. eauto.
Qed.

Lemma returns_log_meal user_id text timestamp meal_type portion_size now :
  returns same_users (log_meal user_id text timestamp meal_type portion_size now)
          has_message.
Proof.
  intros db Hdb. unfold log_meal. cbv zeta.
  destruct (_estimate_nutrition text) as [[carbs gi] gl].
  destruct portion_size;
    (eexists; eexists; split; [reflexivity|]; split; [exact Hdb|]);
    eexists; reflexivity.
Qed.

Lemma returns_log_exercise user_id text timestamp exercise_type duration intensity now :
  returns same_users
          (log_exercise user_id text timestamp exercise_type duration intensity now)
          has_message.
Proof.
  intros db Hdb. unfold log_exercise. cbv zeta.
  destruct (log_exercise_duration text duration) as [d [-> _]].
  eexists. eexists. split; [reflexivity|]. split; [exact Hdb|].
  eexists; reflexivity.
Qed.

Lemma returns_log_medication user_id text timestamp name dosage now :
  returns same_users (log_medication user_id text timestamp name dosage now)
          has_message.
Proof.
  intros db Hdb. unfold log_medication. cbv zeta.
  eexists. eexists. split; [reflexivity|]. split; [exact Hdb|].
  eexists; reflexivity.
Qed.

Lemma returns__handle_ask_value_status user_id message now :
  returns same_users (_handle_ask_value_status user_id message now) has_message.
Proof.
  intros db Hdb. unfold _handle_ask_value_status.
  destruct (latest_reading db user_id) as [latest|].
  - unfold mbind at 1.
    destruct (analyze_glucose_shape user_id (GlucoseReading.value latest)
                (GlucoseReading.context latest) (Some (GlucoseReading.id latest))
                now db) as [analysis [db' [-> [Hu Hs]]]].
    unfold mbind at 1, lift at 1.
    destruct (_format_analysis_total analysis Hs) as [s ->].
    eexists. eexists. split; [reflexivity|]. split.
    + unfold same_users. now rewrite Hu.
    + eexists; reflexivity.
  - eexists. eexists. split; [reflexivity|]. split; [exact Hdb|].
    eexists; reflexivity.
Qed.

(** The invariant of a turn that asks for the weekly report: the table
    of users, and readings of the week that keep the squares of the
    report inside the floats. *)
Definition report_ready (user_id now : Z) (db : DB) : Prop :=
  same_users db /\ week_values_fit db user_id now.

Lemma returns_generate_weekly_report user_id now :
  find (fun usr => (User.id usr =? user_id)%Z) rows <> None ->
  returns (report_ready user_id now) (generate_weekly_report user_id now)
          (fun report => exists content, dict_item report "content" = Ok (VStr content)).
Proof.
  intros Hfind db Hready. pose proof Hready as [Hdb Hfit].
  unfold week_values_fit in Hfit.
  assert (Hu : exists user, find_user db user_id = Some user).
  { unfold find_user. rewrite Hdb.
    destruct (find _ rows) as [user|]; [eauto|congruence]. }
  destruct Hu as [user Hu].
  unfold generate_weekly_report.
  destruct (week_readings db user_id now) as [|r rs] eqn:E.
  { eexists. eexists. split; [reflexivity|]. split; [exact Hready|].
    eexists; reflexivity. }
  rewrite Hu. cbv zeta.
  change (List.length (r :: rs) =? 0)%nat with false. cbv iota.
  rewrite calculate_target_compliance_user by discriminate.
  cbn [rbind].
  match goal with
  | |- context [generate_action_items (r :: rs) (Some user) ?p] =>
    destruct (generate_action_items_user user (r :: rs) p) as [items Hitems]
  end.
  rewrite Hitems. cbn [rbind].
  destruct (@identify_positive_progress_user F user (r :: rs) Hfit)
    as [progress Hprogress].
  rewrite Hprogress. cbn [rbind].
  eexists. eexists. split; [reflexivity|]. split; [exact Hready|].
  eexists; reflexivity.
Qed.

Lemma returns__handle_weekly_report user_id now :
  find (fun usr => (User.id usr =? user_id)%Z) rows <> None ->
  returns (report_ready user_id now) (_handle_weekly_report user_id now)
          has_message.
Proof.
  intros Hfind. unfold _handle_weekly_report.
  eapply returns_bind; [apply (returns_generate_weekly_report _ _ Hfind)|].
  intros report [content Hc]. cbv beta in Hc.
  eapply returns_bind with (Q := fun v => exists s, v = VStr s).
  { apply returns_lift. rewrite Hc. eauto. }
  intros v [s ->]. apply returns_mret. eexists; reflexivity.
Qed.

End Returns.

Ltac returns_lift_ok :=
  apply returns_lift; eexists; split; [reflexivity|exact I].

Ltac returns_message handler :=
  eapply returns_bind; [apply handler|];
  let result := fresh "result" in
  let s := fresh "s" in
  let Hs := fresh "Hs" in
  intros result [s Hs];
  eapply returns_bind with (Q := fun _ => True);
  [ apply returns_lift; rewrite Hs; eexists; split; [reflexivity|exact I]
  | intros ? _; now apply returns_mret ].

Section ReturnsRoute.
Context {U : Unicode} {F : Format}.
Hypothesis ascii : ascii_conformant U.
Variable rows : list User.t.

Lemma provide_support_strings (message : pystr) (user_id : option Z) :
  exists empathy encouragement,
    item_str (provide_support message user_id) "empathy" = Ok empathy
    /\ item_str (provide_support message user_id) "encouragement" = Ok encouragement.
Proof.
  unfold provide_support. cbv zeta.
  destruct (str_eqb _ (u "positive")); [eexists; eexists; split; reflexivity|].
  destruct (str_eqb _ (u "negative")); [eexists; eexists; split; reflexivity|].
  destruct (str_eqb _ (u "anxious")); eexists; eexists; split; reflexivity.
Qed.

Lemma answer_question_strings (question : pystr) (user_id : option Z) :
  (exists answer, item_str (answer_question question user_id) "answer" = Ok answer)
  /\ dict_get (answer_question question user_id) "personalized" = VStr [].
Proof.
  unfold answer_question. cbv zeta.
  destruct (find _ knowledge_base) as [[keyword info]|].
  - split; [eexists; reflexivity|].
    change (dict_get _ "personalized")
      with (VStr (if truthy (opt_int user_id)
                  then _personalize_advice keyword (or_default user_id 0%Z)
                  else [])).
    destruct (truthy (opt_int user_id)); reflexivity.
  - split; [eexists; reflexivity|reflexivity].
Qed.

(** The weekly report, for a user row that exists and a week whose
    values keep the squares inside the floats. *)
Lemma returns_route_weekly_report (intent : pystr) (user_id : Z)
      (message : pystr) (slots : pydict) (now : Z) :
  intent = u "weekly_report" ->
  find (fun usr => (User.id usr =? user_id)%Z) rows <> None ->
  returns (report_ready rows user_id now)
          (route intent user_id message slots now) (fun _ => True).
Proof.
  intros -> Hfind. unfold route. cbv zeta. decide_intent_tests.
  returns_message (returns__handle_weekly_report rows user_id now Hfind).
Qed.

(** Every other intent. *)
Lemma returns_route (intent : pystr) (user_id : Z) (message : pystr)
      (slots : pydict) (now : Z) :
  intent <> u "weekly_report" ->
  returns (same_users rows) (route intent user_id message slots now)
          (fun _ => True).
Proof.
  intros Hweek. unfold route. cbv zeta.
  destruct (str_eqb intent (u "record_glucose")).
  { eapply returns_bind; [apply (returns__handle_record_glucose ascii)|].
    intros result [-> | [msg [rid [value [mi ->]]]]].
    - eapply returns_bind with (Q := fun _ => True).
      { apply returns_lift. eexists. split; [reflexivity|exact I]. }
      intros m _.
      change (truthy (dict_get no_value_dict "reading_id")) with false.
      cbv iota. now apply returns_mret.
    - eapply returns_bind with (Q := fun _ => True).
      { apply returns_lift. eexists. split; [reflexivity|exact I]. }
      intros m _.
      destruct (truthy (dict_get (logged_dict msg rid value mi) "reading_id"));
        [|now apply returns_mret].
      eapply returns_bind with (Q := fun _ => True).
      { apply returns_lift. eexists. split; [reflexivity|exact I]. }
      intros v _.
      eapply returns_bind with (Q := fun _ => True).
      { apply returns_lift. eexists. split; [reflexivity|exact I]. }
      intros r _.
      eapply returns_bind; [apply returns_analyze_glucose|].
      intros analysis Hs.
      eapply returns_bind with (Q := fun _ => True).
      { apply returns_lift. destruct (_format_analysis_total analysis Hs) as [s ->].
        eauto. }
      intros formatted _. now apply returns_mret. }
  destruct (str_eqb intent (u "record_meal")).
  { returns_message returns_log_meal. }
  destruct (str_eqb intent (u "record_exercise")).
  { returns_message returns_log_exercise. }
  destruct (str_eqb intent (u "record_medication")).
  { returns_message returns_log_medication. }
  destruct (str_eqb intent (u "ask_value_status")).
  { returns_message returns__handle_ask_value_status. }
  destruct (str_eqb intent (u "ask_education")).
  { destruct (answer_question_strings message (Some user_id)) as [[answer Ha] Hp].
    eapply returns_bind with (Q := fun _ => True).
    { apply returns_lift. rewrite Ha. eauto. }
    intros a _. rewrite Hp. change (truthy (VStr [])) with false. cbv iota.
    eapply returns_bind with (Q := fun _ => True); [now apply returns_mret|].
    intros parts _. now apply returns_mret. }
  destruct (str_eqb intent (u "emotional_support")).
  { destruct (provide_support_strings message (Some user_id))
      as [empathy [encouragement [He Hc]]].
    eapply returns_bind with (Q := fun _ => True).
    { apply returns_lift. rewrite He. eauto. }
    intros e _.
    eapply returns_bind with (Q := fun _ => True).
    { apply returns_lift. rewrite Hc. eauto. }
    intros c _. now apply returns_mret. }
  destruct (str_eqb intent (u "weekly_report")) eqn:Ew.
  { apply str_eqb_eq in Ew. contradiction. }
  destruct (str_eqb intent (u "risk_alert")); now apply returns_mret.
Qed.

Lemma add_empathy_total (sentiment message : pystr) (user_id : Z)
      (reply_parts : list pystr) :
  exists parts, add_empathy sentiment message user_id reply_parts = Ok parts.
Proof.
  unfold add_empathy.
  destruct (_ || _); [|eauto].
  destruct (provide_support_strings message (Some user_id)) as [e [_ [-> _]]].
  cbv zeta. destruct (truthy _); cbn [rbind]; eauto.
Qed.

End ReturnsRoute.

(** The dict that process_message returns. *)
Definition turn_dict (reply intent sentiment : pystr)
           (actions_taken needs_clarification : list pystr) : pydict :=
  [ ("reply", VStr reply);
    ("intent", VStr intent);
    ("sentiment", VStr sentiment);
    ("actions_taken", str_list actions_taken);
    ("needs_clarification", str_list needs_clarification) ].

Lemma returns_process_message {U : Unicode} {F : Format} (P : DB -> Prop)
      (user_id : Z) (session_id message : pystr) (now : Z) :
  ascii_conformant U ->
  (forall db states, P db -> P (set_conversation_states db states)) ->
  (forall slots,
      returns P (route (_classify_intent message) user_id message slots now)
              (fun _ => True)) ->
  returns P (process_message user_id session_id message now)
          (fun result =>
             exists reply actions_taken needs_clarification,
               result = turn_dict reply (_classify_intent message)
                                  (_detect_sentiment message)
                                  actions_taken needs_clarification).
Proof.
  intros HU Hstate Hroute.
  unfold process_message. cbv zeta.
  eapply returns_bind with (Q := fun _ => True).
  { apply returns_lift. destruct (_extract_slots_total HU message) as [slots ->].
    eauto. }
  intros slots _.
  eapply returns_bind with (Q := fun _ => True).
  { intros db0 Hdb0. unfold _update_conversation_state. cbv zeta.
    eexists. eexists. split; [reflexivity|]. split; [|exact I].
    apply Hstate. exact Hdb0. }
  intros [] _.
  eapply returns_bind with (Q := fun _ => True); [apply Hroute|].
  intros [[reply_parts actions_taken] needs_clarification] _.
  eapply returns_bind with (Q := fun _ => True).
  { apply returns_lift.
    destruct (add_empathy_total (_detect_sentiment message) message user_id
                                reply_parts) as [parts ->].
    eauto. }
  intros parts _. apply returns_mret.
  eexists. eexists. eexists. reflexivity.
Qed.

(** X16. process_message answers every message: it never raises, whatever the
    text, the session and the state of the tables are, as long as, for a
    message classified as a request for the weekly report, the user has
    a user row and the readings of the user in the current week are
    fewer than three or none beyond 1e150 in magnitude (the report
    squares their deviations from the mean, and a float square that
    overflows raises OverflowError), and, for a message classified as an
    exercise, the minutes in it fit the integer column.  The dict it
    returns carries a reply string, the classified intent and the
    detected sentiment, and the table of users is left as it was. *)
Theorem process_message_replies {U : Unicode} {F : Format} (user_id : Z)
        (session_id message : pystr) (now : Z) (db : DB) :
  ascii_conformant U ->
  find_user db user_id <> None \/ _classify_intent message <> u "weekly_report" ->
  (_classify_intent message = u "weekly_report" ->
   week_values_fit db user_id now) ->
  (_classify_intent message = u "record_exercise" -> minutes_fit message) ->
  exists reply actions_taken needs_clarification db',
    process_message user_id session_id message now db
    = (Ok (turn_dict reply (_classify_intent message) (_detect_sentiment message)
                     actions_taken needs_clarification),
       db')
    /\ users db' = users db.
Proof.
  intros HU Hpre Hfit _.
  destruct (str_eqb (_classify_intent message) (u "weekly_report")) eqn:Ew.
  - apply str_eqb_eq in Ew.
    assert (Hfind : find_user db user_id <> None).
    { destruct Hpre as [Hpre|Hpre]; [exact Hpre|contradiction]. }
    assert (H : returns (report_ready (users db) user_id now)
                        (process_message user_id session_id message now)
                        (fun result =>
                           exists reply actions_taken needs_clarification,
                             result = turn_dict reply (_classify_intent message)
                                                (_detect_sentiment message)
                                                actions_taken needs_clarification)).
    { apply (@returns_process_message U F _ user_id session_id message now HU).
      - intros db0 states Hdb0. exact Hdb0.
      - intros slots. now apply returns_route_weekly_report. }
    destruct (H db) as [result [db' [Hrun [[Hu _] [reply [actions [clar ->]]]]]]].
    { split; [reflexivity|exact (Hfit Ew)]. }
    exists reply, actions, clar, db'. split; [exact Hrun|exact Hu].
  - assert (Hother : _classify_intent message <> u "weekly_report").
    { intros Hw. rewrite Hw, str_eqb_refl in Ew. discriminate Ew. }
    assert (H : returns (same_users (users db))
                        (process_message user_id session_id message now)
                        (fun result =>
                           exists reply actions_taken needs_clarification,
                             result = turn_dict reply (_classify_intent message)
                                                (_detect_sentiment message)
                                                actions_taken needs_clarification)).
    { apply (@returns_process_message U F _ user_id session_id message now HU).
      - intros db0 states Hdb0. exact Hdb0.
      - intros slots. now apply (returns_route HU). }
    destruct (H db eq_refl) as [result [db' [Hrun [Hu [reply [actions [clar ->]]]]]]].
    exists reply, actions, clar, db'. split; [exact Hrun|exact Hu].
Qed.

Lemma process_message_replies_witness :
  exists reply actions_taken needs_clarification db',
    @process_message basic_unicode plain_format 1 (u "s1") (u "本周周报")
                     example_now example_db
    = (Ok (turn_dict reply (u "weekly_report") (u "neutral")
                     actions_taken needs_clarification),
       db')
    /\ users db' = users example_db.
Proof.
  assert (Hi : @_classify_intent basic_unicode (u "本周周报") = u "weekly_report")
    by (vm_compute; reflexivity).
  assert (Hs : @_detect_sentiment basic_unicode (u "本周周报") = u "neutral")
    by (vm_compute; reflexivity).
  rewrite <- Hi, <- Hs.
  apply (@process_message_replies basic_unicode plain_format 1 (u "s1")
           (u "本周周报") example_now example_db basic_unicode_conformant).
  - left. intros H. vm_compute in H. discriminate H.
  - intros _. exact example_db_values_fit.
  - intros H. rewrite Hi in H. vm_compute in H. discriminate H.
Defined.

(** ** A turn that records a reading *)

Lemma update_first_last {A : Type} (p : A -> bool) (f : A -> A) (rows : list A)
      (x : A) :
  (forall r, In r rows -> p r = false) -> p x = true ->
  update_first p f (rows ++ [x]) = rows ++ [f x].
Proof.
  intros Hrows Hx. induction rows as [|r rows IH]; simpl.
  - now rewrite Hx.
  - rewrite (Hrows r) by (left; reflexivity). f_equal. apply IH.
    intros r' Hr'. apply Hrows. right. exact Hr'.
Qed.

Lemma _handle_record_glucose_stores {U : Unicode} {F : Format} (user_id : Z)
      (message : pystr) (slots : pydict) (now : Z) (db : DB) :
  ascii_conformant U ->
  ~ no_digit message ->
  exists msg missing_info reading,
    _handle_record_glucose user_id message slots now db
    = (Ok (logged_dict msg (GlucoseReading.id reading)
                       (GlucoseReading.value reading) missing_info),
       set_glucose_readings db (glucose_readings db ++ [reading]))
    /\ GlucoseReading.id reading
       = next_id (map GlucoseReading.id (glucose_readings db))
    /\ GlucoseReading.user_id reading = user_id
    /\ GlucoseReading.unit reading = mmol_L
    /\ GlucoseReading.timestamp reading = now
    /\ GlucoseReading.risk_level reading = None
    /\ GlucoseReading.analysis_notes reading = None.
Proof.
  intros HU Hn. unfold _handle_record_glucose, mbind, lift. cbv zeta.
  destruct (or_else_total (dict_get slots "glucose_value")
              (let* v := extract_glucose_value message in Ok (opt_float v)))
    as [v ->].
  { destruct (extract_glucose_value_total HU message) as [v ->].
    cbn [rbind]. eauto. }
  destruct (or_else_total (dict_get slots "unit") (Ok (VStr (detect_unit message))))
    as [un ->]; [eauto|].
  destruct (or_else_total (dict_get slots "meal_type")
              (Ok (opt_str (detect_meal_type_from_text message))))
    as [mt ->]; [eauto|].
  destruct (or_else_total (dict_get slots "hours_after_meal")
              (let* h := extract_hours_after_meal message in Ok (opt_float h)))
    as [h ->].
  { destruct (extract_hours_after_meal_total HU message) as [h ->].
    cbn [rbind]. eauto. }
  match goal with
  | |- context [log_glucose user_id message None ?un ?c ?mt ?h now db] =>
    exact (log_glucose_stores user_id message None un c mt h now db HU Hn)
  end.
Qed.

(** X17. A record_glucose turn for a message that holds a digit and a user
    row that exists: the routing step stores one new reading and analyses
    it at once, so that at the end of the step the new reading is the
    last row of the table and already carries a risk level and the
    reasoning, and one analysis event that points to it has been added.
    The reply has two parts, the confirmation and the analysis. *)
Theorem record_glucose_turn_annotates {U : Unicode} {F : Format} (user_id : Z)
        (message : pystr) (slots : pydict) (now : Z) (db : DB) (user : User.t) :
  ascii_conformant U ->
  ~ no_digit message ->
  find_user db user_id = Some user ->
  exists confirmation formatted needs_clarification db' reading event,
    route (u "record_glucose") user_id message slots now db
    = (Ok ([confirmation; formatted], [u "记录血糖"; u "分析血糖"],
           needs_clarification), db')
    /\ glucose_readings db' = glucose_readings db ++ [reading]
    /\ ~ In (GlucoseReading.id reading)
            (map GlucoseReading.id (glucose_readings db))
    /\ GlucoseReading.user_id reading = user_id
    /\ GlucoseReading.timestamp reading = now
    /\ GlucoseReading.risk_level reading = Some (AnalysisEvent.risk_level event)
    /\ GlucoseReading.analysis_notes reading <> None
    /\ analysis_events db' = analysis_events db ++ [event]
    /\ AnalysisEvent.user_id event = user_id
    /\ AnalysisEvent.glucose_reading_id event = Some (GlucoseReading.id reading).
Proof.
  intros HU Hn Hu.
  destruct (_handle_record_glucose_stores user_id message slots now db HU Hn)
    as [msg [mi [reading [H [Hid [Huid [Hunit [Hts _]]]]]]]].
  destruct (next_id_fresh (map GlucoseReading.id (glucose_readings db)))
    as [Hpos Hfresh].
  rewrite <- Hid in Hpos, Hfresh.
  set (db1 := set_glucose_readings db (glucose_readings db ++ [reading])) in *.
  assert (Hu1 : find_user db1 user_id = Some user) by exact Hu.
  assert (Hne : GlucoseReading.id reading <> 0%Z) by lia.
  destruct (analyze_glucose_with_reading user_id (GlucoseReading.value reading)
              None (GlucoseReading.id reading) now db1 user Hu1 Hne)
    as [analysis [event [rl [re [Ha [_ [_ [_ [Heu [Her [Hel _]]]]]]]]]]].
  destruct (analyze_glucose_shape user_id (GlucoseReading.value reading) None
              (Some (GlucoseReading.id reading)) now db1)
    as [analysis' [db2 [Ha' [_ Hshape]]]].
  rewrite Ha in Ha'. injection Ha' as <- _.
  destruct (_format_analysis_total analysis Hshape) as [formatted Hf].
  exists msg, formatted.
  eexists. exists (with_analysis db1 (GlucoseReading.id reading) rl re event).
  exists (annotated rl re reading), event.
  split.
  { unfold route. cbv zeta. rewrite str_eqb_refl.
    unfold mbind at 1. rewrite H. cbv beta iota.
    unfold mbind at 1, lift at 1.
    change (item_str (logged_dict msg (GlucoseReading.id reading)
                                  (GlucoseReading.value reading) mi) "message")
      with (Ok msg).
    cbv beta iota.
    assert (Ht : truthy (dict_get (logged_dict msg (GlucoseReading.id reading)
                                               (GlucoseReading.value reading) mi)
                                  "reading_id") = true).
    { change (negb (GlucoseReading.id reading =? 0)%Z = true).
      apply negb_true_iff. apply Z.eqb_neq. exact Hne. }
    rewrite Ht.
    unfold mbind at 1, lift at 1.
    change (item_float (logged_dict msg (GlucoseReading.id reading)
                                    (GlucoseReading.value reading) mi) "value")
      with (Ok (GlucoseReading.value reading)).
    cbv beta iota.
    unfold mbind at 1, lift at 1.
    change (dict_item (logged_dict msg (GlucoseReading.id reading)
                                   (GlucoseReading.value reading) mi) "reading_id")
      with (Ok (VInt (GlucoseReading.id reading))).
    cbv beta iota.
    unfold mbind at 1.
    change (as_str (dict_get (logged_dict msg (GlucoseReading.id reading)
                                          (GlucoseReading.value reading) mi)
                             "context")) with (@None pystr).
    change (as_int (VInt (GlucoseReading.id reading)))
      with (Some (GlucoseReading.id reading)).
    rewrite Ha.
    unfold mbind at 1, lift at 1. rewrite Hf. reflexivity. }
  unfold with_analysis.
  cbn [glucose_readings set_glucose_readings set_analysis_events analysis_events db1].
  split.
  { apply update_first_last.
    - intros r Hr. apply Z.eqb_neq. intros Heq. apply Hfresh.
      rewrite <- Heq. now apply in_map.
    - apply Z.eqb_eq. reflexivity. }
  split; [exact Hfresh|]. split; [exact Huid|]. split; [exact Hts|].
  split; [cbn; now rewrite Hel|]. split; [discriminate|].
  split; [reflexivity|]. split; [exact Heu|exact Her].
Qed.

Lemma record_glucose_turn_annotates_witness :
  exists confirmation formatted needs_clarification db' reading,
    @route basic_unicode plain_format (u "record_glucose") 1
           (u "今天空腹测的血糖7.5") [] example_now fasting_user_db
    = (Ok ([confirmation; formatted], [u "记录血糖"; u "分析血糖"],
           needs_clarification), db')
    /\ glucose_readings db' = [reading]
    /\ GlucoseReading.risk_level reading <> None
    /\ List.length (analysis_events db') = 1%nat.
Proof.
  assert (Hn : ~ @no_digit basic_unicode (u "今天空腹测的血糖7.5")).
  { intros H. apply Forall_forall with (x := 55%N) in H.
    - vm_compute in H. discriminate H.
    - vm_compute. tauto. }
  destruct (@record_glucose_turn_annotates basic_unicode plain_format 1
              (u "今天空腹测的血糖7.5") [] example_now fasting_user_db
              (User.mk 1 (Some 4.4%Q) (Some 7.0%Q) None)
              basic_unicode_conformant Hn eq_refl)
    as [c [f [nc [db' [reading [event [H [Hrows [_ [_ [_ [Hrl [_ [Hev _]]]]]]]]]]]]]].
  exists c, f, nc, db', reading.
  split; [exact H|]. split; [exact Hrows|].
  split; [rewrite Hrl; discriminate|]. rewrite Hev. reflexivity.
Defined.

(** ** The trend of a reading that has just been stored *)

(** X18. The trend of a reading is taken after the reading was stored, so the
    reading is part of the seven days it is compared with: without a
    context, the history of the trend is the earlier history followed by
    the new reading; a first reading in seven days therefore always gets
    the answer that the data is insufficient, and otherwise the average
    behind the trend includes the new value itself. *)
Theorem trend_counts_the_new_reading {F : Format} (db : DB) (user_id now : Z)
        (reading : GlucoseReading.t) :
  GlucoseReading.user_id reading = user_id ->
  (now - 7 * microseconds_per_day <= GlucoseReading.timestamp reading)%Z ->
  let db1 := set_glucose_readings db (glucose_readings db ++ [reading]) in
  let week_ago := (now - 7 * microseconds_per_day)%Z in
  let earlier := readings_since db user_id week_ago None in
  let trend := _analyze_trend db1 user_id (GlucoseReading.value reading) None now in
  readings_since db1 user_id week_ago None = earlier ++ [reading]
  /\ (earlier = [] ->
      trend = [ ("direction", VStr (u "insufficient_data"));
                ("message", VStr (u "数据不足，无法分析趋势")) ])
  /\ (earlier <> [] ->
      dict_get trend "average"
      = VFloat (mean (map GlucoseReading.value (earlier ++ [reading])))).
Proof.
  intros Hu Ht. cbv zeta.
  assert (Hs : readings_since
                 (set_glucose_readings db (glucose_readings db ++ [reading]))
                 user_id (now - 7 * microseconds_per_day) None
               = readings_since db user_id (now - 7 * microseconds_per_day) None
                   ++ [reading]).
  { unfold readings_since. cbn [truthy_str glucose_readings set_glucose_readings].
    rewrite filter_app. f_equal. cbn [filter].
    replace (GlucoseReading.user_id reading =? user_id)%Z with true
      by (symmetry; apply Z.eqb_eq; exact Hu).
    replace (now - 7 * microseconds_per_day <=? GlucoseReading.timestamp reading)%Z
      with true by (symmetry; apply Z.leb_le; exact Ht).
    reflexivity. }
  split; [exact Hs|].
  unfold _analyze_trend. cbv zeta. rewrite Hs.
  split.
  - intros ->. reflexivity.
  - intros Hne.
    destruct (readings_since db user_id (now - 7 * microseconds_per_day) None)
      as [|r rs]; [congruence|].
    replace (List.length ((r :: rs) ++ [reading]) <? 2)%nat with false.
    + destruct (Qlt_bool _ _); [reflexivity|].
      destruct (Qlt_bool _ _); reflexivity.
    + symmetry. apply Nat.ltb_ge. rewrite length_app. simpl. lia.
Qed.

Lemma trend_counts_the_new_reading_witness :
  let reading :=
    GlucoseReading.mk 2 1 9.5 mmol_L example_now (Some post_meal) None None
                      None None in
  let db1 := set_glucose_readings example_db
                                  (glucose_readings example_db ++ [reading]) in
  readings_since db1 1 (example_now - 7 * microseconds_per_day) None
  = glucose_readings example_db ++ [reading]
  /\ dict_get (@_analyze_trend plain_format db1 1 9.5 None example_now) "average"
     = VFloat (mean [7.5; 9.5]%Q).
Proof.
  cbv zeta.
  destruct (@trend_counts_the_new_reading plain_format example_db 1 example_now
              (GlucoseReading.mk 2 1 9.5 mmol_L example_now (Some post_meal)
                                 None None None None)
              eq_refl ltac:(vm_compute; discriminate))
    as [Hs [_ Havg]].
  split; [exact Hs|].
  apply Havg. vm_compute. discriminate.
Defined.

(** ** Sentiment and the empathy line *)

Lemma support_empathy_of_sentiment {U : Unicode} (message : pystr) (user_id : option Z) :
  (_detect_sentiment message = u "anxious" ->
   lookup "empathy" (provide_support message user_id) = Some (VStr anxious_empathy))
  /\ (_detect_sentiment message = u "negative" ->
      lookup "empathy" (provide_support message user_id) = Some (VStr anxious_empathy)
      \/ lookup "empathy" (provide_support message user_id)
         = Some (VStr negative_empathy)).
Proof.
  unfold _detect_sentiment, provide_support. cbv zeta.
  destruct (any_in anxious_keywords (str_lower message)) eqn:Ea.
  - rewrite (any_in_incl _ _ _ anxious_keywords_incl Ea).
    split; [intros _; vm_compute; reflexivity|].
    intros H. vm_compute in H. discriminate H.
  - destruct (any_in negative_keywords (str_lower message)) eqn:En.
    + rewrite (any_in_incl _ _ _ negative_keywords_incl En).
      split; [intros H; vm_compute in H; discriminate H|].
      intros _.
      destruct (any_in support_anxious_keywords (str_lower message));
        [left|right]; vm_compute; reflexivity.
    + destruct (any_in positive_keywords (str_lower message));
        split; intros H; vm_compute in H; discriminate H.
Qed.

Lemma add_empathy_inserts {U : Unicode} (sentiment message : pystr) (user_id : Z)
      (reply_parts : list pystr) (empathy : pystr) :
  str_eqb sentiment (u "negative") || str_eqb sentiment (u "anxious")
  || str_eqb sentiment (u "frustrated") = true ->
  lookup "empathy" (provide_support message (Some user_id)) = Some (VStr empathy) ->
  empathy <> [] ->
  add_empathy sentiment message user_id reply_parts
  = Ok (list_insert 1 empathy reply_parts).
Proof.
  intros Hs He Hne. unfold add_empathy, item_str, dict_item, dict_get.
  rewrite Hs, He. cbn [truthy rbind].
  destruct empathy; [congruence|reflexivity].
Qed.

Lemma empathy_sentences_nonempty :
  anxious_empathy <> [] /\ negative_empathy <> [].
Proof. split; vm_compute; discriminate. Qed.

Lemma _detect_sentiment_range {U : Unicode} (message : pystr) :
  _detect_sentiment message = u "anxious"
  \/ _detect_sentiment message = u "negative"
  \/ _detect_sentiment message = u "positive"
  \/ _detect_sentiment message = u "neutral".
Proof.
  unfold _detect_sentiment. cbv zeta.
  destruct (any_in anxious_keywords _); [auto|].
  destruct (any_in negative_keywords _); [auto|].
  destruct (any_in positive_keywords _); auto.
Qed.

(** X19. Step 6 of process_message over all messages.  The detected sentiment
    is one of anxious, negative, positive and neutral, so the third name
    that step 6 tests for is never produced.  For a positive or neutral
    message the reply parts are left as they are; for an anxious or
    negative one the empathy sentence of the support agent is inserted at
    index 1 (at the end when there is at most one part): the anxious
    sentence for an anxious message, the anxious or the negative one for
    a negative message, since the support agent knows more keywords. *)
Theorem add_empathy_cases {U : Unicode} (message : pystr) (user_id : Z)
        (reply_parts : list pystr) :
  let sentiment := _detect_sentiment message in
  (sentiment = u "anxious"
   /\ add_empathy sentiment message user_id reply_parts
      = Ok (list_insert 1 anxious_empathy reply_parts))
  \/ (sentiment = u "negative"
      /\ exists empathy,
          (empathy = anxious_empathy \/ empathy = negative_empathy)
          /\ add_empathy sentiment message user_id reply_parts
             = Ok (list_insert 1 empathy reply_parts))
  \/ ((sentiment = u "positive" \/ sentiment = u "neutral")
      /\ add_empathy sentiment message user_id reply_parts = Ok reply_parts).
Proof.
  cbv zeta.
  destruct (support_empathy_of_sentiment message (Some user_id)) as [Ha Hn].
  destruct empathy_sentences_nonempty as [Hane Hnne].
  destruct (_detect_sentiment_range message) as [H|[H|H]].
  - left. split; [exact H|]. rewrite H at 1.
    apply add_empathy_inserts; [vm_compute; reflexivity|exact (Ha H)|exact Hane].
  - right. left. split; [exact H|].
    destruct (Hn H) as [He|He].
    + exists anxious_empathy. split; [left; reflexivity|]. rewrite H at 1.
      apply add_empathy_inserts; [vm_compute; reflexivity|exact He|exact Hane].
    + exists negative_empathy. split; [right; reflexivity|]. rewrite H at 1.
      apply add_empathy_inserts; [vm_compute; reflexivity|exact He|exact Hnne].
  - right. right. split; [exact H|].
    unfold add_empathy.
    destruct H as [H|H]; rewrite H;
      match goal with
      | |- context [?a || ?b || ?c] =>
        let v := eval vm_compute in (a || b || c) in
        change (a || b || c) with v
      end; reflexivity.
Qed.

(** The dict of the support agent for a message that the orchestrator
    finds anxious or negative. *)
Lemma provide_support_for_distress {U : Unicode} (message : pystr)
      (user_id : option Z) :
  _detect_sentiment message = u "anxious"
  \/ _detect_sentiment message = u "negative" ->
  exists sentiment empathy encouragement step steps,
    provide_support message user_id
    = [ ("sentiment", VStr sentiment);
        ("empathy", VStr empathy);
        ("encouragement", VStr encouragement);
        ("next_steps", str_list (step :: steps)) ]
    /\ (empathy = anxious_empathy \/ empathy = negative_empathy).
Proof.
  unfold _detect_sentiment, provide_support. cbv zeta.
  destruct (any_in anxious_keywords (str_lower message)) eqn:Ea.
  - intros _. rewrite (any_in_incl _ _ _ anxious_keywords_incl Ea).
    cbv iota. decide_intent_tests. do 5 eexists. split; [reflexivity|left; unfold anxious_empathy; reflexivity].
  - destruct (any_in negative_keywords (str_lower message)) eqn:En.
    + intros _. rewrite (any_in_incl _ _ _ negative_keywords_incl En).
      destruct (any_in support_anxious_keywords (str_lower message));
        cbv iota; decide_intent_tests; do 5 eexists.
      * split; [reflexivity|left; unfold anxious_empathy; reflexivity].
      * split; [reflexivity|right; unfold negative_empathy; reflexivity].
    + destruct (any_in positive_keywords (str_lower message));
        intros [H|H]; vm_compute in H; discriminate H.
Qed.

Lemma route_emotional_support {U : Unicode} {F : Format} (user_id : Z)
      (message : pystr) (slots : pydict) (now : Z) (db : DB)
      (sentiment empathy encouragement step : pystr) (steps : list pystr) :
  provide_support message (Some user_id)
  = [ ("sentiment", VStr sentiment);
      ("empathy", VStr empathy);
      ("encouragement", VStr encouragement);
      ("next_steps", str_list (step :: steps)) ] ->
  route (u "emotional_support") user_id message slots now db
  = (Ok ([ empathy; encouragement;
           u "建议：" ++ nl
             ++ join nl (map (fun s => u "• " ++ s) (step :: steps)) ],
         [u "情感支持"], []), db).
Proof.
  intros Hs. unfold route. cbv zeta. decide_intent_tests. rewrite Hs.
  unfold mbind, lift, mret.
  change (item_str _ "empathy") with (Ok empathy).
  change (item_str _ "encouragement") with (Ok encouragement).
  cbv beta iota.
  change (truthy (dict_get _ "next_steps")) with true. cbv iota.
  change (dict_get _ "next_steps") with (str_list (step :: steps)).
  assert (Hl : forall l, as_str_list (str_list l) = l).
  { induction l as [|x l IH]; [reflexivity|].
    unfold as_str_list, str_list in *. cbn [map flat_map app].
    now rewrite IH. }
  rewrite Hl. reflexivity.
Qed.

(** X20. A turn of emotional support for a message that is anxious or
    negative says the empathy sentence twice: the handler opens its
    reply with it, and step 6 inserts the same sentence again at index 1.
    The reply is aggregated from the four parts empathy, empathy,
    encouragement and next steps. *)
Theorem distress_turn_repeats_empathy {U : Unicode} {F : Format} (user_id : Z)
        (session_id message : pystr) (now : Z) (db : DB) :
  ascii_conformant U ->
  _classify_intent message = u "emotional_support" ->
  _detect_sentiment message = u "anxious"
  \/ _detect_sentiment message = u "negative" ->
  exists empathy encouragement steps db',
    process_message user_id session_id message now db
    = (Ok (turn_dict (aggregate (u "emotional_support")
                                [empathy; empathy; encouragement; steps])
                     (u "emotional_support") (_detect_sentiment message)
                     [u "情感支持"] []),
       db')
    /\ dict_get (provide_support message (Some user_id)) "empathy" = VStr empathy
    /\ (empathy = anxious_empathy \/ empathy = negative_empathy).
Proof.
  intros HU Hintent Hsent.
  destruct (provide_support_for_distress message (Some user_id) Hsent)
    as [s [e [enc [step [steps [Hs He]]]]]].
  destruct (_extract_slots_total HU message) as [slots Hslots].
  assert (Hne : e <> []).
  { destruct empathy_sentences_nonempty as [Ha Hn].
    destruct He as [-> | ->]; assumption. }
  assert (Hins : add_empathy (_detect_sentiment message) message user_id
                   [ e; enc;
                     u "建议：" ++ nl
                       ++ join nl (map (fun s => u "• " ++ s) (step :: steps)) ]
                 = Ok [ e; e; enc;
                        u "建议：" ++ nl
                          ++ join nl (map (fun s => u "• " ++ s) (step :: steps)) ]).
  { change ([ e; e; enc;
               u "建议：" ++ nl
                 ++ join nl (map (fun s => u "• " ++ s) (step :: steps)) ])
      with (list_insert 1 e
              [ e; enc;
                u "建议：" ++ nl
                  ++ join nl (map (fun s => u "• " ++ s) (step :: steps)) ]).
    apply add_empathy_inserts.
    - destruct Hsent as [H|H]; rewrite H; vm_compute; reflexivity.
    - rewrite Hs. reflexivity.
    - exact Hne. }
  exists e, enc. eexists. eexists. split; [|split; [rewrite Hs; reflexivity|exact He]].
  unfold process_message. cbv zeta. rewrite Hintent, Hslots.
  unfold mbind at 1, lift at 1.
  unfold mbind at 1.
  unfold _update_conversation_state at 1.
  cbv zeta.
  unfold mbind at 1.
  rewrite (route_emotional_support user_id message slots now _ s e enc step steps Hs).
  unfold mbind at 1, lift at 1. rewrite Hins. reflexivity.
Qed.

Lemma distress_turn_repeats_empathy_witness :
  exists encouragement steps db',
    @process_message basic_unicode plain_format 1 (u "s1") (u "我很沮丧")
                     example_now example_db
    = (Ok (turn_dict (aggregate (u "emotional_support")
                                [negative_empathy; negative_empathy;
                                 encouragement; steps])
                     (u "emotional_support") (u "negative")
                     [u "情感支持"] []),
       db').
Proof.
  assert (Hi : @_classify_intent basic_unicode (u "我很沮丧") = u "emotional_support")
    by (vm_compute; reflexivity).
  assert (Hs : @_detect_sentiment basic_unicode (u "我很沮丧") = u "negative")
    by (vm_compute; reflexivity).
  destruct (@distress_turn_repeats_empathy basic_unicode plain_format 1 (u "s1")
              (u "我很沮丧") example_now example_db basic_unicode_conformant Hi
              (or_intror Hs))
    as [e [enc [steps [db' [H [He _]]]]]].
  rewrite Hs in H.
  assert (Hneg : VStr e = VStr negative_empathy).
  { rewrite <- He. vm_compute. reflexivity. }
  injection Hneg as Hneg. rewrite Hneg in H.
  exists enc, steps, db'. exact H.
Defined.

(** ** The weekly report of a user row that exists *)

Lemma startswith_app (p a b : pystr) :
  startswith p a = true -> startswith p (a ++ b) = true.
Proof.
  revert a. induction p as [|x p IH]; intros a H; [reflexivity|].
  destruct a as [|y a]; [discriminate H|].
  cbn [app startswith] in *. apply andb_prop in H as [H1 H2].
  rewrite H1. cbn [andb]. now apply IH.
Qed.

Lemma str_in_app_l (p a b : pystr) :
  str_in p a = true -> str_in p (a ++ b) = true.
Proof.
  induction a as [|c a IH]; cbn [str_in app]; intros H.
  - apply orb_prop in H as [H|H]; [|discriminate H].
    destruct p; [|discriminate H]. now destruct b.
  - apply orb_prop in H as [H|H].
    + change (c :: a ++ b) with ((c :: a) ++ b).
      rewrite (startswith_app p (c :: a) b H). reflexivity.
    + fold (str_in p (a ++ b)). rewrite (IH H). apply orb_true_r.
Qed.

Lemma str_in_app_r (p a b : pystr) :
  str_in p b = true -> str_in p (a ++ b) = true.
Proof.
  intros H. induction a as [|c a IH]; [exact H|].
  cbn [app str_in]. fold (str_in p (a ++ b)). rewrite IH. apply orb_true_r.
Qed.

(** A substring of one of the joined parts is a substring of the whole. *)
Lemma str_in_join (p sep x : pystr) (parts : list pystr) :
  In x parts -> str_in p x = true -> str_in p (join sep parts) = true.
Proof.
  intros Hin Hp. induction parts as [|y parts IH]; [destruct Hin|].
  destruct parts as [|z parts].
  - destruct Hin as [->|[]]. exact Hp.
  - change (join sep (y :: z :: parts)) with (y ++ sep ++ join sep (z :: parts)).
    destruct Hin as [->|Hin].
    + now apply str_in_app_l.
    + apply str_in_app_r, str_in_app_r. now apply IH.
Qed.

Lemma firstn_3_bounds {A : Type} (l : list A) :
  l <> [] -> (1 <= List.length (firstn 3 l) <= 3)%nat.
Proof.
  intros Hne. destruct l as [|a [|b [|c l]]]; [congruence| | |]; simpl; lia.
Qed.

Lemma generate_action_items_length (readings : list GlucoseReading.t)
      (user : User.t) (patterns : list pystr) :
  exists items,
    generate_action_items readings (Some user) patterns = Ok items
    /\ (1 <= List.length items <= 3)%nat.
Proof.
  destruct readings as [|r rs].
  - eexists. split; [reflexivity|]. simpl; lia.
  - unfold generate_action_items.
    rewrite calculate_target_compliance_user by discriminate.
    cbn [rbind]. eexists. split; [reflexivity|].
    apply firstn_3_bounds.
    match goal with
    | |- match ?l with [] => _ | _ :: _ => _ end <> [] => destruct l; discriminate
    end.
Qed.

(** X21. generate_action_items never comes back empty-handed: for a user row
    that exists it returns between one and three items, whatever the
    readings and the patterns are; with no readings it is the single
    invitation to start recording. *)
Theorem generate_action_items_bounds (readings : list GlucoseReading.t)
        (user : User.t) (patterns : list pystr) :
  exists items,
    generate_action_items readings (Some user) patterns = Ok items
    /\ (1 <= List.length items <= 3)%nat
    /\ (readings = [] -> items = [u "开始记录血糖数据"]).
Proof.
  destruct (generate_action_items_length readings user patterns)
    as [items [H Hlen]].
  exists items. split; [exact H|]. split; [exact Hlen|].
  intros ->. inversion H. reflexivity.
Qed.

Lemma generate_action_items_nonempty (readings : list GlucoseReading.t)
      (user : User.t) (patterns items : list pystr) :
  generate_action_items readings (Some user) patterns = Ok items -> items <> [].
Proof.
  intros H.
  destruct (generate_action_items_length readings user patterns)
    as [items' [H' Hlen]].
  rewrite H in H'. inversion H'; subst. intros ->. simpl in Hlen. lia.
Qed.

Lemma report_content_has_advice {F : Format} (week_start week_end : Z)
      (total : nat) (avg : Q) (fasting_avg post_meal_avg : option Q)
      (compliance : Q) (patterns progress items : list pystr) (meals exercises : nat) :
  items <> [] ->
  str_in (u "建议")
         (report_content week_start week_end total avg fasting_avg post_meal_avg
                         compliance patterns progress items meals exercises)
  = true.
Proof.
  intros Hne. unfold report_content. cbv zeta.
  apply str_in_join with (x := u "【行动建议】"); [|vm_compute; reflexivity].
  destruct items as [|i items]; [congruence|].
  do 7 (apply in_or_app; right).
  apply in_or_app. left. cbv iota. left. reflexivity.
Qed.

Lemma generate_action_items_bounds_witness :
  exists items,
    generate_action_items [] (Some example_user) [] = Ok items
    /\ items = [u "开始记录血糖数据"].
Proof.
  destruct (generate_action_items_bounds [] example_user [])
    as [items [H [_ Hnil]]].
  exists items. split; [exact H|exact (Hnil eq_refl)].
Defined.

Lemma aggregate_with_advice (intent content : pystr) :
  str_in (u "建议") content = true ->
  aggregate intent [content] = content ++ disclaimer.
Proof.
  intros H. unfold aggregate.
  assert (Hne : nonempty content = true).
  { destruct content; [vm_compute in H; discriminate H|reflexivity]. }
  cbn [filter]. rewrite Hne. cbn [join]. rewrite H.
  rewrite !orb_true_r. reflexivity.
Qed.

(** X22. The weekly report of a user row that exists, for a week that holds
    readings, fewer than three or none beyond 1e150 in magnitude (so
    that the squares of the stability test stay inside the floats): the
    report is returned; the count it reports is the number of the
    user's readings inside the week window; the text always has the
    section of action items, and with it the word that makes the reply
    aggregation append the medical disclaimer.  The reply without data
    does not get it. *)
Theorem weekly_report_carries_disclaimer {F : Format} (db : DB)
        (user_id now : Z) (user : User.t) :
  find_user db user_id = Some user ->
  has_reading_in_week db user_id now ->
  week_values_fit db user_id now ->
  exists report content,
    fst (generate_weekly_report user_id now db) = Ok report
    /\ dict_get report "content" = VStr content
    /\ dict_get report "total_measurements"
       = VInt (Z.of_nat
                 (List.length
                    (filter (fun r => in_window user_id (week_start_of now)
                                                (week_end_of now)
                                                (GlucoseReading.user_id r)
                                                (GlucoseReading.timestamp r))
                            (glucose_readings db))))
    /\ str_in (u "建议") content = true
    /\ aggregate (u "weekly_report") [content] = content ++ disclaimer
    /\ aggregate (u "weekly_report") [no_data_content] = no_data_content.
Proof.
  intros Hu Hin Hfit. unfold week_values_fit in Hfit.
  unfold generate_weekly_report.
  assert (Hlen : List.length (week_readings db user_id now)
                 = List.length
                     (filter (fun r => in_window user_id (week_start_of now)
                                                 (week_end_of now)
                                                 (GlucoseReading.user_id r)
                                                 (GlucoseReading.timestamp r))
                             (glucose_readings db))).
  { unfold week_readings. apply order_by_timestamp_length. }
  rewrite <- Hlen.
  destruct (week_readings db user_id now) as [|r rs] eqn:E.
  { apply week_readings_nil in E. contradiction. }
  rewrite Hu. cbv zeta.
  change (List.length (r :: rs) =? 0)%nat with false. cbv iota.
  rewrite calculate_target_compliance_user by discriminate.
  cbn [rbind].
  match goal with
  | |- context [generate_action_items (r :: rs) (Some user) ?p] =>
    destruct (generate_action_items_length (r :: rs) user p) as [items [Hitems _]];
      pose proof (generate_action_items_nonempty (r :: rs) user p items Hitems)
      as Hne
  end.
  rewrite Hitems. cbn [rbind].
  destruct (@identify_positive_progress_user F user (r :: rs) Hfit)
    as [progress Hprogress].
  rewrite Hprogress. cbn [rbind fst].
  eexists. eexists. split; [reflexivity|]. split; [reflexivity|].
  split; [reflexivity|].
  match goal with
  | |- str_in _ ?c = true /\ _ =>
    assert (Hc : str_in (u "建议") c = true)
      by (apply report_content_has_advice; exact Hne)
  end.
  split; [exact Hc|]. split; [now apply aggregate_with_advice|].
  vm_compute. reflexivity.
Qed.

Lemma weekly_report_carries_disclaimer_witness :
  exists report content,
    fst (@generate_weekly_report plain_format 1 example_now example_db) = Ok report
    /\ dict_get report "content" = VStr content
    /\ dict_get report "total_measurements" = VInt 1
    /\ aggregate (u "weekly_report") [content] = content ++ disclaimer.
Proof.
  destruct (@weekly_report_carries_disclaimer plain_format example_db 1
              example_now example_user eq_refl example_db_has_reading
              example_db_values_fit)
    as [report [content [H [Hc [Ht [_ [Ha _]]]]]]].
  exists report, content.
  split; [exact H|]. split; [exact Hc|]. split; [|exact Ha].
  rewrite Ht. vm_compute. reflexivity.
Defined.

(** ** Asking about the latest value *)

Lemma latest_reading_fold (user_id : Z) (rows : list GlucoseReading.t)
      (best : option GlucoseReading.t) :
  let step := fun (best : option GlucoseReading.t) (r : GlucoseReading.t) =>
                if (GlucoseReading.user_id r =? user_id)%Z then
                  match best with
                  | None => Some r
                  | Some b =>
                    if (GlucoseReading.timestamp b <? GlucoseReading.timestamp r)%Z
                    then Some r else best
                  end
                else best in
  match fold_left step rows best with
  | None =>
    best = None
    /\ forall r, In r rows -> GlucoseReading.user_id r <> user_id
  | Some latest =>
    (Some latest = best \/ (In latest rows /\ GlucoseReading.user_id latest = user_id))
    /\ (forall b, best = Some b ->
                  (GlucoseReading.timestamp b <= GlucoseReading.timestamp latest)%Z)
    /\ (forall r, In r rows -> GlucoseReading.user_id r = user_id ->
                  (GlucoseReading.timestamp r <= GlucoseReading.timestamp latest)%Z)
  end.
Proof.
  cbv zeta. revert best. induction rows as [|x rows IH]; intros best.
  - cbn [fold_left]. destruct best as [b|].
    + split; [left; reflexivity|]. split.
      * intros b' H. inversion H; subst. lia.
      * intros r [].
    + split; [reflexivity|]. intros r [].
  - cbn [fold_left].
    destruct (GlucoseReading.user_id x =? user_id)%Z eqn:Ex.
    + apply Z.eqb_eq in Ex.
      destruct best as [b|].
      * destruct (GlucoseReading.timestamp b <? GlucoseReading.timestamp x)%Z eqn:Et.
        -- apply Z.ltb_lt in Et. specialize (IH (Some x)).
           destruct (fold_left _ rows (Some x)) as [latest|].
           ++ destruct IH as [Hl [Hb Hr]]. specialize (Hb x eq_refl).
              split.
              { right. destruct Hl as [Hl|[Hl Hu]].
                - injection Hl as ->. split; [left; reflexivity|exact Ex].
                - split; [right; exact Hl|exact Hu]. }
              split.
              { intros b' H. inversion H; subst. lia. }
              intros r [->|Hin] Hu; [exact Hb|now apply Hr].
           ++ destruct IH as [H _]. discriminate H.
        -- apply Z.ltb_ge in Et. specialize (IH (Some b)).
           destruct (fold_left _ rows (Some b)) as [latest|].
           ++ destruct IH as [Hl [Hb Hr]]. specialize (Hb b eq_refl).
              split.
              { destruct Hl as [Hl|[Hl Hu]]; [left; exact Hl|].
                right. split; [right; exact Hl|exact Hu]. }
              split.
              { intros b' H. inversion H; subst. exact Hb. }
              intros r [->|Hin] Hu; [lia|now apply Hr].
           ++ destruct IH as [H _]. discriminate H.
      * specialize (IH (Some x)).
        destruct (fold_left _ rows (Some x)) as [latest|].
        -- destruct IH as [Hl [Hb Hr]]. specialize (Hb x eq_refl).
           split.
           { right. destruct Hl as [Hl|[Hl Hu]].
             - injection Hl as ->. split; [left; reflexivity|exact Ex].
             - split; [right; exact Hl|exact Hu]. }
           split; [discriminate|].
           intros r [->|Hin] Hu; [exact Hb|now apply Hr].
        -- destruct IH as [H _]. discriminate H.
    + apply Z.eqb_neq in Ex. specialize (IH best).
      destruct (fold_left _ rows best) as [latest|].
      * destruct IH as [Hl [Hb Hr]].
        split.
        { destruct Hl as [Hl|[Hl Hu]]; [left; exact Hl|].
          right. split; [right; exact Hl|exact Hu]. }
        split; [exact Hb|].
        intros r [->|Hin] Hu; [contradiction|now apply Hr].
      * destruct IH as [Hb Hr]. split; [exact Hb|].
        intros r [->|Hin]; [exact Ex|now apply Hr].
Qed.

Lemma latest_reading_some (db : DB) (user_id : Z) (latest : GlucoseReading.t) :
  latest_reading db user_id = Some latest ->
  In latest (glucose_readings db)
  /\ GlucoseReading.user_id latest = user_id
  /\ forall r, In r (glucose_readings db) ->
               GlucoseReading.user_id r = user_id ->
               (GlucoseReading.timestamp r <= GlucoseReading.timestamp latest)%Z.
Proof.
  intros H. pose proof (latest_reading_fold user_id (glucose_readings db) None) as Hf.
  cbv zeta in Hf. unfold latest_reading in H. rewrite H in Hf.
  destruct Hf as [[Hl|[Hl Hu]] [_ Hr]]; [discriminate Hl|].
  auto.
Qed.

Lemma latest_reading_none (db : DB) (user_id : Z) :
  latest_reading db user_id = None <->
  forall r, In r (glucose_readings db) -> GlucoseReading.user_id r <> user_id.
Proof.
  pose proof (latest_reading_fold user_id (glucose_readings db) None) as Hf.
  cbv zeta in Hf. unfold latest_reading.
  destruct (fold_left _ (glucose_readings db) None) as [latest|].
  - destruct Hf as [[Hl|[Hl Hu]] _]; [discriminate Hl|].
    split; [discriminate|]. intros H. exfalso. exact (H latest Hl Hu).
  - destruct Hf as [_ Hr]. split; auto.
Qed.

(** X23. The reading that a status question is about: a reading of the user
    with the greatest timestamp among the user's readings, and none
    exactly when the user has no reading.  Without one, the handler
    answers with the request to record a value first and writes nothing. *)
Theorem ask_value_status_latest {F : Format} (db : DB) (user_id : Z)
        (message : pystr) (now : Z) :
  (forall latest,
      latest_reading db user_id = Some latest ->
      In latest (glucose_readings db)
      /\ GlucoseReading.user_id latest = user_id
      /\ forall r, In r (glucose_readings db) ->
                   GlucoseReading.user_id r = user_id ->
                   (GlucoseReading.timestamp r <= GlucoseReading.timestamp latest)%Z)
  /\ (latest_reading db user_id = None <->
      forall r, In r (glucose_readings db) -> GlucoseReading.user_id r <> user_id)
  /\ (latest_reading db user_id = None ->
      _handle_ask_value_status user_id message now db
      = (Ok [ ("message",
               VStr (u "抱歉，我没有找到您最近的血糖记录。请先记录一次血糖测量。")) ],
         db)).
Proof.
  split; [apply latest_reading_some|]. split; [apply latest_reading_none|].
  intros H. unfold _handle_ask_value_status. rewrite H. reflexivity.
Qed.

(** X24. A status question for a user row that exists and a latest reading:
    the reading is analysed again, this time under the context stored
    with it and the targets of the user for that context; the risk level
    found is written over the one the reading had, and one more analysis
    event is appended on every question.  The answer opens with the
    value. *)
Theorem ask_value_status_reanalyses {F : Format} (db : DB) (user_id : Z)
        (message : pystr) (now : Z) (user : User.t) (latest : GlucoseReading.t) :
  find_user db user_id = Some user ->
  latest_reading db user_id = Some latest ->
  GlucoseReading.id latest <> 0%Z ->
  let context := GlucoseReading.context latest in
  let risk_level :=
    fst (level_and_conclusion
           (_assess_risk (GlucoseReading.value latest)
                         (fst (_get_target_range user context))
                         (snd (_get_target_range user context)) context)) in
  exists formatted reasoning event,
    _handle_ask_value_status user_id message now db
    = (Ok [ ("message",
             VStr (join (nl ++ nl)
                        [ u "您最近的血糖值是 "
                            ++ format_1f (GlucoseReading.value latest)
                            ++ u " mmol/L";
                          formatted ])) ],
       with_analysis db (GlucoseReading.id latest) risk_level reasoning event)
    /\ AnalysisEvent.risk_level event = risk_level
    /\ AnalysisEvent.glucose_reading_id event = Some (GlucoseReading.id latest)
    /\ AnalysisEvent.user_id event = user_id.
Proof.
  intros Hu Hl Hid. cbv zeta.
  destruct (analyze_glucose_with_reading user_id (GlucoseReading.value latest)
              (GlucoseReading.context latest) (GlucoseReading.id latest) now db
              user Hu Hid)
    as [analysis [event [rl [re [Ha [_ [_ [_ [Heu [Her [Hel [_ Hrl]]]]]]]]]]]].
  destruct (analyze_glucose_shape user_id (GlucoseReading.value latest)
              (GlucoseReading.context latest) (Some (GlucoseReading.id latest))
              now db)
    as [analysis' [db2 [Ha' [_ Hshape]]]].
  rewrite Ha in Ha'. injection Ha' as <- _.
  destruct (_format_analysis_total analysis Hshape) as [formatted Hf].
  exists formatted, re, event.
  split; [|rewrite <- Hrl; auto].
  unfold _handle_ask_value_status. rewrite Hl.
  unfold mbind at 1. rewrite Ha.
  unfold mbind at 1, lift at 1. rewrite Hf. rewrite <- Hrl. reflexivity.
Qed.

(** The reading of [fasting_user_db] after the record turn: stored as a
    fasting value of 7.5 and marked normal by the analysis of that turn. *)
Definition recorded_db : DB :=
  mkDB [User.mk 1 (Some 4.4%Q) (Some 7.0%Q) None]
       [ GlucoseReading.mk 1 1 7.5 mmol_L example_now (Some fasting)
                           (Some (u "snack")) None (Some (u "normal")) None ]
       [] [] [] [] [] [].

Lemma ask_value_status_reanalyses_witness :
  exists message db' reading event,
    @_handle_ask_value_status plain_format 1 (u "血糖怎么样") example_now recorded_db
    = (Ok [("message", VStr message)], db')
    /\ glucose_readings db' = [reading]
    /\ GlucoseReading.risk_level reading = Some (u "moderate")
    /\ analysis_events db' = [event]
    /\ AnalysisEvent.risk_level event = u "moderate".
Proof.
  destruct (@ask_value_status_reanalyses plain_format recorded_db 1
              (u "血糖怎么样") example_now
              (User.mk 1 (Some 4.4%Q) (Some 7.0%Q) None)
              (GlucoseReading.mk 1 1 7.5 mmol_L example_now (Some fasting)
                                 (Some (u "snack")) None (Some (u "normal")) None)
              eq_refl eq_refl ltac:(discriminate))
    as [formatted [re [event [H [Hel _]]]]].
  assert (Hlevel :
            fst (level_and_conclusion
                   (@_assess_risk plain_format 7.5 4.4 7.0 (Some fasting)))
            = u "moderate") by (vm_compute; reflexivity).
  eexists. eexists. eexists. exists event.
  split; [exact H|].
  split; [reflexivity|].
  split; [cbn; f_equal; exact Hlevel|].
  split; [reflexivity|].
  rewrite Hel. exact Hlevel.
Defined.

Lemma ask_value_status_latest_witness :
  latest_reading example_db 2 = None
  /\ @_handle_ask_value_status plain_format 2 (u "血糖怎么样") example_now example_db
     = (Ok [ ("message",
              VStr (u "抱歉，我没有找到您最近的血糖记录。请先记录一次血糖测量。")) ],
        example_db).
Proof.
  split; [reflexivity|].
  exact (proj2 (proj2 (@ask_value_status_latest plain_format example_db 2
                         (u "血糖怎么样") example_now)) eq_refl).
Defined.

(** ** Intents *)

Definition intents : list pystr :=
  map u [ "record_glucose"; "record_meal"; "record_exercise";
          "record_medication"; "ask_value_status"; "weekly_report";
          "ask_education"; "emotional_support"; "risk_alert"; "general" ].

Lemma _classify_intent_in_intents {U : Unicode} (message : pystr) :
  In (_classify_intent message) intents.
Proof.
  unfold _classify_intent, intents. cbv zeta. cbn [map In].
  repeat match goal with
         | |- context [if ?b then _ else _] => destruct b; [tauto|]
         end.
  tauto.
Qed.

(** X25. _classify_intent answers with one of the ten intents that the
    routing step knows.  A message that names the blood sugar and holds a
    digit is always taken as a new reading, so a message classified as a
    question about the latest value never holds a digit: a question that
    quotes a number is recorded, not answered. *)
Theorem classify_intent_range {U : Unicode} (message : pystr) :
  In (_classify_intent message) intents
  /\ (str_in (u "血糖") message = true ->
      existsb is_digit message = true ->
      _classify_intent message = u "record_glucose")
  /\ (_classify_intent message = u "ask_value_status" ->
      str_in (u "血糖") message = true /\ existsb is_digit message = false).
Proof.
  split; [apply _classify_intent_in_intents|].
  unfold _classify_intent. cbv zeta.
  destruct (str_in (u "血糖") message) eqn:Eg;
    destruct (existsb is_digit message) eqn:Ed; cbn [orb andb].
  - split; [reflexivity|]. intros H. vm_compute in H. discriminate H.
  - split; [discriminate|]. intros _. split; reflexivity.
  - split; [discriminate|].
    destruct (str_in (u "测了") message || str_in (u "测量") message); cbn [andb].
    + intros H. vm_compute in H. discriminate H.
    + rewrite ?andb_false_r.
      repeat match goal with
             | |- context [if ?b then _ else _] =>
               destruct b; [intros H; vm_compute in H; discriminate H|]
             end.
      intros H. vm_compute in H. discriminate H.
  - split; [discriminate|].
    rewrite ?andb_false_r.
    repeat match goal with
           | |- context [if ?b then _ else _] =>
             destruct b; [intros H; vm_compute in H; discriminate H|]
           end.
    intros H. vm_compute in H. discriminate H.
Qed.

Lemma classify_intent_range_witness :
  str_in (u "血糖") (u "血糖8.5高吗") = true
  /\ existsb (@is_digit basic_unicode) (u "血糖8.5高吗") = true
  /\ @_classify_intent basic_unicode (u "血糖8.5高吗") = u "record_glucose".
Proof.
  assert (H1 : str_in (u "血糖") (u "血糖8.5高吗") = true) by (vm_compute; reflexivity).
  assert (H2 : existsb (@is_digit basic_unicode) (u "血糖8.5高吗") = true)
    by (vm_compute; reflexivity).
  split; [exact H1|]. split; [exact H2|].
  exact (proj1 (proj2 (@classify_intent_range basic_unicode (u "血糖8.5高吗")))
               H1 H2).
Defined.

(** ** Turns that store nothing but their state *)

(** Every table but the conversation states is the one of [db]. *)
Definition same_records (db db' : DB) : Prop :=
  users db' = users db
  /\ glucose_readings db' = glucose_readings db
  /\ meal_entries db' = meal_entries db
  /\ exercise_records db' = exercise_records db
  /\ medication_records db' = medication_records db
  /\ analysis_events db' = analysis_events db
  /\ weekly_reports db' = weekly_reports db.

Lemma returns_route_quiet {U : Unicode} {F : Format} (P : DB -> Prop)
      (intent : pystr) (user_id : Z) (message : pystr) (slots : pydict) (now : Z) :
  intent = u "ask_education" \/ intent = u "emotional_support"
  \/ intent = u "risk_alert" \/ intent = u "general" ->
  returns P (route intent user_id message slots now) (fun _ => True).
Proof.
  intros [->|[->|[->| ->]]]; unfold route; cbv zeta; decide_intent_tests.
  - destruct (answer_question_strings message (Some user_id)) as [[answer Ha] Hp].
    eapply returns_bind with (Q := fun _ => True).
    { apply returns_lift. rewrite Ha. eauto. }
    intros a _. rewrite Hp. change (truthy (VStr [])) with false. cbv iota.
    eapply returns_bind with (Q := fun _ => True); [now apply returns_mret|].
    intros parts _. now apply returns_mret.
  - destruct (provide_support_strings message (Some user_id))
      as [empathy [encouragement [He Hc]]].
    eapply returns_bind with (Q := fun _ => True).
    { apply returns_lift. rewrite He. eauto. }
    intros e _.
    eapply returns_bind with (Q := fun _ => True).
    { apply returns_lift. rewrite Hc. eauto. }
    intros c _. now apply returns_mret.
  - now apply returns_mret.
  - now apply returns_mret.
Qed.

(** X26. A turn whose intent is a question of education, emotional support, a
    risk alert or the general fallback reads and writes no health data:
    it returns its reply, and every table except the conversation states
    is exactly as before. *)
Theorem quiet_turn_keeps_records {U : Unicode} {F : Format} (user_id : Z)
        (session_id message : pystr) (now : Z) (db : DB) :
  ascii_conformant U ->
  _classify_intent message = u "ask_education"
  \/ _classify_intent message = u "emotional_support"
  \/ _classify_intent message = u "risk_alert"
  \/ _classify_intent message = u "general" ->
  exists result db',
    process_message user_id session_id message now db = (Ok result, db')
    /\ same_records db db'.
Proof.
  intros HU Hint.
  assert (H : returns (same_records db)
                      (process_message user_id session_id message now)
                      (fun _ => True)).
  { unfold process_message. cbv zeta.
    eapply returns_bind with (Q := fun _ => True).
    { apply returns_lift. destruct (_extract_slots_total HU message) as [slots ->].
      eauto. }
    intros slots _.
    eapply returns_bind with (Q := fun _ => True).
    { intros db0 Hdb0. unfold _update_conversation_state. cbv zeta.
      eexists. eexists. split; [reflexivity|]. split; [exact Hdb0|exact I]. }
    intros [] _.
    eapply returns_bind with (Q := fun _ => True).
    { apply returns_route_quiet. exact Hint. }
    intros [[reply_parts actions_taken] needs_clarification] _.
    eapply returns_bind with (Q := fun _ => True).
    { apply returns_lift.
      destruct (add_empathy_total (_detect_sentiment message) message user_id
                                  reply_parts) as [parts ->].
      eauto. }
    intros parts _. now apply returns_mret. }
  destruct (H db) as [result [db' [Hrun [Hrec _]]]].
  { repeat split. }
  exists result, db'. split; [exact Hrun|exact Hrec].
Qed.

Lemma quiet_turn_keeps_records_witness :
  exists result db',
    @process_message basic_unicode plain_format 1 (u "s1") (u "害怕")
                     example_now example_db
    = (Ok result, db')
    /\ same_records example_db db'.
Proof.
  apply (@quiet_turn_keeps_records basic_unicode plain_format 1 (u "s1")
           (u "害怕") example_now example_db basic_unicode_conformant).
  right. right. right. vm_compute. reflexivity.
Defined.

(** ** The education agent *)

Definition education_fallback : pystr :=
  u "这个问题我还在学习中。关于血糖管理，建议关注：低GI饮食、控制总能量、规律运动、定期监测。如有具体问题，可以详细描述。".

Lemma knowledge_keys_keep_their_characters :
  forallb (fun '(keyword, _) => str_eqb (remove_char 20540 keyword) keyword)
          knowledge_base = true.
Proof. vm_compute. reflexivity. Qed.

Lemma answer_question_lookup {U : Unicode} (question : pystr) (user_id : option Z) :
  exists answer,
    lookup "answer" (answer_question question user_id) = Some (VStr answer)
    /\ lookup "personalized" (answer_question question user_id) = Some (VStr [])
    /\ ((forall keyword info, In (keyword, info) knowledge_base ->
                              str_in keyword (str_lower question) = false) ->
        answer = education_fallback).
Proof.
  unfold answer_question. cbv zeta.
  destruct (find _ knowledge_base) as [[keyword info]|] eqn:E.
  - eexists. split; [reflexivity|]. split.
    + change (lookup "personalized" _)
        with (Some (VStr (if truthy (opt_int user_id)
                          then _personalize_advice keyword (or_default user_id 0%Z)
                          else []))).
      destruct (truthy (opt_int user_id)); reflexivity.
    + intros Hno. exfalso. apply find_some in E as [Hin Hf].
      pose proof knowledge_keys_keep_their_characters as Hk.
      rewrite forallb_forall in Hk. specialize (Hk _ Hin). cbv beta iota in Hk.
      apply str_eqb_eq in Hk. rewrite Hk in Hf.
      rewrite (Hno keyword info Hin) in Hf. discriminate Hf.
  - eexists. split; [reflexivity|]. split; [reflexivity|]. intros _.
    unfold education_fallback. reflexivity.
Qed.

(** X27. The reply to a question of education has exactly one part, the
    answer: the personalised advice is the empty string for every topic
    and user, so the second part is never added.  The replacement made
    on each keyword before matching changes none of them, so a topic is
    matched by its keyword alone; when no keyword occurs in the
    lower-cased question the answer is the general advice, whose wording
    makes the reply aggregation append the medical disclaimer. *)
Theorem education_reply_single_part {U : Unicode} {F : Format} (user_id : Z)
        (message : pystr) (slots : pydict) (now : Z) (db : DB) :
  exists answer,
    route (u "ask_education") user_id message slots now db
    = (Ok ([answer], [u "科普教育"], []), db)
    /\ dict_get (answer_question message (Some user_id)) "answer" = VStr answer
    /\ dict_get (answer_question message (Some user_id)) "personalized" = VStr []
    /\ ((forall keyword info, In (keyword, info) knowledge_base ->
                              str_in keyword (str_lower message) = false) ->
        answer = education_fallback
        /\ aggregate (u "ask_education") [answer] = answer ++ disclaimer).
Proof.
  destruct (answer_question_lookup message (Some user_id)) as [answer [Ha [Hp Hf]]].
  exists answer. split; [|split; [|split]].
  - unfold route. cbv zeta. decide_intent_tests.
    unfold mbind, lift, mret, item_str, dict_item, dict_get.
    rewrite Ha, Hp. reflexivity.
  - unfold dict_get. now rewrite Ha.
  - unfold dict_get. now rewrite Hp.
  - intros Hno. specialize (Hf Hno). split; [exact Hf|].
    apply aggregate_with_advice. rewrite Hf. vm_compute. reflexivity.
Qed.

Lemma education_reply_single_part_witness :
  @route basic_unicode plain_format (u "ask_education") 1 (u "解释一下胰岛素") []
         example_now example_db
  = (Ok ([education_fallback], [u "科普教育"], []), example_db)
  /\ aggregate (u "ask_education") [education_fallback]
     = education_fallback ++ disclaimer.
Proof.
  destruct (@education_reply_single_part basic_unicode plain_format 1
              (u "解释一下胰岛素") [] example_now example_db)
    as [answer [H [_ [_ Hf]]]].
  assert (Hno : forall keyword info,
             In (keyword, info) knowledge_base ->
             str_in keyword (@str_lower basic_unicode (u "解释一下胰岛素")) = false).
  { intros keyword info Hin.
    assert (Hall : forallb (fun '(k, _) =>
                              negb (str_in k (@str_lower basic_unicode
                                                         (u "解释一下胰岛素"))))
                           knowledge_base = true) by (vm_compute; reflexivity).
    rewrite forallb_forall in Hall. specialize (Hall _ Hin). cbv beta iota in Hall.
    now apply negb_true_iff in Hall. }
  destruct (Hf Hno) as [Ha Hagg]. rewrite Ha in H, Hagg.
  split; [exact H|exact Hagg].
Defined.

(** * tools.py: the agents as tools

    Each tool calls one agent for the fixed user 1 and turns the dict it
    gets into the text of the tool.  The agents return a dict on every
    path, so the test isinstance(result, dict) holds and only that branch
    is kept; [py_str] stands for str() of a dict, which the source falls
    back to when a key is missing or no part is left. *)

Section Tools.
Context {U : Unicode} {F : Format}.
Variable py_str : pydict -> pystr.

Definition USER_ID : Z := 1.

(** d.get(key, default) *)
Definition dict_get_or (d : pydict) (key : string) (default : pyval) : pyval :=
  match lookup key d with
  | Some v => v
  | None => default
  end.

(** def log_glucose_reading(text) *)
Definition log_glucose_reading (text : pystr) (now : Z) : M pyval :=
  let+ result := log_glucose USER_ID text None None None None None now in
  mret (dict_get_or result "message" (VStr (py_str result))).

(** def log_meal_entry(text) *)
Definition log_meal_entry (text : pystr) (now : Z) : M pyval :=
  let+ result := log_meal USER_ID text None None None now in
  mret (dict_get_or result "message" (VStr (py_str result))).

(** A value that is joined into a text has to be a string. *)
Definition joined (v : pyval) : result pystr :=
  match v with
  | VStr s => Ok s
  | _ => Raise TypeError
  end.

(** def analyze_current_glucose(text) *)
Definition analyze_current_glucose (text : pystr) (now : Z) : M pyval :=
  let+ value := lift (extract_glucose_value text) in
  match value with
  | Some v =>
    let+ result := analyze_glucose USER_ID v None None now in
    let+ conclusion := lift (joined (dict_get_or result "conclusion" (VStr []))) in
    let parts := [conclusion] in
    let+ parts :=
      if truthy (dict_get result "reasoning") then
        let+ reasoning := lift (item_str result "reasoning") in
        mret (parts ++ [u "依据：" ++ reasoning])
      else mret parts in
    let parts :=
      if truthy (dict_get result "suggestions") then
        parts ++ [u "建议：" ++ nl
                    ++ join nl (map (fun s => u "• " ++ s)
                                    (as_str_list (dict_get result "suggestions")))]
      else parts in
    mret (VStr (join nl parts))
  | None => mret (VStr (u "请先告诉我您的血糖数值是多少。"))
  end.

(** def answer_general_health_question(question) *)
Definition answer_general_health_question (question : pystr) : pyval :=
  let result := answer_question question None in
  dict_get_or result "answer" (VStr (py_str result)).

(** def provide_emotional_support(text) *)
Definition provide_emotional_support (text : pystr) : result pyval :=
  let result := provide_support text None in
  let parts := [] in
  let* parts :=
    if truthy (dict_get result "empathy") then
      let* empathy := item_str result "empathy" in Ok (parts ++ [empathy])
    else Ok parts in
  let* parts :=
    if truthy (dict_get result "encouragement") then
      let* encouragement := item_str result "encouragement" in
      Ok (parts ++ [encouragement])
    else Ok parts in
  let parts :=
    if truthy (dict_get result "next_steps") then
      parts ++ [u "建议：" ++ nl
                  ++ join nl (map (fun s => u "• " ++ s)
                                  (as_str_list (dict_get result "next_steps")))]
    else parts in
  match parts with
  | [] => Ok (VStr (py_str result))
  | _ => Ok (VStr (join nl parts))
  end.

End Tools.

(** ** What the tools do *)

Lemma analyze_glucose_without_reading {F : Format} (user_id : Z) (value : Q)
      (context : option pystr) (now : Z) (db : DB) :
  exists analysis,
    analyze_glucose user_id value context None now db = (Ok analysis, db)
    /\ analysis_shape analysis
    /\ (find_user db user_id = None ->
        lookup "conclusion" analysis = Some (VStr (u "未找到用户信息"))
        /\ lookup "reasoning" analysis = Some (VStr [])
        /\ lookup "suggestions" analysis = Some (VList [])).
Proof.
  destruct (analyze_glucose_shape user_id value context None now db)
    as [analysis [db' [H [_ Hs]]]].
  exists analysis.
  assert (Hdb : db' = db /\ (find_user db user_id = None ->
                lookup "conclusion" analysis = Some (VStr (u "未找到用户信息"))
                /\ lookup "reasoning" analysis = Some (VStr [])
                /\ lookup "suggestions" analysis = Some (VList []))).
  { revert H. unfold analyze_glucose.
    destruct (find_user db user_id) as [user|].
    - destruct (_get_target_range user context) as [lo hi].
      destruct (_assess_risk value lo hi context) as [[[rl co] re] su].
      cbv zeta. cbn [opt_int truthy]. intros H. inversion H.
      split; [reflexivity|discriminate].
    - intros H. inversion H. split; [reflexivity|]. intros _. repeat split. }
  destruct Hdb as [-> Hnone]. auto.
Qed.

(** X28. The reading that the logging tool stores is never analysed: the tool
    appends the reading for user 1 and returns the confirmation, and the
    reading is left without a risk level and without an analysis event,
    unlike a reading recorded through the orchestrator.  For a text
    without a digit the tool stores nothing and returns the request to
    say the value again.  The fallback text plays no part. *)
Theorem tool_reading_stays_unanalysed {U : Unicode} {F : Format}
        (py_str : pydict -> pystr) (text : pystr) (now : Z) (db : DB) :
  ascii_conformant U ->
  (no_digit text ->
   log_glucose_reading py_str text now db = (Ok (VStr no_value_message), db))
  /\ (~ no_digit text ->
      exists message reading,
        log_glucose_reading py_str text now db
        = (Ok (VStr message),
           set_glucose_readings db (glucose_readings db ++ [reading]))
        /\ GlucoseReading.user_id reading = USER_ID
        /\ GlucoseReading.timestamp reading = now
        /\ GlucoseReading.risk_level reading = None
        /\ GlucoseReading.analysis_notes reading = None).
Proof.
  intros HU. split.
  - intros Hn. unfold log_glucose_reading, mbind.
    rewrite (log_glucose_no_value USER_ID text None None None None None now db Hn).
    reflexivity.
  - intros Hn. unfold log_glucose_reading, mbind.
    destruct (log_glucose_stores USER_ID text None None None None None now db HU Hn)
      as [message [mi [reading [-> [_ [Hu [_ [Ht [Hr Ha]]]]]]]]].
    exists message, reading. split; [reflexivity|]. auto.
Qed.

Lemma tool_reading_stays_unanalysed_witness :
  exists message reading,
    @log_glucose_reading basic_unicode plain_format (fun _ => [])
                         (u "血糖153mg") example_now example_db
    = (Ok (VStr message),
       set_glucose_readings example_db (glucose_readings example_db ++ [reading]))
    /\ GlucoseReading.risk_level reading = None.
Proof.
  assert (Hn : ~ @no_digit basic_unicode (u "血糖153mg")).
  { intros H. apply Forall_forall with (x := 49%N) in H.
    - vm_compute in H. discriminate H.
    - vm_compute. tauto. }
  destruct (proj2 (@tool_reading_stays_unanalysed basic_unicode plain_format
                     (fun _ => []) (u "血糖153mg") example_now example_db
                     basic_unicode_conformant) Hn)
    as [message [reading [H [_ [_ [Hr _]]]]]].
  exists message, reading. split; [exact H|exact Hr].
Defined.

(** X29. The analysis tool never raises and never writes: it answers with a
    text and leaves the database exactly as it was, since it passes no
    reading id.  For a text without a digit the text is the request for a
    value, and when user 1 has no user row it is the bare conclusion that
    the user was not found. *)
Theorem tool_analysis_reads_only {U : Unicode} {F : Format} (text : pystr)
        (now : Z) (db : DB) :
  ascii_conformant U ->
  exists answer,
    analyze_current_glucose text now db = (Ok (VStr answer), db)
    /\ (no_digit text -> answer = u "请先告诉我您的血糖数值是多少。")
    /\ (~ no_digit text -> find_user db USER_ID = None ->
        answer = u "未找到用户信息").
Proof.
  intros HU. unfold analyze_current_glucose.
  destruct (extract_glucose_value_total HU text) as [[v|] Hv].
  - unfold mbind at 1, lift at 1. rewrite Hv.
    destruct (analyze_glucose_without_reading USER_ID v None now db)
      as [analysis [Ha [[co [re [su [Hco [Hre [Hsu _]]]]]] Hnone]]].
    unfold mbind at 1. rewrite Ha.
    unfold mbind, lift, mret, dict_get_or, item_str, dict_item, dict_get, joined.
    rewrite Hco, Hre, Hsu. cbn [rbind].
    assert (Hdigit : ~ no_digit text).
    { intros Hn. apply extract_glucose_value_none in Hn. congruence. }
    destruct (truthy (VStr re)) eqn:Etr; cbn [rbind];
      (eexists; split; [reflexivity|]);
      (split; [intros Hn; contradiction|]);
      intros _ Hu; destruct (Hnone Hu) as [Hc [Hr Hs]];
        rewrite Hco in Hc; rewrite Hre in Hr; rewrite Hsu in Hs;
          injection Hc as ->; injection Hr as ->.
    + discriminate Etr.
    + assert (Hsu0 : su = []) by (destruct su; [reflexivity|discriminate Hs]).
      rewrite Hsu0. reflexivity.
  - unfold mbind, lift, mret. rewrite Hv.
    eexists. split; [reflexivity|]. split; [reflexivity|].
    intros Hn. exfalso. apply Hn. now apply extract_glucose_value_none.
Qed.

Lemma tool_analysis_reads_only_witness :
  exists answer,
    @analyze_current_glucose basic_unicode plain_format (u "血糖7.5") example_now
                             example_db
    = (Ok (VStr answer), example_db).
Proof.
  destruct (@tool_analysis_reads_only basic_unicode plain_format (u "血糖7.5")
              example_now example_db basic_unicode_conformant)
    as [answer [H _]].
  exists answer. exact H.
Defined.

(** X30. The texts of the education and the support tool never come from the
    fallback: the answer dict always has its answer, and the support
    dict always leaves at least the encouragement, so both tools return
    the same string whatever str() of the dict would be. *)
Theorem tool_texts_need_no_fallback {U : Unicode}
        (py_str py_str' : pydict -> pystr) (text : pystr) :
  (exists answer,
      answer_general_health_question py_str text = VStr answer
      /\ answer_general_health_question py_str' text = VStr answer)
  /\ (exists support,
         provide_emotional_support py_str text = Ok (VStr support)
         /\ provide_emotional_support py_str' text = Ok (VStr support)).
Proof.
  split.
  - destruct (answer_question_lookup text None) as [answer [Ha _]].
    exists answer. unfold answer_general_health_question, dict_get_or.
    rewrite Ha. split; reflexivity.
  - unfold provide_emotional_support, provide_support. cbv zeta.
    destruct (any_in support_anxious_keywords (str_lower text));
      [|destruct (any_in support_negative_keywords (str_lower text));
        [|destruct (any_in support_positive_keywords (str_lower text))]];
      decide_intent_tests; eexists; split; reflexivity.
Qed.
